(** * Google Custom Search reports: a model of [scripts/3-report/gcs_reports.py]

    The script loads one quarter's [gcs_fetched.csv] into a pandas
    [DataFrame], draws three bar charts from it (by country, by license type,
    by language), saves them and registers them in the README, and finally
    commits and pushes.

    The development follows the script function by function:
    - [PyStr]: the string operations the script uses ([str.strip], the
      substring test [in], [os.path.join]);
    - [Pandas]: the slice of pandas it relies on (label selection, column
      assignment, [sum], [set_index], [empty], [read_csv]);
    - [Plot]: what the drawing calls are given, and the bars and tick labels
      seaborn and matplotlib make of it;
    - [Reports]: the script itself, as state-passing code over a world made of
      the object store, the regular files, the run's trace and the state of
      the external collaborators ([shared.*]). *)

From Stdlib Require Import Ascii String ZArith Lia.
From stdpp Require Import base option list strings pretty gmap.

Local Open Scope string_scope.
Local Open Scope list_scope.
Local Open Scope Z_scope.

(** ** Exceptions and fallible computations *)

(** The exceptions that can travel through the script.  All but [SystemExit]
    and [KeyboardInterrupt] are subclasses of Python's [Exception]. *)
Inductive exit_arg :=
| CodeNone
| CodeInt (n : Z)
| CodeStr (s : string).

Inductive exn :=
| ValueError (what : string)
| KeyError (what : string)
| TypeError
| ParserError
| QuantifyingException (message : string) (exit_code : Z)
| SystemExit (code : exit_arg)
| KeyboardInterrupt
| OtherException (name : string).

Inductive result (A : Type) :=
| Ok (a : A)
| Raise (e : exn).
Arguments Ok {A} a.
Arguments Raise {A} e.

Definition rbind {A B} (r : result A) (k : A -> result B) : result B :=
  match r with
  | Ok a => k a
  | Raise e => Raise e
  end.

Fixpoint rmapM {A B} (f : A -> result B) (l : list A) : result (list B) :=
  match l with
  | [] => Ok []
  | x :: l' =>
      rbind (f x) (fun y => rbind (rmapM f l') (fun ys => Ok (y :: ys)))
  end.

(** ** Python strings *)

Module PyStr.

(** A string is kept as the bytes of its UTF-8 encoding, one [ascii] each.
    The whitespace characters of [str.isspace] are, by the length of their
    encoding: TAB, LF, VT, FF, CR, the separators 0x1c-0x1f and the space;
    U+0085 and U+00A0; U+1680, U+2000 to U+200A, U+2028, U+2029, U+202F,
    U+205F and U+3000. *)
Definition byte_in (lo hi : nat) (c : ascii) : bool :=
  let n := nat_of_ascii c in (lo <=? n)%nat && (n <=? hi)%nat.

Definition space1 (a : ascii) : bool := byte_in 9 13 a || byte_in 28 32 a.

Definition space2 (a b : ascii) : bool :=
  byte_in 194 194 a && (byte_in 133 133 b || byte_in 160 160 b).

Definition space3 (a b c : ascii) : bool :=
  (byte_in 225 225 a && byte_in 154 154 b && byte_in 128 128 c)
  || (byte_in 226 226 a && byte_in 128 128 b
      && (byte_in 128 138 c || byte_in 168 169 c || byte_in 175 175 c))
  || (byte_in 226 226 a && byte_in 129 129 b && byte_in 159 159 c)
  || (byte_in 227 227 a && byte_in 128 128 b && byte_in 128 128 c).

(** Skipping the whitespace characters at the front of a string, for
    characters of one, two and three bytes told by [s1], [s2] and [s3]. *)
Section Blanks.
Variable s1 : ascii -> bool.
Variable s2 : ascii -> ascii -> bool.
Variable s3 : ascii -> ascii -> ascii -> bool.

(** The string starts with a whitespace character. *)
Definition blank_front (l : list ascii) : bool :=
  match l with
  | a :: l1 =>
      s1 a
      || match l1 with
         | b :: l2 =>
             s2 a b
             || match l2 with
                | c :: _ => s3 a b c
                | [] => false
                end
         | [] => false
         end
  | [] => false
  end.

Fixpoint skip_blanks (l : list ascii) : list ascii :=
  match l with
  | a :: l1 =>
      if s1 a then skip_blanks l1
      else match l1 with
           | b :: l2 =>
               if s2 a b then skip_blanks l2
               else match l2 with
                    | c :: l3 => if s3 a b c then skip_blanks l3 else l
                    | [] => l
                    end
           | [] => l
           end
  | [] => []
  end.

(** The string consists of whitespace characters. *)
Inductive blanks_of : list ascii -> Prop :=
| blanks_nil : blanks_of []
| blanks_one a l : s1 a = true -> blanks_of l -> blanks_of (a :: l)
| blanks_two a b l : s2 a b = true -> blanks_of l -> blanks_of (a :: b :: l)
| blanks_three a b c l :
    s3 a b c = true -> blanks_of l -> blanks_of (a :: b :: c :: l).

End Blanks.

Definition lstrip_chars (l : list ascii) : list ascii :=
  skip_blanks space1 space2 space3 l.

(** From the end the bytes of a character come last byte first. *)
Definition rstrip_chars (l : list ascii) : list ascii :=
  rev (skip_blanks space1 (fun b a => space2 a b) (fun c b a => space3 a b c)
         (rev l)).

Definition strip_chars (l : list ascii) : list ascii :=
  rstrip_chars (lstrip_chars l).

(** [s.strip()] *)
Definition strip (s : string) : string :=
  string_of_list_ascii (strip_chars (list_ascii_of_string s)).

Definition blanks : list ascii -> Prop := blanks_of space1 space2 space3.

Definition starts_blank (l : list ascii) : bool :=
  blank_front space1 space2 space3 l.

Definition ends_blank (l : list ascii) : bool :=
  blank_front space1 (fun b a => space2 a b) (fun c b a => space3 a b c)
    (rev l).

(** [s.startswith(p)] *)
Fixpoint startswith (p s : string) : bool :=
  match p, s with
  | EmptyString, _ => true
  | String a p', String b s' => if Ascii.eqb a b then startswith p' s' else false
  | String _ _, EmptyString => false
  end.

(** [p in s] on strings *)
Fixpoint contains (p s : string) : bool :=
  startswith p s ||
  match s with
  | EmptyString => false
  | String _ s' => contains p s'
  end.

(** [s.endswith("/")] *)
Fixpoint endswith_sep (s : string) : bool :=
  match s with
  | EmptyString => false
  | String c EmptyString => Ascii.eqb c "/"
  | String _ s' => endswith_sep s'
  end.

(** One step of [posixpath.join]'s loop. *)
Definition join_step (path b : string) : string :=
  if startswith "/" b then b
  else if String.eqb path "" || endswith_sep path then path +:+ b
  else path +:+ "/" +:+ b.

(** [os.path.join(a, *p)] *)
Definition path_join (a : string) (p : list string) : string :=
  fold_left join_step p a.

End PyStr.

(** ** The part of pandas the script uses *)

Module Pandas.

(** A value held in a frame or in an index: an integer, a piece of text or,
    in an index made of several columns, the tuple of a row's values.
    Floating-point and missing values are outside the model. *)
#[warnings="-register-all"]
Inductive cell :=
| Num (z : Z)
| Text (s : string)
| Tuple (cs : list cell).

Fixpoint cell_eq_dec (a b : cell) : {a = b} + {a <> b}.
Proof.
  decide equality;
    [apply Z.eq_dec | apply string_dec | apply (List.list_eq_dec cell_eq_dec)].
Defined.

#[global] Instance cell_eq : EqDecision cell := cell_eq_dec.

Definition is_num (c : cell) : bool :=
  match c with
  | Num _ => true
  | _ => false
  end.

(** A frame is kept column by column: the header and the values below it.
    Headers need not be distinct. *)
Abbreviation column := (string * list cell)%type.
Abbreviation DataFrame := (list column).

(** A labelled vector, as [DataFrame.sum] returns it. *)
Abbreviation Series L := (list (L * cell)).

(** [data.columns.tolist()] *)
Definition columns (df : DataFrame) : list string := map fst df.

(** [len(data)]: the number of rows *)
Definition nrows (df : DataFrame) : nat :=
  match df with
  | [] => 0%nat
  | c :: _ => length (snd c)
  end.

(** Every column has one value per row. *)
Definition rectangular (df : DataFrame) : Prop :=
  Forall (fun c : column => length (snd c) = nrows df) df.

(** [data.empty]: some axis has length 0 *)
Definition empty (df : DataFrame) : bool :=
  (length df =? 0)%nat || (nrows df =? 0)%nat.

(** [data.columns = data.columns.str.strip()] *)
Definition str_strip_columns (df : DataFrame) : DataFrame :=
  map (fun c : column => (PyStr.strip (fst c), snd c)) df.

(** [list.index(x)]: position of the first occurrence, [ValueError] if none *)
Fixpoint list_index (x : string) (l : list string) : result nat :=
  match l with
  | [] => Raise (ValueError x)
  | y :: l' =>
      if String.eqb y x then Ok 0%nat
      else rbind (list_index x l') (fun i => Ok (S i))
  end.

(** [l[i:j]] for in-range, non-negative [i] and [j] *)
Definition slice {A} (l : list A) (i j : nat) : list A :=
  take (j - i) (drop i l).

(** The columns of [df] labelled [key], in frame order. *)
Definition labelled (key : string) (df : DataFrame) : list column :=
  filter (fun c : column => fst c = key) df.

(** [data[keys]] with a list of labels: for each key in turn every column
    carrying that label, [KeyError] when a key labels no column. *)
Definition getitem_one (df : DataFrame) (key : string) : result (list column) :=
  match labelled key df with
  | [] => Raise (KeyError key)
  | cs => Ok cs
  end.

Definition getitem (df : DataFrame) (keys : list string) : result DataFrame :=
  rbind (rmapM (getitem_one df) keys) (fun css => Ok (concat css)).

(** A vector of integers is kept as 64-bit integers ([int64]); any other
    vector, and a vector without values, holds Python objects. *)
Definition is_int64 (v : list cell) : bool :=
  match v with
  | [] => false
  | _ => forallb is_num v
  end.

(** Two's complement on 64 bits, and the addition of two [int64] values: it
    wraps around silently. *)
Definition wrap64 (z : Z) : Z := (z + 2 ^ 63) mod 2 ^ 64 - 2 ^ 63.

Definition add64 (x y : Z) : Z := wrap64 (x + y).

(** The sum of a vector of [int64] values. *)
Fixpoint sum_int64 (l : list cell) : Z :=
  match l with
  | [] => 0
  | Num z :: l' => add64 z (sum_int64 l')
  | _ :: l' => sum_int64 l'
  end.

(** Python's [a + b] on the objects of a vector: integers add without bound,
    text and tuples are concatenated, anything else is a [TypeError]. *)
Definition py_add (a b : cell) : result cell :=
  match a, b with
  | Num x, Num y => Ok (Num (x + y))
  | Text s, Text t => Ok (Text (s +:+ t))
  | Tuple cs, Tuple ds => Ok (Tuple (cs ++ ds))
  | _, _ => Raise TypeError
  end.

Fixpoint add_from (acc : cell) (l : list cell) : result cell :=
  match l with
  | [] => Ok acc
  | x :: l' => rbind (py_add acc x) (fun acc' => add_from acc' l')
  end.

(** The sum of a vector: in 64-bit arithmetic for [int64]; for objects, 0
    when there is none, and else the first plus the second and so on. *)
Definition sum_cells (int64 : bool) (l : list cell) : result cell :=
  if int64 then Ok (Num (sum_int64 l))
  else match l with
       | [] => Ok (Num 0)
       | x :: l' => add_from x l'
       end.

(** [frame.sum()]: one total per column, labelled by the header *)
Definition sum_axis0 (df : DataFrame) : result (Series string) :=
  rmapM (fun c : column =>
           rbind (sum_cells (is_int64 (snd c)) (snd c)) (fun s => Ok (fst c, s)))
        df.

(** Row [i] of a frame. *)
Definition row (df : DataFrame) (i : nat) : list cell :=
  omap (fun c : column => snd c !! i) df.

(** The first [n] rows of a frame. *)
Definition rows (df : DataFrame) (n : nat) : list (list cell) :=
  map (row df) (seq 0 n).

(** [frame.set_index(key)]: the column labelled [key] becomes the row index
    and leaves the frame; [KeyError] when no column has the label.  When
    several columns carry the label, the index is made from all of them: of
    [int64] columns that is a two-dimensional array of numbers, which is
    refused; otherwise each row's values become one tuple. *)
Definition set_index (key : string) (df : DataFrame)
  : result (list cell * DataFrame) :=
  let rest := filter (fun c : column => fst c <> key) df in
  match labelled key df with
  | [] => Raise (KeyError key)
  | [c] => Ok (snd c, rest)
  | cs =>
      if forallb (fun c : column => is_int64 (snd c)) cs
      then Raise (ValueError "Index data must be 1-dimensional")
      else Ok (map Tuple (rows cs (nrows df)), rest)
  end.

(** [indexed.sum(axis=1)]: one total per row, labelled by the row's index
    value.  The rows of a frame of [int64] columns are [int64] vectors; the
    rows of any other frame hold objects. *)
Definition sum_axis1 (indexed : list cell * DataFrame) : result (Series cell) :=
  let '(index, df) := indexed in
  let int64 := forallb (fun c : column => is_int64 (snd c)) df in
  rmapM (fun kr : cell * list cell =>
           rbind (sum_cells int64 (snd kr)) (fun s => Ok (fst kr, s)))
        (combine index (rows df (length index))).

(** The parsed content of a CSV file: the column labels pandas takes from
    the header line (it tells repeated names apart by a numeric suffix; the
    labels here are the outcome) and the records below it. *)
Record csv := { csv_header : list string; csv_records : list (list cell) }.

(** [pd.read_csv]: labels are kept verbatim, blanks included.  A file without
    columns is an error.  A record with more fields than the header has is an
    error as well; one with fewer is padded with missing values by pandas,
    which this model does not have: it is refused here too, and the
    properties below are stated for files with one field per column. *)
Definition read_csv (f : csv) : result DataFrame :=
  match csv_header f with
  | [] => Raise (OtherException "EmptyDataError")
  | _ =>
      if forallb (fun r => (length r =? length (csv_header f))%nat)
                 (csv_records f)
      then Ok (imap (fun j h =>
                       (h, omap (fun r : list cell => r !! j) (csv_records f)))
                    (csv_header f))
      else Raise ParserError
  end.

End Pandas.

(** ** Bar charts *)

Module Plot.
Import Pandas.

Inductive tick_format :=
| CommaGrouped
| Millions.

(** What the drawing calls of a report were given: the [x] and [y] of
    [sns.barplot], the list handed to [ax.set_xticklabels] when that is
    called, the texts, and whether the bars are annotated. *)
Record Chart := {
  title : string;
  xlabel : string;
  ylabel : string;
  barplot_x : list cell;
  barplot_y : list cell;
  xticklabels : option (list cell);
  annotated : bool;
  yaxis_format : tick_format }.

(** [sns.barplot(x=..., y=...)] draws numbers only; with anything else in [y]
    it raises [TypeError].  The other drawing calls are taken not to raise. *)
Fixpoint barplot (y : list cell) : result unit :=
  match y with
  | [] => Ok tt
  | Num _ :: y' => barplot y'
  | _ :: _ => Raise TypeError
  end.

(** The categories of the x axis: the distinct values of [x], in the order
    in which they first appear ([x] being text or tuples). *)
Fixpoint categories (xs : list cell) : list cell :=
  match xs with
  | [] => []
  | x :: xs' => x :: filter (fun k => k <> x) (categories xs')
  end.

(** The values given for category [k]. *)
Fixpoint values_of (k : cell) (xs ys : list cell) : list cell :=
  match xs, ys with
  | x :: xs', y :: ys' =>
      if decide (x = k) then y :: values_of k xs' ys' else values_of k xs' ys'
  | _, _ => []
  end.

(** The bars of the figure: one per category, with the values it stands for
    (the bar is drawn at their mean). *)
Definition bars (c : Chart) : list (cell * list cell) :=
  map (fun k => (k, values_of k (barplot_x c) (barplot_y c)))
      (categories (barplot_x c)).

(** Labels put on ticks one after the other; a tick that is left without one
    shows nothing. *)
Fixpoint label_ticks (ticks labels : list cell) : list (cell * cell) :=
  match ticks, labels with
  | [], _ => []
  | k :: ticks', [] => (k, Text "") :: label_ticks ticks' []
  | k :: ticks', l :: labels' => (k, l) :: label_ticks ticks' labels'
  end.

(** The ticks of the x axis, one per category, each with the label shown
    under it: the category itself, unless [set_xticklabels] gave the ticks
    other labels, first label to first tick. *)
Definition tick_labels (c : Chart) : list (cell * cell) :=
  match xticklabels c with
  | None => map (fun k => (k, k)) (categories (barplot_x c))
  | Some labels => label_ticks (categories (barplot_x c)) labels
  end.

End Plot.

(** ** The script *)

Module Reports.
Import Pandas Plot.

(** [argparse]'s namespace, and the options as they stand on the command
    line. *)
Record Namespace := {
  quarter : string;
  skip_commit : bool;
  skip_push : bool;
  show_plots : bool }.

Record CommandLine := {
  opt_quarter : option string;
  opt_skip_commit : bool;
  opt_skip_push : bool;
  opt_show_plots : bool }.

Inductive file :=
| CsvFile (content : csv)
| PngFile (figure : Chart).

Inductive level := Info | Error.

Inductive message :=
| Msg (text : string)
| MsgColumns (text : string) (cols : list string)
| MsgCode (text : string) (code : exit_arg)
| MsgTrace (text : string) (e : exn).

(** The calls [main] makes, in the names the orchestration is described
    with. *)
Inductive step :=
| Pull
| ParseArgs
| LoadData
| CountryReport
| LicenseTypeReport
| LanguageReport
| Commit
| Push.

Inductive event :=
| Log (l : level) (m : message)
| Enter (s : step)
| Save (path : string)
| Show.

(** How the process ends. *)
Inductive outcome :=
| Finished
| Exited (code : exit_arg).

(** The surroundings of the script.  The collaborators of [shared] are only
    called: their state (the git repository and the README) is [Ext], and
    each call may raise.  It is an assumption on them, built into their
    types, that they leave alone the files the script reads and writes: the
    input file and the charts are as the script finds and makes them.
    [data_root] and [repo_root] are [PATHS["data"]] and [PATHS["repo"]]. *)
Class Environment := {
  Ext : Type;
  data_root : string;
  repo_root : string;
  today_year : nat;
  today_month : nat;
  cwd : string;
  fetch_and_merge : string -> Ext -> result unit * Ext;
  add_and_commit : string -> string -> Ext -> result unit * Ext;
  push_changes : string -> Ext -> result unit * Ext;
  update_readme :
    string -> string -> string -> string -> Namespace -> Ext -> result unit * Ext }.

Section Script.
Context `{Environment}.

(** The world the script runs in: the frames it holds references to, the
    regular files (directories are not tracked), what it logged, called,
    saved and showed so far (latest last), and the collaborators' state. *)
Record World := {
  heap : list DataFrame;
  files : gmap string file;
  trace : list event;
  ext : Ext }.

Definition M (A : Type) : Type := World -> result A * World.

Definition ret {A} (a : A) : M A := fun w => (Ok a, w).

Definition bind {A B} (m : M A) (k : A -> M B) : M B :=
  fun w =>
    match m w with
    | (Ok a, w') => k a w'
    | (Raise e, w') => (Raise e, w')
    end.

Notation "x <- m ;; k" := (bind m (fun x => k))
  (at level 90, m at level 89, k at level 90, right associativity).
Notation "m ;;; k" := (bind m (fun _ => k))
  (at level 90, k at level 90, right associativity).

Definition lift {A} (r : result A) : M A := fun w => (r, w).

Definition emit (e : event) : M unit :=
  fun w => (Ok tt, {| heap := heap w; files := files w;
                      trace := trace w ++ [e]; ext := ext w |}).

Definition log (l : level) (m : message) : M unit := emit (Log l m).

(** A call made by [main], entered in the trace under its name: the trace is
    where the order of the calls can be read off. *)
Definition call {A} (s : step) (m : M A) : M A := emit (Enter s) ;;; m.

(** A call of a collaborator. *)
Definition extern (f : Ext -> result unit * Ext) : M unit :=
  fun w =>
    let '(r, x) := f (ext w) in
    (r, {| heap := heap w; files := files w; trace := trace w; ext := x |}).

(** A new frame object. *)
Definition alloc (df : DataFrame) : M nat :=
  fun w => (Ok (length (heap w)),
            {| heap := heap w ++ [df]; files := files w;
               trace := trace w; ext := ext w |}).

Definition deref (data : nat) : M DataFrame :=
  fun w =>
    match heap w !! data with
    | Some df => (Ok df, w)
    | None => (Raise (OtherException "ReferenceError"), w)
    end.

Definition assign (data : nat) (df : DataFrame) : M unit :=
  fun w => (Ok tt, {| heap := <[data := df]> (heap w); files := files w;
                      trace := trace w; ext := ext w |}).

(** [os.path.exists] *)
Definition path_exists (p : string) : M bool :=
  fun w => (Ok (bool_decide (is_Some (files w !! p))), w).

(** [plt.savefig] *)
Definition savefig (p : string) (c : Chart) : M unit :=
  fun w => (Ok tt, {| heap := heap w; files := <[p := PngFile c]> (files w);
                      trace := trace w ++ [Save p]; ext := ext w |}).

(** [os.makedirs(p, exist_ok=True)]: directories are not part of [files]. *)
Definition makedirs (p : string) : M unit := ret tt.

Definition read_file (p : string) : M DataFrame :=
  fun w =>
    match files w !! p with
    | Some (CsvFile c) => (read_csv c, w)
    | Some (PngFile _) => (Raise ParserError, w)
    | None => (Raise (OtherException "FileNotFoundError"), w)
    end.

(** The period of today's date at quarterly frequency, printed. *)
Definition current_quarter : string :=
  pretty today_year +:+ "Q" +:+ pretty ((today_month - 1) / 3 + 1)%nat.

Definition parse_arguments (argv : CommandLine) : M Namespace :=
  log Info (Msg "Parsing command-line arguments") ;;;
  let args := {| quarter := default current_quarter (opt_quarter argv);
                 skip_commit := opt_skip_commit argv;
                 skip_push := opt_skip_push argv;
                 show_plots := opt_show_plots argv |} in
  ret (if skip_commit args
       then {| quarter := quarter args; skip_commit := skip_commit args;
               skip_push := true; show_plots := show_plots args |}
       else args).

Definition fetched_path (selected_quarter : string) : string :=
  PyStr.path_join data_root [selected_quarter; "1-fetch"; "gcs_fetched.csv"].

Definition load_data (args : Namespace) : M nat :=
  let selected_quarter := quarter args in
  let file_path := fetched_path selected_quarter in
  found <- path_exists file_path ;;
  if negb found then
    log Error (Msg ("Data file not found: " +:+ file_path)) ;;;
    alloc []
  else
    df <- read_file file_path ;;
    data <- alloc df ;;
    log Info (Msg ("Data loaded from " +:+ file_path)) ;;;
    ret data.

(** The constants in which the country report and the language report
    differ; apart from them the two functions are the same text. *)
Record SpanReport := {
  what : string;
  first_name : string;
  last_name : string;
  axis_label : string;
  image_name : string;
  readme_title : string;
  readme_section : string }.

Definition country : SpanReport := {|
  what := "country";
  first_name := "United States";
  last_name := "Japan";
  axis_label := "Country";
  image_name := "gcs_country_report.png";
  readme_title := "Number of Google Webpages Licensed by Country";
  readme_section := "Country Report" |}.

Definition language : SpanReport := {|
  what := "language";
  first_name := "English";
  last_name := "Indonesian";
  axis_label := "Language";
  image_name := "gcs_language_report.png";
  readme_title := "Number of Google Webpages Licensed by Language";
  readme_section := "Language Report" |}.

(** The names between the two sentinels, as the report takes them from the
    stripped headers. *)
Definition span_names (r : SpanReport) (df : DataFrame) : result (list string) :=
  let columns := map PyStr.strip (columns df) in
  rbind (list_index (first_name r) columns) (fun start_index =>
  rbind (list_index (last_name r) columns) (fun last_index =>
  let end_index := (last_index + 1)%nat in
  Ok (slice columns start_index end_index))).

(** [data[names].sum()] on the frame whose headers were stripped. *)
Definition span_sums (df : DataFrame) (names : list string) : result (Series string) :=
  rbind (getitem df names) sum_axis0.

Definition output_directory (selected_quarter : string) : string :=
  PyStr.path_join data_root [selected_quarter; "3-report"].

Definition image_path (selected_quarter name : string) : string :=
  PyStr.path_join (output_directory selected_quarter) [name].

Definition span_chart (r : SpanReport) (selected_quarter : string)
    (span_data : Series string) : Chart := {|
  title := readme_title r +:+ " (" +:+ selected_quarter +:+ ")";
  xlabel := axis_label r;
  ylabel := "Number of Webpages";
  barplot_x := map (fun p : string * cell => Text (fst p)) span_data;
  barplot_y := map snd span_data;
  xticklabels := None;
  annotated := true;
  yaxis_format := CommaGrouped |}.

Definition visualize_by_span (r : SpanReport) (data : nat) (args : Namespace)
  : M unit :=
  log Info (Msg ("Creating a bar chart for the number of webpages licensed by "
                 +:+ what r +:+ ".")) ;;;
  let selected_quarter := quarter args in
  df <- deref data ;;
  names <- lift (span_names r df) ;;
  assign data (str_strip_columns df) ;;;
  df <- deref data ;;
  log Info (MsgColumns "Cleaned Columns: " (columns df)) ;;;
  span_data <- lift (span_sums df names) ;;
  lift (barplot (map snd span_data)) ;;;
  let chart := span_chart r selected_quarter span_data in
  log Info (Msg ("Output directory: " +:+ output_directory selected_quarter)) ;;;
  makedirs (output_directory selected_quarter) ;;;
  savefig (image_path selected_quarter (image_name r)) chart ;;;
  (if show_plots args then emit Show else ret tt) ;;;
  extern (update_readme (image_path selected_quarter (image_name r))
            "Google Custom Search" (readme_title r) (readme_section r) args) ;;;
  log Info (Msg ("Visualization by " +:+ what r +:+ " created.")).

Definition visualize_by_country : nat -> Namespace -> M unit :=
  visualize_by_span country.

Definition visualize_by_language : nat -> Namespace -> M unit :=
  visualize_by_span language.

(** ["CC BY 2.5" if "by/2.5" in label else label]: on text [in] looks for a
    substring, on a tuple for an equal member; a number has no [in]. *)
Definition short_label (label : cell) : result cell :=
  match label with
  | Text s => Ok (if PyStr.contains "by/2.5" s then Text "CC BY 2.5" else label)
  | Tuple cs =>
      Ok (if existsb (fun c => match c with
                               | Text s => String.eqb s "by/2.5"
                               | _ => false
                               end) cs
          then Text "CC BY 2.5" else label)
  | Num _ => Raise TypeError
  end.

(** [data.set_index("LICENSE TYPE").sum(axis=1)] *)
Definition license_sums (df : DataFrame) : result (Series cell) :=
  rbind (set_index "LICENSE TYPE" df) sum_axis1.

Definition license_chart (selected_quarter : string)
    (license_data : Series cell) (labels : list cell) : Chart := {|
  title := "Number of Webpages Licensed by License Type ("
           +:+ selected_quarter +:+ ")";
  xlabel := "License Type";
  ylabel := "Number of Webpages";
  barplot_x := map fst license_data;
  barplot_y := map snd license_data;
  xticklabels := Some labels;
  annotated := false;
  yaxis_format := Millions |}.

Definition visualize_by_license_type (data : nat) (args : Namespace) : M unit :=
  log Info (Msg ("Creating a bar chart for the number of "
                 +:+ "webpages licensed by license type.")) ;;;
  let selected_quarter := quarter args in
  df <- deref data ;;
  assign data (str_strip_columns df) ;;;
  df <- deref data ;;
  license_data <- lift (license_sums df) ;;
  lift (barplot (map snd license_data)) ;;;
  labels <- lift (rmapM short_label (map fst license_data)) ;;
  let chart := license_chart selected_quarter license_data labels in
  log Info (Msg ("Output directory: " +:+ output_directory selected_quarter)) ;;;
  makedirs (output_directory selected_quarter) ;;;
  savefig (image_path selected_quarter "gcs_licensetype_report.png") chart ;;;
  (if show_plots args then emit Show else ret tt) ;;;
  extern (update_readme (image_path selected_quarter "gcs_licensetype_report.png")
            "Google Custom Search" "Number of Webpages Licensed by License Type"
            "License Type Report" args) ;;;
  log Info (Msg "Visualization by license type created.").

Definition is_empty (data : nat) : M bool :=
  df <- deref data ;; ret (empty df).

Definition main (argv : CommandLine) : M unit :=
  call Pull (extern (fetch_and_merge repo_root)) ;;;
  args <- call ParseArgs (parse_arguments argv) ;;
  data <- call LoadData (load_data args) ;;
  no_data <- is_empty data ;;
  if no_data then ret tt
  else
    log Info (Msg ("Current working directory: " +:+ cwd)) ;;;
    call CountryReport (visualize_by_country data args) ;;;
    call LicenseTypeReport (visualize_by_license_type data args) ;;;
    call LanguageReport (visualize_by_language data args) ;;;
    (if negb (skip_commit args)
     then call Commit (extern (add_and_commit repo_root
                                 "Added and committed new reports"))
     else ret tt) ;;;
    (if negb (skip_push args)
     then call Push (extern (push_changes repo_root))
     else ret tt).

(** [sys.exit(code)] after one last log record. *)
Definition exit_logging (l : level) (m : message) (code : exit_arg) (w : World)
  : outcome * World :=
  (Exited code, snd (log l m w)).

(** The [if __name__ == "__main__"] block. *)
Definition script (argv : CommandLine) (w : World) : outcome * World :=
  match main argv w with
  | (Ok _, w') => (Finished, w')
  | (Raise (QuantifyingException message exit_code), w') =>
      if exit_code =? 0
      then exit_logging Info (Msg message) (CodeInt exit_code) w'
      else exit_logging Error (Msg message) (CodeInt exit_code) w'
  | (Raise (SystemExit code), w') =>
      exit_logging Error (MsgCode "System exit with code: " code) code w'
  | (Raise KeyboardInterrupt, w') =>
      exit_logging Info (Msg "(130) Halted via KeyboardInterrupt.") (CodeInt 130) w'
  | (Raise e, w') =>
      exit_logging Error (MsgTrace "(1) Unhandled exception: " e) (CodeInt 1) w'
  end.

End Script.
End Reports.

(** ** Reference notions the properties are stated with *)

Module Spec.
Import Pandas Plot Reports.

(** [p] occurs in [s]. *)
Definition is_substring (p s : string) : Prop :=
  exists before after, s = before +:+ p +:+ after.

Definition is_digit (c : ascii) : bool :=
  let n := nat_of_ascii c in (48 <=? n)%nat && (n <=? 57)%nat.

(** A quarter identifier, [YYYYQx]. *)
Definition is_quarter (q : string) : bool :=
  match q with
  | String y1 (String y2 (String y3 (String y4 (String c (String x ""))))) =>
      is_digit y1 && is_digit y2 && is_digit y3 && is_digit y4 &&
      Ascii.eqb c "Q" && bool_decide (x ∈ ["1"; "2"; "3"; "4"]%char)
  | _ => false
  end.


Definition cell_value (c : cell) : Z :=
  match c with
  | Num z => z
  | _ => 0
  end.

(** The integers of 64 bits, and the cells that hold one: the counts. *)
Definition in_int64 (z : Z) : Prop := - 2 ^ 63 <= z < 2 ^ 63.

Definition is_count (c : cell) : bool :=
  match c with
  | Num z => (- 2 ^ 63 <=? z) && (z <? 2 ^ 63)
  | _ => false
  end.

Definition zsum (l : list Z) : Z := foldr Z.add 0 l.

(** The sum of the numeric cells of a column, as an integer. *)
Definition column_total (c : column) : Z := zsum (map cell_value (snd c)).

(** The span of a report: the columns of the raw frame from the first one
    whose stripped header is the first sentinel to the first one whose
    stripped header is the last sentinel, both included, left to right. *)
Definition span_columns (r : SpanReport) (df : DataFrame) : list column :=
  let names := map PyStr.strip (columns df) in
  match list_index (first_name r) names, list_index (last_name r) names with
  | Ok i, Ok j => slice df i (S j)
  | _, _ => []
  end.

(** The column-wise sums of a run of columns, each under its stripped
    header. *)
Definition column_sums (cols : list column) : list (string * Z) :=
  map (fun c : column => (PyStr.strip (fst c), column_total c)) cols.

(** The total pandas makes of a column, under the stripped header, and the
    totals of the columns between two names. *)
Definition raw_total (c : column) : result (string * cell) :=
  rbind (sum_cells (is_int64 (snd c)) (snd c))
        (fun s => Ok (PyStr.strip (fst c), s)).

Definition column_sums_between (first last : string) (df : DataFrame)
  : result (Series string) :=
  let names := map PyStr.strip (columns df) in
  rbind (list_index first names) (fun i =>
  rbind (list_index last names) (fun j =>
  rmapM raw_total (slice df i (S j)))).

(** The series a span report draws, from the frame it is handed: lines
    99-111 and 246-258 of the script put together. *)
Definition span_data (r : SpanReport) (df : DataFrame) : result (Series string) :=
  rbind (span_names r df) (span_sums (str_strip_columns df)).

(** The series the license-type report draws: lines 177-180. *)
Definition license_data (df : DataFrame) : result (Series cell) :=
  license_sums (str_strip_columns df).

(** No name of the span is the stripped header of two columns. *)
Definition span_unambiguous (r : SpanReport) (df : DataFrame) : Prop :=
  forall names, span_names r df = Ok names ->
    Forall (fun c => length (labelled c (str_strip_columns df)) = 1%nat) names.

(** The columns whose stripped header is "LICENSE TYPE", and the others. *)
Definition license_columns (df : DataFrame) : list column :=
  labelled "LICENSE TYPE" (str_strip_columns df).

Definition other_columns (df : DataFrame) : list column :=
  filter (fun c : column => PyStr.strip (fst c) <> "LICENSE TYPE") df.

(** The license type of each row: the value in the license-type column, or
    the tuple of the values when there are several such columns. *)
Definition license_keys (df : DataFrame) : list cell :=
  match license_columns df with
  | [c] => snd c
  | cs => map Tuple (rows cs (nrows df))
  end.

(** The sum of the numeric cells of row [i] outside the license-type
    columns, as an integer. *)
Definition row_total (df : DataFrame) (i : nat) : Z :=
  zsum (map cell_value (row (other_columns df) i)).

(** The sum of all numeric cells outside the columns whose stripped header is
    [key], column by column. *)
Definition numeric_total_outside (key : string) (df : DataFrame) : Z :=
  zsum (map column_total
          (filter (fun c : column => PyStr.strip (fst c) <> key) df)).

(** Every cell outside the columns whose stripped header is [key] is a
    count. *)
Definition counts_outside (key : string) (df : DataFrame) : Prop :=
  Forall (fun c : column =>
            PyStr.strip (fst c) <> key ->
            Forall (fun x => is_count x = true) (snd c))
         df.

(** The series a report gets to draw: the one it computed, when that
    consists of numbers. *)
Definition drawn {L} (series : result (Series L)) : result (Series L) :=
  rbind series (fun s => rbind (barplot (map snd s)) (fun _ => Ok s)).

(** [shown] is the short form of the license type [label]: "CC BY 2.5" when
    "by/2.5" occurs in the label, the label itself otherwise. *)
Definition rewritten (label shown : string) : Prop :=
  (is_substring "by/2.5" label -> shown = "CC BY 2.5")
  /\ (~ is_substring "by/2.5" label -> shown = label).

(** The steps recorded in a trace. *)
Definition steps_of (t : list event) : list step :=
  omap (fun e => match e with Enter s => Some s | _ => None end) t.

(** The order of a complete run. *)
Definition plan (args : Namespace) : list step :=
  [Pull; ParseArgs; LoadData; CountryReport; LicenseTypeReport; LanguageReport]
  ++ (if skip_commit args then [] else [Commit])
  ++ (if skip_push args then [] else [Push]).

(** The namespace the options on the command line stand for. *)
Definition parsed `{Environment} (argv : CommandLine) : Namespace := {|
  quarter := default current_quarter (opt_quarter argv);
  skip_commit := opt_skip_commit argv;
  skip_push := opt_skip_commit argv || opt_skip_push argv;
  show_plots := opt_show_plots argv |}.

(** What a step that follows the loader consists of, and a list of steps
    performed one after the other, each entered under its name; the first
    that raises ends the list. *)
Definition performed `{Environment} (args : Namespace) (data : nat) (s : step)
  : M unit :=
  match s with
  | CountryReport => visualize_by_country data args
  | LicenseTypeReport => visualize_by_license_type data args
  | LanguageReport => visualize_by_language data args
  | Commit => extern (add_and_commit repo_root "Added and committed new reports")
  | Push => extern (push_changes repo_root)
  | Pull | ParseArgs | LoadData => ret tt
  end.

Fixpoint in_order `{Environment} (args : Namespace) (data : nat)
    (steps : list step) : M unit :=
  match steps with
  | [] => ret tt
  | s :: rest =>
      bind (call s (performed args data s)) (fun _ => in_order args data rest)
  end.

(** The orchestration as it is described: the pull, the parser, the loader,
    the end of the run when there is no data, and else the rest of the plan
    in order. *)
Definition orchestrated `{Environment} (argv : CommandLine) : M unit :=
  bind (call Pull (extern (fetch_and_merge repo_root))) (fun _ =>
  bind (call ParseArgs (parse_arguments argv)) (fun args =>
  bind (call LoadData (load_data args)) (fun data =>
  bind (is_empty data) (fun no_data =>
  if no_data then ret tt
  else
    bind (log Info (Msg ("Current working directory: " +:+ cwd))) (fun _ =>
    in_order args data (drop 3 (plan args))))))).

(** The README entries of the three reports. *)
Definition registered `{Environment} (r : SpanReport) (args : Namespace)
  : Ext -> result unit * Ext :=
  update_readme (image_path (quarter args) (image_name r))
    "Google Custom Search" (readme_title r) (readme_section r) args.

Definition registered_license `{Environment} (args : Namespace)
  : Ext -> result unit * Ext :=
  update_readme (image_path (quarter args) "gcs_licensetype_report.png")
    "Google Custom Search" "Number of Webpages Licensed by License Type"
    "License Type Report" args.

(** The three image files of a quarter. *)
Definition report_paths `{Environment} (q : string) : list string :=
  [image_path q "gcs_country_report.png";
   image_path q "gcs_licensetype_report.png";
   image_path q "gcs_language_report.png"].

(** From [w] to [w']: the trace grew by records whose steps are [steps], only
    files among [paths] were written, and no file disappeared. *)
Definition advances `{Environment} (steps : list step) (paths : list string)
    (w w' : World) : Prop :=
  (exists new, trace w' = trace w ++ new /\ steps_of new = steps)
  /\ (forall p, p ∉ paths -> files w' !! p = files w !! p)
  /\ (forall p, is_Some (files w !! p) -> is_Some (files w' !! p)).

(** The frame the loader hands over for quarter [q], from the files as they
    are. *)
Definition loaded_frame `{Environment} (w : World) (q : string)
  : result DataFrame :=
  match files w !! fetched_path q with
  | None => Ok []
  | Some (CsvFile c) => read_csv c
  | Some (PngFile _) => Raise ParserError
  end.

(** What the top level owes each exception: the severity and text of the last
    log record, and the exit code. *)
Definition is_error (e : exn) : Prop :=
  match e with
  | QuantifyingException _ _ | SystemExit _ | KeyboardInterrupt => False
  | _ => True
  end.

End Spec.

(** ** Sample inputs *)

Module Samples.
Import Pandas Plot Reports Spec.

(** Two rows; some headers carry incidental blanks. *)
Definition fixture : DataFrame :=
  [("LICENSE TYPE ", [Text "licenses/by/2.5/"; Text "licenses/by-sa/4.0/"]);
   (" United States", [Num 10; Num 30]);
   ("Canada ", [Num 1; Num 2]);
   ("Japan", [Num 20; Num 5]);
   ("English", [Num 7; Num 8]);
   ("  Indonesian  ", [Num 3; Num 4])].

(** The no-break space U+00A0 and the em space U+2003, and headers padded
    with them. *)
Definition no_break_space : string :=
  String (ascii_of_nat 194) (String (ascii_of_nat 160) "").

Definition em_space : string :=
  String (ascii_of_nat 226)
    (String (ascii_of_nat 128) (String (ascii_of_nat 131) "")).

Definition padded : DataFrame :=
  [(no_break_space +:+ "United States", [Num 1; Num 2]);
   ("Japan" +:+ em_space +:+ " ", [Num 3; Num 4])].

(** Two headers that differ only in blanks. *)
Definition twice_canada : DataFrame :=
  [("Canada ", [Num 7]);
   ("United States", [Num 1]);
   ("Canada", [Num 2]);
   ("Japan", [Num 3])].

(** Two license-type columns, of text and of numbers. *)
Definition twice_license : DataFrame :=
  [("LICENSE TYPE", [Text "by"]);
   (" LICENSE TYPE", [Text "by-sa"]);
   ("United States", [Num 1])].

Definition twice_numbered : DataFrame :=
  [("LICENSE TYPE", [Num 1]);
   (" LICENSE TYPE", [Num 2]);
   ("United States", [Num 1])].

(** Counts that fit in 64 bits, with a row sum that does not. *)
Definition large_counts : DataFrame :=
  [("LICENSE TYPE", [Text "by"]);
   ("United States", [Num 9223372036854775807]);
   ("Japan", [Num 1])].

(** A license type on two rows. *)
Definition repeated_license : DataFrame :=
  [("LICENSE TYPE", [Text "x"; Text "x"; Text "licenses/by/2.5/"]);
   ("United States", [Num 1; Num 2; Num 3])].

Definition no_japan : DataFrame :=
  [("LICENSE TYPE", [Text "by"]);
   ("United States", [Num 1]);
   ("Canada", [Num 2])].

(** Collaborators that do nothing and never raise; [first_call] instead
    raises [e] on the pull. *)
Definition quiet : Environment := {|
  Ext := unit;
  data_root := "/repo/data";
  repo_root := "/repo";
  today_year := 2024;
  today_month := 5;
  cwd := "/repo";
  fetch_and_merge := fun _ x => (Ok tt, x);
  add_and_commit := fun _ _ x => (Ok tt, x);
  push_changes := fun _ x => (Ok tt, x);
  update_readme := fun _ _ _ _ _ x => (Ok tt, x) |}.

Definition failing_pull (e : exn) : Environment := {|
  Ext := unit;
  data_root := "/repo/data";
  repo_root := "/repo";
  today_year := 2024;
  today_month := 5;
  cwd := "/repo";
  fetch_and_merge := fun _ x => (Raise e, x);
  add_and_commit := fun _ _ x => (Ok tt, x);
  push_changes := fun _ x => (Ok tt, x);
  update_readme := fun _ _ _ _ _ x => (Ok tt, x) |}.

Definition argv0 : CommandLine := {|
  opt_quarter := Some "2024Q2";
  opt_skip_commit := false;
  opt_skip_push := false;
  opt_show_plots := false |}.

Definition args0 : Namespace := {|
  quarter := "2024Q2";
  skip_commit := false;
  skip_push := false;
  show_plots := false |}.

Definition world_of `{Environment} (x : Ext) (fs : gmap string file)
    (frames : list DataFrame) : World :=
  {| heap := frames; files := fs; trace := []; ext := x |}.

(** The fixture as a file, and a file with its header line only. *)
Definition fixture_csv : csv := {|
  csv_header := ["LICENSE TYPE "; " United States"; "Canada "; "Japan";
                 "English"; "  Indonesian  "];
  csv_records :=
    [[Text "licenses/by/2.5/"; Num 10; Num 1; Num 20; Num 7; Num 3];
     [Text "licenses/by-sa/4.0/"; Num 30; Num 2; Num 5; Num 8; Num 4]] |}.

Definition header_only_csv : csv := {|
  csv_header := csv_header fixture_csv;
  csv_records := [] |}.

Definition input_path : string := "/repo/data/2024Q2/1-fetch/gcs_fetched.csv".

(** Worlds of the quiet environment: with the fixture as input, with the
    header-only input, without input, and with a frame already loaded. *)
Definition world_fixture : @World quiet :=
  @world_of quiet tt {[ input_path := CsvFile fixture_csv ]} [].

Definition world_header_only : @World quiet :=
  @world_of quiet tt {[ input_path := CsvFile header_only_csv ]} [].

Definition world_no_input : @World quiet := @world_of quiet tt ∅ [].

Definition world_holding (df : DataFrame) : @World quiet :=
  @world_of quiet tt ∅ [df].

End Samples.

(** ** More sample inputs *)

Module MoreSamples.
Import Pandas Plot Reports Spec Samples.

(** "Japan" left of "United States". *)
Definition japan_first : DataFrame :=
  [("Japan", [Num 3]);
   ("Canada", [Num 2]);
   ("United States", [Num 1])].

(** License types that are numbers. *)
Definition numbered_licenses : DataFrame :=
  [("LICENSE TYPE", [Num 1; Num 2]);
   ("United States", [Num 3; Num 4])].

(** A file with rows and no "Japan" column. *)
Definition no_japan_csv : csv := {|
  csv_header := ["LICENSE TYPE"; "United States"; "Canada"];
  csv_records := [[Text "by"; Num 1; Num 2]] |}.

Definition world_no_japan : @World quiet :=
  @world_of quiet tt {[ input_path := CsvFile no_japan_csv ]} [].

Definition argv_default : CommandLine := {|
  opt_quarter := None;
  opt_skip_commit := false;
  opt_skip_push := false;
  opt_show_plots := false |}.

Definition args_show : Namespace := {|
  quarter := "2024Q2";
  skip_commit := false;
  skip_push := false;
  show_plots := true |}.

End MoreSamples.

(** * Properties *)

(** Membership in a list written out. *)
Ltac present_step :=
  by repeat first [apply list_elem_of_here | apply list_elem_of_further].

Ltac absent_step :=
  let Hin := fresh "Hin" in
  intros Hin;
  repeat (apply elem_of_cons in Hin as [?|Hin]; [done|]);
  by apply elem_of_nil in Hin.

(** ** Strings *)

Module PyStrFacts.
Import PyStr Spec.

Section Skipping.
Context (s1 : ascii -> bool) (s2 : ascii -> ascii -> bool)
        (s3 : ascii -> ascii -> ascii -> bool).

Lemma skip_blanks_fixed l :
  blank_front s1 s2 s3 l = false -> skip_blanks s1 s2 s3 l = l.
Proof.
  destruct l as [|a [|b [|c l]]]; simpl; try done.
  - by intros ->%orb_false_elim%proj1.
  - intros [-> [-> _]%orb_false_elim]%orb_false_elim. done.
  - intros [-> [-> ->]%orb_false_elim]%orb_false_elim. done.
Qed.

(** What is skipped is whitespace, and what is left does not start with
    any. *)
Lemma skip_blanks_spec l :
  exists front,
    l = front ++ skip_blanks s1 s2 s3 l
    /\ blanks_of s1 s2 s3 front
    /\ blank_front s1 s2 s3 (skip_blanks s1 s2 s3 l) = false.
Proof.
  assert (forall n l, (length l < n)%nat ->
            exists front,
              l = front ++ skip_blanks s1 s2 s3 l
              /\ blanks_of s1 s2 s3 front
              /\ blank_front s1 s2 s3 (skip_blanks s1 s2 s3 l) = false) as Hn.
  { clear l. induction n as [|n IH]; intros l Hlen; [lia|].
    destruct l as [|a l1]; [exists []; split_and!; [done | constructor | done]|].
    simpl in Hlen. simpl skip_blanks.
    destruct (s1 a) eqn:H1.
    { destruct (IH l1) as (front & Hl & Hb & Hc); [lia|].
      exists (a :: front).
      split_and!; [simpl; congruence | by constructor | done]. }
    destruct l1 as [|b l2].
    { exists []. split_and!; [done | constructor |]. simpl. by rewrite H1. }
    simpl in Hlen. destruct (s2 a b) eqn:H2.
    { destruct (IH l2) as (front & Hl & Hb & Hc); [lia|].
      exists (a :: b :: front).
      split_and!; [simpl; congruence | by constructor | done]. }
    destruct l2 as [|c l3].
    { exists []. split_and!; [done | constructor |]. simpl. by rewrite H1, H2. }
    simpl in Hlen. destruct (s3 a b c) eqn:H3.
    { destruct (IH l3) as (front & Hl & Hb & Hc); [lia|].
      exists (a :: b :: c :: front).
      split_and!; [simpl; congruence | by constructor | done]. }
    exists []. split_and!; [done | constructor |]. simpl. by rewrite H1, H2, H3. }
  apply (Hn (S (length l))). lia.
Qed.

Lemma skip_blanks_idemp l :
  skip_blanks s1 s2 s3 (skip_blanks s1 s2 s3 l) = skip_blanks s1 s2 s3 l.
Proof.
  destruct (skip_blanks_spec l) as (_ & _ & _ & Hclean).
  by apply skip_blanks_fixed.
Qed.

Lemma blank_front_app p q :
  blank_front s1 s2 s3 p = true -> blank_front s1 s2 s3 (p ++ q) = true.
Proof.
  destruct p as [|a [|b [|c p]]]; simpl; try done;
    destruct (s1 a); try done; simpl;
    destruct (s2 a b); try done; simpl.
Qed.

Lemma blanks_of_app l l' :
  blanks_of s1 s2 s3 l -> blanks_of s1 s2 s3 l' -> blanks_of s1 s2 s3 (l ++ l').
Proof. induction 1; intros Hl'; simpl; [done | by constructor; auto..]. Qed.

End Skipping.

Lemma blanks_of_rev s1 s2 s3 l :
  blanks_of s1 (fun b a => s2 a b) (fun c b a => s3 a b c) l ->
  blanks_of s1 s2 s3 (rev l).
Proof.
  induction 1 as [|a l Ha _ IH|a b l Hab _ IH|a b c l Habc _ IH]; simpl.
  - constructor.
  - apply blanks_of_app; [done|]. constructor; [done | constructor].
  - rewrite <- app_assoc. apply blanks_of_app; [done|]. simpl.
    apply blanks_two; [done | constructor].
  - rewrite <- !app_assoc. apply blanks_of_app; [done|]. simpl.
    apply blanks_three; [done | constructor].
Qed.

Lemma lstrip_chars_spec l :
  exists front,
    l = front ++ lstrip_chars l /\ blanks front
    /\ starts_blank (lstrip_chars l) = false.
Proof. apply skip_blanks_spec. Qed.

Lemma lstrip_chars_idemp l : lstrip_chars (lstrip_chars l) = lstrip_chars l.
Proof. apply skip_blanks_idemp. Qed.

Lemma rstrip_chars_spec l :
  exists back,
    l = rstrip_chars l ++ back /\ blanks back
    /\ ends_blank (rstrip_chars l) = false.
Proof.
  unfold rstrip_chars, ends_blank.
  destruct (skip_blanks_spec space1 (fun b a => space2 a b)
              (fun c b a => space3 a b c) (rev l)) as (front & Hl & Hb & Hc).
  exists (rev front). split_and!.
  - rewrite <- rev_app_distr, <- Hl. by rewrite rev_involutive.
  - by apply blanks_of_rev.
  - by rewrite rev_involutive.
Qed.

(** Stripping the end leaves the front as it is. *)
Lemma rstrip_chars_front l :
  starts_blank l = false -> starts_blank (rstrip_chars l) = false.
Proof.
  intros Hl. destruct (starts_blank (rstrip_chars l)) eqn:Hfront; [|done].
  destruct (rstrip_chars_spec l) as (back & Hp & _).
  apply (blank_front_app _ _ _ _ back) in Hfront. rewrite <- Hp in Hfront.
  unfold starts_blank in Hl. congruence.
Qed.

Lemma strip_chars_idemp l : strip_chars (strip_chars l) = strip_chars l.
Proof.
  unfold strip_chars.
  destruct (lstrip_chars_spec l) as (_ & _ & _ & Hclean).
  unfold lstrip_chars at 1.
  rewrite (skip_blanks_fixed _ _ _ _ (rstrip_chars_front _ Hclean)).
  unfold rstrip_chars. rewrite rev_involutive. by rewrite skip_blanks_idemp.
Qed.

(** Stripping twice is stripping once. *)
Lemma strip_idemp s : strip (strip s) = strip s.
Proof.
  unfold strip. rewrite list_ascii_of_string_of_list_ascii.
  by rewrite strip_chars_idemp.
Qed.

Lemma append_cons a (s t : string) : String a s +:+ t = String a (s +:+ t).
Proof. reflexivity. Qed.

Lemma append_empty (t : string) : "" +:+ t = t.
Proof. reflexivity. Qed.

Lemma startswith_cons a p b s :
  startswith (String a p) (String b s)
  = if Ascii.eqb a b then startswith p s else false.
Proof. reflexivity. Qed.

Lemma startswith_spec p s :
  startswith p s = true <-> exists after, s = p +:+ after.
Proof.
  revert s. induction p as [|a p IH]; intros s; simpl.
  - split; [eauto | done].
  - destruct s as [|b s].
    + split; [done | intros [after Hs]; done].
    + destruct (Ascii.eqb_spec a b) as [->|Hne].
      * rewrite IH. split; intros [after Hs]; exists after;
          rewrite append_cons in *; congruence.
      * split; [done | intros [after Hs]; rewrite append_cons in Hs; congruence].
Qed.

(** The substring test finds exactly the occurrences. *)
Lemma contains_spec p s : contains p s = true <-> is_substring p s.
Proof.
  unfold is_substring. induction s as [|c s IH]; simpl.
  - rewrite orb_false_r, startswith_spec. split.
    + intros [after Hs]. by exists "", after.
    + intros [[|b before] [after Hs]]; [by exists after | done].
  - rewrite orb_true_iff, startswith_spec, IH. split.
    + intros [[after Hs] | (before & after & Hs)].
      * by exists "", after.
      * exists (String c before), after. rewrite append_cons. by rewrite Hs.
    + intros [[|b before] [after Hs]].
      * left. by exists after.
      * right. exists before, after. rewrite append_cons in Hs. congruence.
Qed.

Lemma endswith_sep_app s t :
  t <> "" -> endswith_sep (s +:+ t) = endswith_sep t.
Proof.
  intros Ht. induction s as [|c s IH]; [done|].
  rewrite append_cons. simpl. rewrite IH.
  destruct (s +:+ t) eqn:Hst; [|done].
  destruct s; [by rewrite append_empty in Hst | by rewrite append_cons in Hst].
Qed.

Lemma join_step_plain path b :
  path <> "" -> endswith_sep path = false -> startswith "/" b = false ->
  join_step path b = path +:+ "/" +:+ b.
Proof.
  intros Hp He Hb. unfold join_step. rewrite Hb, He.
  destruct (String.eqb_spec path ""); done.
Qed.

Lemma append_nonempty s t : t <> "" -> s +:+ t <> "".
Proof. destruct s; [by rewrite append_empty | by rewrite append_cons]. Qed.

Lemma append_assoc (s t u : string) : (s +:+ t) +:+ u = s +:+ (t +:+ u).
Proof.
  induction s as [|c s IH]; [done|]. rewrite !append_cons. by rewrite IH.
Qed.

Lemma quarter_shape q :
  is_quarter q = true ->
  q <> "" /\ startswith "/" q = false /\ endswith_sep q = false.
Proof.
  unfold is_quarter.
  destruct q as [|y1 [|y2 [|y3 [|y4 [|c [|x [|? ?]]]]]]]; try discriminate.
  rewrite !andb_true_iff, bool_decide_eq_true.
  intros [[[[[H1 H2] H3] H4] Hc] Hx].
  split; [done|]. split.
  - rewrite startswith_cons.
    destruct (Ascii.eqb_spec "/" y1) as [<-|]; [by vm_compute in H1 | done].
  - simpl. repeat (apply elem_of_cons in Hx as [->|Hx]; [done|]).
    by apply elem_of_nil in Hx.
Qed.

End PyStrFacts.

(** ** Frames *)

Module PandasFacts.
Import Pandas Plot Reports Spec.

Lemma rmapM_map {A B C} (f : B -> result C) (g : A -> B) l :
  rmapM f (map g l) = rmapM (fun x => f (g x)) l.
Proof. induction l as [|x l IH]; simpl; [done | by rewrite IH]. Qed.

Lemma rmapM_total {A B} (f : A -> result B) (g : A -> B) l :
  Forall (fun x => f x = Ok (g x)) l -> rmapM f l = Ok (map g l).
Proof.
  induction 1 as [|x l Hx _ IH]; simpl; [done|]. by rewrite Hx, IH.
Qed.

Lemma list_index_elem x l :
  x ∈ l -> exists i, list_index x l = Ok i /\ l !! i = Some x.
Proof.
  induction l as [|y l IH]; intros Hx; [by apply elem_of_nil in Hx|].
  simpl. destruct (String.eqb_spec y x) as [->|Hne]; [by exists 0%nat|].
  apply elem_of_cons in Hx as [->|Hx]; [done|].
  destruct (IH Hx) as (i & -> & Hi). by exists (S i).
Qed.

Lemma list_index_missing x l :
  x ∉ l -> list_index x l = Raise (ValueError x).
Proof.
  induction l as [|y l IH]; intros Hx; [done|].
  apply not_elem_of_cons in Hx as [Hne Hx]. simpl.
  destruct (String.eqb_spec y x) as [->|_]; [done|]. by rewrite IH.
Qed.

Lemma columns_stripped df :
  columns (str_strip_columns df) = map PyStr.strip (columns df).
Proof. unfold columns, str_strip_columns. by rewrite !map_map. Qed.

Lemma str_strip_columns_idemp df :
  str_strip_columns (str_strip_columns df) = str_strip_columns df.
Proof.
  unfold str_strip_columns. rewrite map_map. apply map_ext. intros [h v]. simpl.
  by rewrite PyStrFacts.strip_idemp.
Qed.

Lemma strip_columns_again (hs : list string) :
  map PyStr.strip (map PyStr.strip hs) = map PyStr.strip hs.
Proof.
  rewrite map_map. apply map_ext. intros h. apply PyStrFacts.strip_idemp.
Qed.

Lemma slice_map {A B} (f : A -> B) l i j :
  slice (map f l) i j = map f (slice l i j).
Proof. unfold slice. by rewrite skipn_map, firstn_map. Qed.

Lemma slice_split {A} (l : list A) i j :
  l = take i l ++ slice l i j ++ drop (j - i) (drop i l).
Proof. unfold slice. by rewrite !take_drop. Qed.

(** A label carried by one column selects that column. *)
Lemma labelled_single (before after : list column) c :
  length (labelled (fst c) (before ++ c :: after)) = 1%nat ->
  labelled (fst c) (before ++ c :: after) = [c].
Proof.
  unfold labelled.
  rewrite filter_app, filter_cons_True by done.
  rewrite length_app. simpl. intros Hlen.
  destruct (filter _ before); [|simpl in Hlen; lia].
  destruct (filter _ after); [done | simpl in Hlen; lia].
Qed.

(** Selecting by label a run of columns whose labels are unambiguous gives
    back the run. *)
Lemma getitem_run (before run after : list column) :
  Forall (fun k => length (labelled k (before ++ run ++ after)) = 1%nat)
         (map fst run) ->
  getitem (before ++ run ++ after) (map fst run) = Ok run.
Proof.
  unfold getitem. intros Hone.
  assert (rmapM (getitem_one (before ++ run ++ after)) (map fst run)
          = Ok (map (fun c => [c]) run)) as ->.
  { revert before Hone. induction run as [|c run IH]; intros before Hone; [done|].
    apply Forall_cons in Hone as [Hc Hone]. simpl in *.
    unfold getitem_one at 1. rewrite (labelled_single _ _ _ Hc).
    replace (before ++ c :: run ++ after)
      with ((before ++ [c]) ++ run ++ after) in * by by rewrite <- app_assoc.
    by rewrite IH. }
  simpl. f_equal. clear Hone. induction run as [|c run IH]; simpl; congruence.
Qed.

Lemma getitem_slice (df : DataFrame) i j :
  Forall (fun k => length (labelled k df) = 1%nat) (map fst (slice df i j)) ->
  getitem df (map fst (slice df i j)) = Ok (slice df i j).
Proof.
  intros Hone. pose proof (slice_split df i j) as Hsplit.
  set (run := slice df i j) in *. set (before := take i df) in *.
  set (after := drop (j - i) (drop i df)) in *.
  clearbody run before after. subst df. by apply getitem_run.
Qed.

Lemma sum_axis0_stripped df :
  sum_axis0 (str_strip_columns df) = rmapM raw_total df.
Proof. unfold sum_axis0, str_strip_columns. by rewrite rmapM_map. Qed.

(** What a span report adds up, when no name of the span is ambiguous. *)
Lemma span_data_unambiguous r df :
  span_unambiguous r df ->
  span_data r df = column_sums_between (first_name r) (last_name r) df.
Proof.
  unfold span_unambiguous, span_data, column_sums_between, span_names.
  intros Hone.
  destruct (list_index (first_name r) _) as [i|e]; [|done].
  destruct (list_index (last_name r) _) as [j|e]; [|done]. simpl in *.
  specialize (Hone _ eq_refl). unfold span_sums.
  replace (j + 1)%nat with (S j) in * by lia.
  rewrite <- columns_stripped in *. unfold columns in *.
  rewrite slice_map in *. rewrite (getitem_slice _ _ _ Hone). simpl.
  unfold str_strip_columns at 1. rewrite slice_map.
  apply (sum_axis0_stripped (slice df i (S j))).
Qed.

Lemma zsum_add {A} (f g : A -> Z) l :
  zsum (map (fun x => f x + g x) l) = zsum (map f l) + zsum (map g l).
Proof. induction l as [|x l IH]; simpl; lia. Qed.

Lemma wrap64_add x y : wrap64 (x + wrap64 y) = wrap64 (x + y).
Proof.
  unfold wrap64.
  replace (x + ((y + 2 ^ 63) mod 2 ^ 64 - 2 ^ 63) + 2 ^ 63)
    with (x + (y + 2 ^ 63) mod 2 ^ 64) by lia.
  rewrite Zplus_mod_idemp_r. f_equal. f_equal. lia.
Qed.

(** Within 64 bits nothing wraps. *)
Lemma wrap64_small x : in_int64 x -> wrap64 x = x.
Proof. unfold in_int64, wrap64. intros Hx. rewrite Z.mod_small; lia. Qed.

(** Adding 64-bit integers one by one gives the sum reduced to 64 bits. *)
Lemma sum_int64_total l : sum_int64 l = wrap64 (zsum (map cell_value l)).
Proof.
  induction l as [|x l IH]; [done|].
  destruct x as [z|t|cs]; simpl; rewrite IH.
  - unfold add64. apply wrap64_add.
  - by rewrite Z.add_0_l.
  - by rewrite Z.add_0_l.
Qed.

Lemma is_count_num x : is_count x = true -> is_num x = true.
Proof. by destruct x. Qed.

Lemma is_count_in_int64 z : is_count (Num z) = true -> in_int64 z.
Proof. unfold is_count, in_int64. lia. Qed.

Lemma counts_numeric l :
  Forall (fun x => is_count x = true) l -> Forall (fun x => is_num x = true) l.
Proof. intros Hl. eapply Forall_impl; [exact Hl | apply is_count_num]. Qed.

Lemma forallb_Forall {A} (f : A -> bool) l :
  Forall (fun x => f x = true) l -> forallb f l = true.
Proof. induction 1 as [|x l Hx _ IH]; [done|]. simpl. by rewrite Hx, IH. Qed.

Lemma is_int64_numeric v :
  v <> [] -> Forall (fun x => is_num x = true) v -> is_int64 v = true.
Proof.
  intros Hv Hnum. destruct v as [|x v]; [done|]. by apply forallb_Forall.
Qed.

(** The total pandas makes of a column of numbers. *)
Lemma sum_cells_numeric v :
  Forall (fun x => is_num x = true) v ->
  sum_cells (is_int64 v) v = Ok (Num (wrap64 (zsum (map cell_value v)))).
Proof.
  intros Hnum. destruct v as [|x v]; [done|].
  rewrite is_int64_numeric by done. unfold sum_cells.
  by rewrite sum_int64_total.
Qed.

Lemma zsum_lookup (v : list cell) :
  zsum (map (fun i => from_option cell_value 0 (v !! i)) (seq 0 (length v)))
  = zsum (map cell_value v).
Proof.
  induction v as [|x v IH]; [done|].
  simpl. rewrite <- seq_shift, map_map. simpl. by rewrite IH.
Qed.

Lemma row_cons (c : column) rest i :
  zsum (map cell_value (row (c :: rest) i))
  = from_option cell_value 0 (snd c !! i) + zsum (map cell_value (row rest i)).
Proof.
  unfold row. simpl.
  destruct (snd c !! i); simpl; [reflexivity | by rewrite Z.add_0_l].
Qed.

(** Adding the rows' totals or the columns' totals is the same. *)
Lemma rows_columns (rest : DataFrame) n :
  Forall (fun c : column => length (snd c) = n) rest ->
  zsum (map (fun r => zsum (map cell_value r)) (rows rest n))
  = zsum (map column_total rest).
Proof.
  unfold rows. rewrite map_map.
  induction 1 as [|c rest Hc _ IH]; simpl.
  - induction (seq 0 n); simpl; lia.
  - rewrite (map_ext _ _ (row_cons c rest)), zsum_add, IH.
    f_equal. rewrite <- Hc. apply zsum_lookup.
Qed.

Lemma row_numeric (rest : DataFrame) i :
  Forall (fun c : column => Forall (fun x => is_num x = true) (snd c)) rest ->
  Forall (fun x => is_num x = true) (row rest i).
Proof.
  unfold row. induction 1 as [|c rest Hc _ IH]; simpl; [done|].
  destruct (snd c !! i) as [x|] eqn:Hx; [|done].
  apply Forall_cons. split; [|done].
  rewrite Forall_forall in Hc. apply Hc. by eapply list_elem_of_lookup_2.
Qed.

Lemma combine_fst {A B} (l : list A) (k : list B) :
  length l = length k -> map fst (combine l k) = l.
Proof.
  revert k. induction l as [|x l IH]; intros [|y k] Hlen; simpl in *;
    try done. f_equal. apply IH. lia.
Qed.

Lemma combine_snd {A B} (l : list A) (k : list B) :
  length l = length k -> map snd (combine l k) = k.
Proof.
  revert k. induction l as [|x l IH]; intros [|y k] Hlen; simpl in *;
    try done. f_equal. apply IH. lia.
Qed.

(** The totals pandas makes of the rows of a frame of numbers. *)
Lemma sum_axis1_numeric index (rest : DataFrame) :
  Forall (fun c : column => Forall (fun x => is_num x = true) (snd c)) rest ->
  Forall (fun c : column => length (snd c) = length index) rest ->
  sum_axis1 (index, rest)
  = Ok (combine index (map (fun r => Num (wrap64 (zsum (map cell_value r))))
                           (rows rest (length index)))).
Proof.
  intros Hnum Hlen. destruct index as [|k0 index0] eqn:Hindex; [done|].
  rewrite <- Hindex in *.
  assert (index <> []) as Hne by (by rewrite Hindex). clear Hindex.
  unfold sum_axis1, rows.
  assert (forallb (fun c : column => is_int64 (snd c)) rest = true) as ->.
  { apply forallb_Forall. rewrite Forall_forall in Hnum, Hlen |- *.
    intros c Hc. apply is_int64_numeric; [|by apply Hnum].
    intros Hnil. apply (f_equal length) in Hnil. rewrite (Hlen c Hc) in Hnil.
    by destruct index. }
  clear Hne Hlen.
  generalize (seq 0 (length index)) as js.
  induction index as [|k index IH]; intros [|i js]; simpl; try done.
  rewrite sum_int64_total. by rewrite IH.
Qed.

Lemma filter_stripped key df :
  filter (fun c : column => fst c <> key) (str_strip_columns df)
  = str_strip_columns (filter (fun c : column => PyStr.strip (fst c) <> key) df).
Proof.
  induction df as [|c df IH]; [done|]. simpl.
  rewrite !filter_cons. simpl. rewrite IH.
  destruct (decide (PyStr.strip (fst c) <> key)); done.
Qed.

Lemma column_total_stripped df :
  map column_total (str_strip_columns df) = map column_total df.
Proof. unfold str_strip_columns. rewrite map_map. by apply map_ext. Qed.

Lemma rectangular_lengths df :
  rectangular df ->
  Forall (fun c : column => length (snd c) = nrows df) (str_strip_columns df).
Proof.
  unfold rectangular, str_strip_columns. rewrite Forall_map. done.
Qed.

Lemma span_data_stripped (r : SpanReport) (df : DataFrame) :
  span_data r (str_strip_columns df) = span_data r df.
Proof.
  unfold span_data, span_names.
  by rewrite columns_stripped, strip_columns_again, str_strip_columns_idemp.
Qed.

Lemma span_columns_slice r df i j :
  list_index (first_name r) (map PyStr.strip (columns df)) = Ok i ->
  list_index (last_name r) (map PyStr.strip (columns df)) = Ok j ->
  span_columns r df = slice df i (S j).
Proof. intros Hi Hj. unfold span_columns. by rewrite Hi, Hj. Qed.

Lemma raw_total_counts (c : column) :
  Forall (fun x => is_count x = true) (snd c) ->
  raw_total c = Ok (PyStr.strip (fst c), Num (wrap64 (column_total c))).
Proof.
  intros Hc. unfold raw_total.
  by rewrite sum_cells_numeric by by apply counts_numeric.
Qed.

(** What a span report adds up over columns of counts. *)
Lemma span_data_counts r df :
  first_name r ∈ map PyStr.strip (columns df) ->
  last_name r ∈ map PyStr.strip (columns df) ->
  span_unambiguous r df ->
  Forall (fun c : column => Forall (fun x => is_count x = true) (snd c))
         (span_columns r df) ->
  span_data r df
  = Ok (map (fun c : column =>
               (PyStr.strip (fst c), Num (wrap64 (column_total c))))
            (span_columns r df)).
Proof.
  intros Hfirst Hlast Hone Hcounts.
  rewrite (span_data_unambiguous r df Hone). unfold column_sums_between.
  destruct (list_index_elem _ _ Hfirst) as (i & Hi & _).
  destruct (list_index_elem _ _ Hlast) as (j & Hj & _).
  rewrite (span_columns_slice r df i j Hi Hj) in *. rewrite Hi, Hj. simpl.
  apply rmapM_total. eapply Forall_impl; [exact Hcounts|].
  intros c Hc. by apply raw_total_counts.
Qed.

(** Columns none of whose labels is carried twice have distinct labels. *)
Lemma labels_once (run : list column) :
  Forall (fun c : column => (length (labelled (fst c) run) <= 1)%nat) run ->
  NoDup (map fst run).
Proof.
  induction run as [|c run IH]; intros Hall; [constructor|].
  apply Forall_cons in Hall as [Hc Hall]. simpl. constructor.
  - unfold labelled in Hc. rewrite filter_cons_True in Hc by done.
    simpl in Hc. intros Hin. apply list_elem_of_fmap in Hin as (c' & Heq & Hin).
    assert (c' ∈ filter (fun c0 : column => fst c0 = fst c) run) as Hc'
        by (by apply list_elem_of_filter).
    destruct (filter _ run); [by apply elem_of_nil in Hc' | simpl in Hc; lia].
  - apply IH. eapply Forall_impl; [exact Hall|]. intros c' Hc'.
    unfold labelled in *. rewrite filter_cons in Hc'.
    destruct (decide (fst c = fst c')); simpl in Hc'; lia.
Qed.

(** With no ambiguous name, the names of a span are pairwise distinct. *)
Lemma span_names_distinct r df names :
  span_unambiguous r df -> span_names r df = Ok names -> NoDup names.
Proof.
  intros Hone Hnames. specialize (Hone names Hnames).
  unfold span_names in Hnames.
  destruct (list_index (first_name r) _) as [i|e]; [|done].
  destruct (list_index (last_name r) _) as [j|e]; [|done].
  simpl in Hnames. injection Hnames as <-.
  rewrite <- columns_stripped in *. unfold columns in *.
  rewrite slice_map in *.
  set (sdf := str_strip_columns df) in *.
  pose proof (slice_split sdf i (j + 1)) as Hsplit.
  set (run := slice sdf i (j + 1)) in *.
  apply labels_once. rewrite Forall_map in Hone.
  eapply Forall_impl; [exact Hone|]. intros c Hc. simpl in Hc.
  rewrite Hsplit in Hc. unfold labelled in *.
  rewrite !filter_app, !length_app in Hc. lia.
Qed.

Lemma row_stripped df i : row (str_strip_columns df) i = row df i.
Proof.
  unfold row, str_strip_columns. induction df as [|c df IH]; [done|].
  cbn in *. by rewrite IH.
Qed.

Lemma rows_stripped df n : rows (str_strip_columns df) n = rows df n.
Proof. unfold rows. apply map_ext. intros i. apply row_stripped. Qed.

Lemma nrows_stripped df : nrows (str_strip_columns df) = nrows df.
Proof. by destruct df. Qed.

End PandasFacts.

(** ** Charts *)

Module PlotFacts.
Import Pandas Plot Reports Spec.

Lemma barplot_numbers y :
  Forall (fun x => is_num x = true) y -> barplot y = Ok tt.
Proof.
  induction 1 as [|x y Hx _ IH]; [done|]. by destruct x.
Qed.

Lemma barplot_ok y :
  barplot y = Ok tt -> Forall (fun x => is_num x = true) y.
Proof.
  induction y as [|x y IH]; [constructor|].
  destruct x; simpl; [|done..]. intros Hy. constructor; [done | by apply IH].
Qed.

Lemma barplot_raises y e : barplot y = Raise e -> e = TypeError.
Proof.
  induction y as [|x y IH]; [done|]. destruct x; simpl; [done|congruence..].
Qed.

Lemma drawn_ok {L} (computed : result (Series L)) s :
  drawn computed = Ok s -> computed = Ok s /\ barplot (map snd s) = Ok tt.
Proof.
  unfold drawn. destruct computed as [s'|e]; [|done]. simpl.
  destruct (barplot (map snd s')) as [[]|e] eqn:Hplot; [|done]. simpl.
  by intros [= <-].
Qed.

Lemma drawn_numbers {L} (computed : result (Series L)) s :
  computed = Ok s -> Forall (fun x => is_num x = true) (map snd s) ->
  drawn computed = Ok s.
Proof.
  intros -> Hnum. unfold drawn. simpl. by rewrite (barplot_numbers _ Hnum).
Qed.

Lemma drawn_raises {L} (computed : result (Series L)) s e :
  computed = Ok s -> drawn computed = Raise e -> e = TypeError.
Proof.
  intros ->. unfold drawn. simpl.
  destruct (barplot (map snd s)) as [[]|e'] eqn:Hplot; [done|]. simpl.
  intros [= <-]. by eapply barplot_raises.
Qed.

Lemma filter_all {A} (P : A -> Prop) `{forall x, Decision (P x)} (l : list A) :
  Forall P l -> filter P l = l.
Proof.
  induction 1 as [|x l Hx _ IH]; [done|].
  rewrite filter_cons_True by done. by rewrite IH.
Qed.

(** Distinct values are as many categories. *)
Lemma categories_distinct xs : NoDup xs -> categories xs = xs.
Proof.
  induction 1 as [|x xs Hx _ IH]; [done|]. simpl. rewrite IH. f_equal.
  apply filter_all. apply Forall_forall. intros k Hk ->. done.
Qed.

Lemma values_of_absent k xs ys : k ∉ xs -> values_of k xs ys = [].
Proof.
  revert ys. induction xs as [|x xs IH]; intros [|y ys] Hk; try done.
  apply not_elem_of_cons in Hk as [Hne Hk]. simpl.
  rewrite decide_False by done. by apply IH.
Qed.

(** With distinct values of [x] every bar stands for one value of [y]. *)
Lemma bars_distinct (c : Chart) :
  NoDup (barplot_x c) -> length (barplot_x c) = length (barplot_y c) ->
  bars c = map (fun p : cell * cell => (fst p, [snd p]))
               (combine (barplot_x c) (barplot_y c)).
Proof.
  unfold bars. intros Hnd. rewrite (categories_distinct _ Hnd).
  generalize (barplot_y c) as ys. induction Hnd as [|x xs Hx Hnd IH];
    intros [|y ys] Hlen; try done.
  simpl in *. rewrite decide_True by done.
  rewrite (values_of_absent x xs ys Hx). f_equal.
  rewrite <- IH by lia. apply map_ext_in. intros k Hk%list_elem_of_In.
  rewrite decide_False; [done|]. by intros ->.
Qed.

Lemma label_ticks_combine ticks labels :
  length ticks = length labels -> label_ticks ticks labels = combine ticks labels.
Proof.
  revert labels. induction ticks as [|k ticks IH]; intros [|l labels] Hlen;
    try done. simpl in *. f_equal. apply IH. lia.
Qed.

Lemma rmapM_length {A B} (f : A -> result B) l l' :
  rmapM f l = Ok l' -> length l' = length l.
Proof.
  revert l'. induction l as [|x l IH]; intros l'; simpl.
  - by intros [= <-].
  - destruct (f x) as [y|e]; [|done]. simpl.
    destruct (rmapM f l) as [ys|e]; [|done]. simpl.
    intros [= <-]. simpl. by rewrite (IH ys).
Qed.

Lemma rmapM_combine {A B} (f : A -> result B) l l' x y :
  rmapM f l = Ok l' -> (x, y) ∈ combine l l' -> f x = Ok y.
Proof.
  revert l'. induction l as [|a l IH]; intros l'; simpl.
  - intros [= <-] Hin. by apply elem_of_nil in Hin.
  - destruct (f a) as [b|e] eqn:Hfa; [|done]. simpl.
    destruct (rmapM f l) as [ys|e]; [|done]. simpl.
    intros [= <-]. simpl. intros [Heq|Hin]%elem_of_cons.
    + by simplify_eq.
    + by apply (IH ys).
Qed.

(** The label the license-type axis shows for a piece of text. *)
Lemma short_label_text label shown :
  short_label (Text label) = Ok shown ->
  exists s, shown = Text s /\ rewritten label s.
Proof.
  simpl. pose proof (PyStrFacts.contains_spec "by/2.5" label) as Hspec.
  destruct (PyStr.contains "by/2.5" label); intros [= <-].
  - exists "CC BY 2.5". split; [done|]. split; [done|].
    intros Hno. destruct Hno. by apply Hspec.
  - exists label. split; [done|]. split; [|done].
    intros Hyes. apply Hspec in Hyes. done.
Qed.

End PlotFacts.

(** ** Runs of the script *)

Module RunFacts.
Import Pandas Plot Reports Spec.

Section Runs.
Context `{Environment}.

Lemma steps_of_app t u : steps_of (t ++ u) = steps_of t ++ steps_of u.
Proof. unfold steps_of. apply omap_app. Qed.

Lemma deref_assigned (w : World) data df df' :
  heap w !! data = Some df -> <[data := df']> (heap w) !! data = Some df'.
Proof.
  intros Hdata. apply list_lookup_insert_eq. by eapply lookup_lt_Some.
Qed.

(** What one run of a span report does to the world, stage by stage: nothing
    but a log record when a sentinel is missing; otherwise the headers of the
    frame are stripped in place, and the chart is saved once the sums are
    there. *)
Lemma visualize_by_span_effect r data args (w : World) df :
  heap w !! data = Some df ->
  exists res w',
    visualize_by_span r data args w = (res, w')
    /\ (exists new, trace w' = trace w ++ new /\ steps_of new = [])
    /\ match span_names r df with
       | Raise e =>
           res = Raise e /\ heap w' = heap w /\ files w' = files w
           /\ ext w' = ext w
       | Ok names =>
           heap w' = <[data := str_strip_columns df]> (heap w)
           /\ match drawn (span_sums (str_strip_columns df) names) with
              | Raise e => res = Raise e /\ files w' = files w /\ ext w' = ext w
              | Ok span_data =>
                  files w'
                  = <[image_path (quarter args) (image_name r)
                      := PngFile (span_chart r (quarter args) span_data)]>
                      (files w)
                  /\ (res, ext w')
                     = update_readme
                         (image_path (quarter args) (image_name r))
                         "Google Custom Search" (readme_title r)
                         (readme_section r) args (ext w)
              end
       end.
Proof.
  intros Hdata.
  unfold drawn, visualize_by_span, bind, log, emit, deref, lift, assign,
    savefig, makedirs, extern, ret. simpl. rewrite Hdata.
  destruct (span_names r df) as [names|e]; simpl.
  2: { eexists _, _. split; [done|]. simpl. split; [by eexists|done]. }
  rewrite (deref_assigned w data df _ Hdata).
  destruct (span_sums (str_strip_columns df) names) as [sd|e]; simpl.
  2: { eexists _, _. split; [done|]. simpl.
       split; [eexists; split; [by rewrite <- app_assoc | done] | done]. }
  destruct (barplot (map snd sd)) as [[]|e]; simpl.
  2: { eexists _, _. split; [done|]. simpl.
       split; [eexists; split; [by rewrite <- app_assoc | done] | done]. }
  destruct (show_plots args); simpl;
    destruct (update_readme _ _ _ _ _ _) as [[[]|e] x] eqn:Hreadme; simpl;
    eexists _, _; (split; [done|]); simpl;
    (split; [eexists; split; [by rewrite <- !app_assoc | done] | done]).
Qed.

(** The same for the license-type report, which strips the headers before
    anything can fail. *)
Lemma visualize_by_license_type_effect data args (w : World) df :
  heap w !! data = Some df ->
  exists res w',
    visualize_by_license_type data args w = (res, w')
    /\ (exists new, trace w' = trace w ++ new /\ steps_of new = [])
    /\ heap w' = <[data := str_strip_columns df]> (heap w)
    /\ match drawn (license_sums (str_strip_columns df)) with
       | Raise e => res = Raise e /\ files w' = files w /\ ext w' = ext w
       | Ok license_data =>
           match rmapM short_label (map fst license_data) with
           | Raise e => res = Raise e /\ files w' = files w /\ ext w' = ext w
           | Ok labels =>
               files w'
               = <[image_path (quarter args) "gcs_licensetype_report.png"
                   := PngFile (license_chart (quarter args) license_data labels)]>
                   (files w)
               /\ (res, ext w')
                  = update_readme
                      (image_path (quarter args) "gcs_licensetype_report.png")
                      "Google Custom Search"
                      "Number of Webpages Licensed by License Type"
                      "License Type Report" args (ext w)
           end
       end.
Proof.
  intros Hdata.
  unfold drawn, visualize_by_license_type, bind, log, emit, deref, lift,
    assign, savefig, makedirs, extern, ret. simpl. rewrite Hdata.
  rewrite (deref_assigned w data df _ Hdata).
  destruct (license_sums (str_strip_columns df)) as [ld|e]; simpl.
  2: { eexists _, _. split; [done|]. simpl. split; [by eexists | done]. }
  destruct (barplot (map snd ld)) as [[]|e]; simpl.
  2: { eexists _, _. split; [done|]. simpl. split; [by eexists | done]. }
  destruct (rmapM short_label (map fst ld)) as [labels|e]; simpl.
  2: { eexists _, _. split; [done|]. simpl. split; [by eexists | done]. }
  destruct (show_plots args); simpl;
    destruct (update_readme _ _ _ _ _ _) as [[[]|e] x] eqn:Hreadme; simpl;
    eexists _, _; (split; [done|]); simpl;
    (split; [eexists; split; [by rewrite <- !app_assoc | done] | done]).
Qed.

Lemma parse_arguments_run argv (w : World) :
  parse_arguments argv w
  = (Ok (parsed argv),
     {| heap := heap w; files := files w;
        trace := trace w ++ [Log Info (Msg "Parsing command-line arguments")];
        ext := ext w |}).
Proof.
  unfold parse_arguments, parsed, bind, log, emit, ret. simpl.
  destruct (opt_skip_commit argv); done.
Qed.

(** The loader: an absent file gives a fresh empty frame and an error record;
    a present one is parsed, and the frame is a new object. *)
Lemma load_data_run args (w : World) :
  load_data args w
  = match files w !! fetched_path (quarter args) with
    | None =>
        (Ok (length (heap w)),
         {| heap := heap w ++ [[]]; files := files w;
            trace := trace w ++
              [Log Error (Msg ("Data file not found: "
                               +:+ fetched_path (quarter args)))];
            ext := ext w |})
    | Some (CsvFile c) =>
        match read_csv c with
        | Ok df =>
            (Ok (length (heap w)),
             {| heap := heap w ++ [df]; files := files w;
                trace := trace w ++
                  [Log Info (Msg ("Data loaded from "
                                  +:+ fetched_path (quarter args)))];
                ext := ext w |})
        | Raise e => (Raise e, w)
        end
    | Some (PngFile _) => (Raise ParserError, w)
    end.
Proof.
  unfold load_data, bind, path_exists, read_file, alloc, log, emit, ret.
  destruct (files w !! fetched_path (quarter args)) as [[c|c]|] eqn:Hfile.
  - rewrite bool_decide_eq_true_2 by eauto. simpl. rewrite Hfile.
    destruct (read_csv c); done.
  - rewrite bool_decide_eq_true_2 by eauto. simpl. by rewrite Hfile.
  - rewrite bool_decide_eq_false_2 by (by intros [? ?]). done.
Qed.

Lemma bind_run {A B} (m : M A) (k : A -> M B) (w : World) res w'' :
  bind m k w = (res, w'') ->
  (exists e, m w = (Raise e, w'') /\ res = Raise e)
  \/ (exists a w', m w = (Ok a, w') /\ k a w' = (res, w'')).
Proof.
  unfold bind. destruct (m w) as [[a|e] w'] eqn:Hm; intros Hk.
  - right. by exists a, w'.
  - left. exists e. by simplify_eq.
Qed.

Lemma advances_refl paths (w : World) : advances [] paths w w.
Proof.
  split; [|done]. exists []. by rewrite app_nil_r.
Qed.

Lemma advances_trans s1 s2 paths (w w1 w2 : World) :
  advances s1 paths w w1 -> advances s2 paths w1 w2 ->
  advances (s1 ++ s2) paths w w2.
Proof.
  intros [(n1 & Ht1 & Hs1) [Hf1 Hk1]] [(n2 & Ht2 & Hs2) [Hf2 Hk2]].
  split; [|split].
  - exists (n1 ++ n2). rewrite Ht2, Ht1, app_assoc. split; [done|].
    by rewrite steps_of_app, Hs1, Hs2.
  - intros q Hq. by rewrite Hf2, Hf1.
  - intros q Hq. by apply Hk2, Hk1.
Qed.

(** A step that leaves the files alone. *)
Lemma advances_files_kept steps paths (w w' : World) new :
  trace w' = trace w ++ new -> steps_of new = steps -> files w' = files w ->
  advances steps paths w w'.
Proof.
  intros Ht Hs Hf. split; [by exists new|]. rewrite Hf. done.
Qed.

(** A step that writes one of the files it may write. *)
Lemma advances_file_written steps paths (w w' : World) new p f :
  trace w' = trace w ++ new -> steps_of new = steps -> p ∈ paths ->
  files w' = <[p := f]> (files w) ->
  advances steps paths w w'.
Proof.
  intros Ht Hs Hp Hf. split; [by exists new|]. rewrite Hf. split.
  - intros q Hq. apply lookup_insert_ne. intros ->. done.
  - intros q Hq. rewrite lookup_insert. by case_decide.
Qed.

Lemma call_extern_run s f (w : World) res w' paths :
  call s (extern f) w = (res, w') ->
  advances [s] paths w w' /\ heap w' = heap w /\ files w' = files w
  /\ (res, ext w') = f (ext w).
Proof.
  unfold call, bind, emit, extern. simpl.
  destruct (f (ext w)) as [r x] eqn:Hf. intros Hrun. simplify_eq. simpl.
  split; [|done]. by eapply advances_files_kept.
Qed.

Lemma call_parse_run argv (w : World) res w' paths :
  call ParseArgs (parse_arguments argv) w = (res, w') ->
  res = Ok (parsed argv) /\ advances [ParseArgs] paths w w'
  /\ heap w' = heap w /\ files w' = files w.
Proof.
  unfold call, bind, emit. simpl. rewrite parse_arguments_run. simpl.
  intros Hrun. simplify_eq. simpl. split; [done|]. split; [|done].
  eapply advances_files_kept; [simpl; by rewrite <- app_assoc | done | done].
Qed.

Lemma call_load_run args (w : World) res w' paths :
  call LoadData (load_data args) w = (res, w') ->
  advances [LoadData] paths w w' /\ files w' = files w
  /\ match loaded_frame w (quarter args) with
     | Ok df => res = Ok (length (heap w)) /\ heap w' = heap w ++ [df]
     | Raise e => res = Raise e /\ heap w' = heap w
     end.
Proof.
  unfold call, bind, emit, loaded_frame. simpl. rewrite load_data_run. simpl.
  destruct (files w !! fetched_path (quarter args)) as [[c|c]|];
    [destruct (read_csv c)|..]; intros Hrun; simplify_eq; simpl;
    (split; [|done]);
    (eapply advances_files_kept;
     [simpl; by rewrite <- ?app_assoc | done | done]).
Qed.

Lemma is_empty_run data (w : World) df :
  heap w !! data = Some df -> is_empty data w = (Ok (empty df), w).
Proof. intros Hdata. unfold is_empty, bind, deref, ret. by rewrite Hdata. Qed.

Lemma log_run l m (w : World) paths :
  exists w', log l m w = (Ok tt, w') /\ advances [] paths w w'
             /\ heap w' = heap w /\ files w' = files w.
Proof.
  eexists. split; [done|]. simpl. split; [|done].
  by eapply advances_files_kept.
Qed.

Lemma call_span_run s r data args (w : World) df res w' paths :
  heap w !! data = Some df ->
  image_path (quarter args) (image_name r) ∈ paths ->
  call s (visualize_by_span r data args) w = (res, w') ->
  advances [s] paths w w'
  /\ (heap w' !! data = Some df
      \/ heap w' !! data = Some (str_strip_columns df))
  /\ (res = Ok tt ->
      heap w' !! data = Some (str_strip_columns df)
      /\ is_Some (files w' !! image_path (quarter args) (image_name r))).
Proof.
  intros Hdata Hpath. unfold call, bind at 1, emit. simpl.
  match goal with |- visualize_by_span _ _ _ ?w0 = _ -> _ => set (w0' := w0) end.
  destruct (visualize_by_span_effect r data args w0' df Hdata)
    as (res0 & w1 & Hrun & (new & Ht & Hs) & Hcase).
  rewrite Hrun. intros ?. simplify_eq. simpl in Ht.
  rewrite <- app_assoc in Ht.
  destruct (span_names r df) as [names|e].
  - destruct Hcase as [Hheap Hcase]. simpl in Hheap.
    assert (heap w' !! data = Some (str_strip_columns df)) as Hnew
        by (rewrite Hheap; by eapply deref_assigned).
    destruct (drawn (span_sums (str_strip_columns df) names)) as [sd|e].
    + destruct Hcase as [Hfiles _]. simpl in Hfiles.
      split; [|split; [by right|]].
      * eapply advances_file_written; [done| |done..]. simpl. by rewrite Hs.
      * intros _. split; [done|]. rewrite Hfiles, lookup_insert_eq. by eexists.
    + destruct Hcase as (-> & Hfiles & _). simpl in Hfiles.
      split; [|split; [by right | done]].
      eapply advances_files_kept; [done| |done]. simpl. by rewrite Hs.
  - destruct Hcase as (-> & Hheap & Hfiles & _). simpl in *.
    split; [|split; [left; by rewrite Hheap | done]].
    eapply advances_files_kept; [done| |done]. simpl. by rewrite Hs.
Qed.

Lemma call_license_run data args (w : World) df res w' paths :
  heap w !! data = Some df ->
  image_path (quarter args) "gcs_licensetype_report.png" ∈ paths ->
  call LicenseTypeReport (visualize_by_license_type data args) w = (res, w') ->
  advances [LicenseTypeReport] paths w w'
  /\ heap w' !! data = Some (str_strip_columns df)
  /\ (res = Ok tt ->
      is_Some (files w' !! image_path (quarter args) "gcs_licensetype_report.png")).
Proof.
  intros Hdata Hpath. unfold call, bind at 1, emit. simpl.
  match goal with
  | |- visualize_by_license_type _ _ ?w0 = _ -> _ => set (w0' := w0)
  end.
  destruct (visualize_by_license_type_effect data args w0' df Hdata)
    as (res0 & w1 & Hrun & (new & Ht & Hs) & Hheap & Hcase).
  rewrite Hrun. intros ?. simplify_eq. simpl in Ht, Hheap.
  rewrite <- app_assoc in Ht.
  assert (heap w' !! data = Some (str_strip_columns df)) as Hnew
      by (rewrite Hheap; by eapply deref_assigned).
  split; [|split; [done|]].
  - destruct (drawn (license_sums (str_strip_columns df))) as [ld|e];
      [destruct (rmapM short_label (map fst ld)) as [labels|e]|].
    + destruct Hcase as [Hfiles _]. simpl in Hfiles.
      eapply advances_file_written; [done| |done..]. simpl. by rewrite Hs.
    + destruct Hcase as (_ & Hfiles & _). simpl in Hfiles.
      eapply advances_files_kept; [done| |done]. simpl. by rewrite Hs.
    + destruct Hcase as (_ & Hfiles & _). simpl in Hfiles.
      eapply advances_files_kept; [done| |done]. simpl. by rewrite Hs.
  - intros ->.
    destruct (drawn (license_sums (str_strip_columns df))) as [ld|e];
      [destruct (rmapM short_label (map fst ld)) as [labels|e]|];
      try (by destruct Hcase).
    destruct Hcase as [Hfiles _]. simpl in Hfiles.
    rewrite Hfiles, lookup_insert_eq. by eexists.
Qed.

Lemma loaded_frame_files (w w' : World) q :
  files w' = files w -> loaded_frame w' q = loaded_frame w q.
Proof. unfold loaded_frame. by intros ->. Qed.

Lemma empty_stripped df : empty (str_strip_columns df) = empty df.
Proof.
  unfold empty, str_strip_columns. rewrite length_map.
  by destruct df as [|[h v] df].
Qed.

(** The end of [main]: commit and push, each unless skipped. *)
Lemma commit_push_run args (w : World) res w' paths :
  bind (if negb (skip_commit args)
        then call Commit (extern (add_and_commit repo_root
                                    "Added and committed new reports"))
        else ret tt)
       (fun _ => if negb (skip_push args)
                 then call Push (extern (push_changes repo_root))
                 else ret tt) w = (res, w') ->
  exists steps,
    advances steps paths w w' /\ files w' = files w /\ heap w' = heap w
    /\ steps `prefix_of` ((if skip_commit args then [] else [Commit])
                           ++ (if skip_push args then [] else [Push]))
    /\ (res = Ok tt ->
        steps = (if skip_commit args then [] else [Commit])
                ++ (if skip_push args then [] else [Push])).
Proof.
  intros Hrun.
  apply bind_run in Hrun as [(e & Hcommit & ->) | ([] & w1 & Hcommit & Hpush)].
  - destruct (skip_commit args); [done|]. simpl in *.
    apply (call_extern_run _ _ _ _ _ paths) in Hcommit as (Ha & Hh & Hf & _).
    exists [Commit]. split_and!; try done. by eexists.
  - assert (advances (if skip_commit args then [] else [Commit]) paths w w1
            /\ files w1 = files w /\ heap w1 = heap w) as (Ha1 & Hf1 & Hh1).
    { destruct (skip_commit args); simpl in *.
      - unfold ret in Hcommit. simplify_eq. split; [apply advances_refl | done].
      - by apply (call_extern_run _ _ _ _ _ paths) in Hcommit as (? & ? & ? & _). }
    destruct (skip_push args); simpl in *.
    + unfold ret in Hpush. simplify_eq.
      rewrite app_nil_r. eexists. by split_and!.
    + apply (call_extern_run _ _ _ _ _ paths) in Hpush as (Ha2 & Hh2 & Hf2 & _).
      eexists. split; [by eapply advances_trans|].
      split_and!; try congruence; done.
Qed.

Lemma report_paths_elem q :
  image_path q (image_name country) ∈ report_paths q
  /\ image_path q "gcs_licensetype_report.png" ∈ report_paths q
  /\ image_path q (image_name language) ∈ report_paths q.
Proof. unfold report_paths. simpl. set_solver. Qed.

(** The course of a run of [main]: it stops at the pull, or after the loader
    (which raised or gave an empty frame), or it reaches the reports. *)
Lemma main_run argv (w : World) res w' :
  main argv w = (res, w') ->
  let args := parsed argv in
  let data := length (heap w) in
  let paths := report_paths (quarter args) in
  exists steps,
    advances steps paths w w'
    /\ steps `prefix_of` plan args
    /\ ((steps = [Pull] /\ files w' = files w
         /\ exists e, res = Raise e
                      /\ fst (fetch_and_merge repo_root (ext w)) = Raise e)
        \/ (steps = [Pull; ParseArgs; LoadData] /\ files w' = files w
            /\ ((exists e, res = Raise e
                           /\ loaded_frame w (quarter args) = Raise e)
                \/ (exists df, res = Ok tt
                               /\ loaded_frame w (quarter args) = Ok df
                               /\ empty df = true
                               /\ heap w' = heap w ++ [df])))
        \/ (exists df,
              loaded_frame w (quarter args) = Ok df /\ empty df = false
              /\ CountryReport ∈ steps
              /\ (res = Ok tt ->
                  steps = plan args
                  /\ Forall (fun p => is_Some (files w' !! p)) paths)
              /\ (LicenseTypeReport ∈ steps ->
                  heap w' !! data = Some (str_strip_columns df)))).
Proof.
  intros Hrun args data paths. revert Hrun. unfold main. intros Hrun.
  destruct (report_paths_elem (quarter args)) as (Hp1 & Hp2 & Hp3).
  fold paths in Hp1, Hp2, Hp3.
  apply bind_run in Hrun as [(e & Hpull & ->) | ([] & w1 & Hpull & Hrun)].
  { apply (call_extern_run _ _ _ _ _ paths) in Hpull as (Ha & _ & Hf & Hext).
    exists [Pull]. split; [done|]. split; [by eexists|]. left.
    split_and!; try done. exists e. by rewrite <- Hext. }
  apply (call_extern_run _ _ _ _ _ paths) in Hpull as (Ha1 & Hh1 & Hf1 & _).
  apply bind_run in Hrun as [(e & Hparse & ->) | (args' & w2 & Hparse & Hrun)].
  { by apply (call_parse_run _ _ _ _ paths) in Hparse as [? _]. }
  apply (call_parse_run _ _ _ _ paths) in Hparse as (Hargs & Ha2 & Hh2 & Hf2).
  simplify_eq. fold args in Hrun.
  pose proof (advances_trans _ _ _ _ _ _ Ha1 Ha2) as Ha. simpl in Ha.
  assert (loaded_frame w2 (quarter args) = loaded_frame w (quarter args))
    as Hsame by (apply loaded_frame_files; congruence).
  apply bind_run in Hrun as [(e & Hload & ->) | (data' & w3 & Hload & Hrun)].
  { apply (call_load_run _ _ _ _ paths) in Hload as (Ha3 & Hf3 & Hcase).
    pose proof (advances_trans _ _ _ _ _ _ Ha Ha3) as Ha'. simpl in Ha'.
    rewrite Hsame in Hcase. eexists. split; [done|]. split; [by eexists|].
    right. left. split_and!; [done | congruence |]. left. exists e.
    destruct (loaded_frame w (quarter args)); destruct Hcase; by simplify_eq. }
  apply (call_load_run _ _ _ _ paths) in Hload as (Ha3 & Hf3 & Hcase).
  pose proof (advances_trans _ _ _ _ _ _ Ha Ha3) as Ha'. simpl in Ha'.
  clear Ha Ha1 Ha2 Ha3. rewrite Hsame in Hcase.
  destruct (loaded_frame w (quarter args)) as [df|e] eqn:Hframe;
    [|by destruct Hcase].
  destruct Hcase as [Hdata' Hh3]. simplify_eq.
  rewrite Hh2, Hh1 in Hh3, Hrun. fold data in Hrun.
  assert (heap w3 !! data = Some df) as Hdata
      by (rewrite Hh3; by apply list_lookup_middle).
  apply bind_run in Hrun as [(e & Hempty & _) | (b & w4 & Hempty & Hrun)];
    rewrite (is_empty_run _ _ _ Hdata) in Hempty; [done|]. simplify_eq.
  destruct (empty df) eqn:Hemp.
  { unfold ret in Hrun. simplify_eq. eexists. split; [done|].
    split; [by eexists|]. right. left. split_and!; [done | congruence |].
    right. by exists df. }
  apply bind_run in Hrun as [(e & Hlog & _) | ([] & w5 & Hlog & Hrun)];
    destruct (log_run Info (Msg ("Current working directory: " +:+ cwd)) w4 paths)
      as (w5' & Hlog' & Ha5 & Hh5 & Hf5); rewrite Hlog' in Hlog; [done|].
  simplify_eq.
  pose proof (advances_trans _ _ _ _ _ _ Ha' Ha5) as Ha. simpl in Ha.
  clear Ha' Ha5. rewrite <- Hh5 in Hdata.
  (* the country report *)
  apply bind_run in Hrun as [(e & Hc & ->) | ([] & w6 & Hc & Hrun)];
    apply (call_span_run _ _ _ _ _ _ _ _ _ Hdata Hp1) in Hc as (Ha6 & _ & Hok6);
    pose proof (advances_trans _ _ _ _ _ _ Ha Ha6) as Hadv6; simpl in Hadv6.
  { eexists. split; [done|]. split; [by eexists|]. right. right. exists df.
    split_and!; [done | done | present_step | done | absent_step]. }
  destruct (Hok6 eq_refl) as [Hdata6 Hfile1].
  (* the license-type report *)
  apply bind_run in Hrun as [(e & Hl & ->) | ([] & w7 & Hl & Hrun)];
    apply (call_license_run _ _ _ _ _ _ _ Hdata6 Hp2) in Hl as (Ha7 & Hdata7 & Hok7);
    rewrite PandasFacts.str_strip_columns_idemp in Hdata7;
    pose proof (advances_trans _ _ _ _ _ _ Hadv6 Ha7) as Hadv7; simpl in Hadv7.
  { eexists. split; [done|]. split; [by eexists|]. right. right. exists df.
    split_and!; [done | done | present_step | done | done]. }
  specialize (Hok7 eq_refl).
  (* the language report *)
  apply bind_run in Hrun as [(e & Hg & ->) | ([] & w8 & Hg & Hrun)];
    apply (call_span_run _ _ _ _ _ _ _ _ _ Hdata7 Hp3) in Hg as (Ha8 & Hdata8 & Hok8);
    rewrite PandasFacts.str_strip_columns_idemp in Hdata8, Hok8;
    pose proof (advances_trans _ _ _ _ _ _ Hadv7 Ha8) as Hadv8; simpl in Hadv8.
  { eexists. split; [done|]. split; [by eexists|]. right. right. exists df.
    split_and!; [done | done | present_step | done | by destruct Hdata8]. }
  destruct (Hok8 eq_refl) as [Hdata9 Hfile3].
  (* commit and push *)
  apply (commit_push_run _ _ _ _ paths) in Hrun
    as (tail & Ha9 & Hf9 & Hh9 & [rest Hprefix] & Hok9).
  pose proof (advances_trans _ _ _ _ _ _ Hadv8 Ha9) as Hadv. simpl in Hadv.
  eexists. split; [done|]. split.
  { exists rest. unfold plan. rewrite Hprefix. reflexivity. }
  right. right. exists df. split_and!; [done | done | present_step | |].
  - intros ->. split; [unfold plan; by rewrite (Hok9 eq_refl)|].
    destruct Ha7 as (_ & _ & Hkeep7). destruct Ha8 as (_ & _ & Hkeep8).
    unfold paths, report_paths. rewrite !Forall_cons, Forall_nil, Hf9.
    split_and!; [by apply Hkeep8, Hkeep7 | by apply Hkeep8 | done | done].
  - intros _. by rewrite Hh9.
Qed.

Lemma call_parse_ext argv (w : World) res w' :
  call ParseArgs (parse_arguments argv) w = (res, w') -> ext w' = ext w.
Proof.
  unfold call, bind, emit. simpl. rewrite parse_arguments_run.
  by intros [= _ <-].
Qed.

Lemma call_load_ext args (w : World) res w' :
  call LoadData (load_data args) w = (res, w') -> ext w' = ext w.
Proof.
  unfold call, bind, emit. simpl. rewrite load_data_run. simpl.
  destruct (files w !! fetched_path (quarter args)) as [[c|c]|];
    [destruct (read_csv c)|..]; by intros [= _ <-].
Qed.

(** A span report that returns: the series it drew, the chart it saved, the
    frame it stripped, the README entry it made. *)
Lemma call_span_ok s r data args (w : World) df w' :
  heap w !! data = Some df ->
  call s (visualize_by_span r data args) w = (Ok tt, w') ->
  exists series,
    span_data r df = Ok series
    /\ barplot (map snd series) = Ok tt
    /\ files w'
       = <[image_path (quarter args) (image_name r)
           := PngFile (span_chart r (quarter args) series)]> (files w)
    /\ heap w' = <[data := str_strip_columns df]> (heap w)
    /\ registered r args (ext w) = (Ok tt, ext w').
Proof.
  intros Hdata. unfold call, bind at 1, emit. simpl.
  match goal with |- visualize_by_span _ _ _ ?w0 = _ -> _ => set (w0' := w0) end.
  destruct (visualize_by_span_effect r data args w0' df Hdata)
    as (res0 & w1 & Hrun & _ & Hcase).
  rewrite Hrun. intros ?. simplify_eq. unfold span_data.
  destruct (span_names r df) as [names|e]; [|by destruct Hcase].
  destruct Hcase as [Hheap Hcase]. simpl.
  destruct (drawn (span_sums (str_strip_columns df) names)) as [series|e]
    eqn:Hdrawn; [|by destruct Hcase].
  apply PlotFacts.drawn_ok in Hdrawn as [Hseries Hplot].
  destruct Hcase as [Hfiles Hext]. exists series. by split_and!.
Qed.

Lemma call_license_ok data args (w : World) df w' :
  heap w !! data = Some df ->
  call LicenseTypeReport (visualize_by_license_type data args) w = (Ok tt, w') ->
  exists series labels,
    license_data df = Ok series
    /\ barplot (map snd series) = Ok tt
    /\ rmapM short_label (map fst series) = Ok labels
    /\ files w'
       = <[image_path (quarter args) "gcs_licensetype_report.png"
           := PngFile (license_chart (quarter args) series labels)]> (files w)
    /\ heap w' = <[data := str_strip_columns df]> (heap w)
    /\ registered_license args (ext w) = (Ok tt, ext w').
Proof.
  intros Hdata. unfold call, bind at 1, emit. simpl.
  match goal with
  | |- visualize_by_license_type _ _ ?w0 = _ -> _ => set (w0' := w0)
  end.
  destruct (visualize_by_license_type_effect data args w0' df Hdata)
    as (res0 & w1 & Hrun & _ & Hheap & Hcase).
  rewrite Hrun. intros ?. simplify_eq. unfold license_data.
  destruct (drawn (license_sums (str_strip_columns df))) as [series|e]
    eqn:Hdrawn; [|by destruct Hcase].
  apply PlotFacts.drawn_ok in Hdrawn as [Hseries Hplot].
  destruct (rmapM short_label (map fst series)) as [labels|e] eqn:Hlabels;
    [|by destruct Hcase].
  destruct Hcase as [Hfiles Hext]. exists series, labels. by split_and!.
Qed.

Lemma insert_last {A} (l : list A) (x y : A) :
  <[length l := y]> (l ++ [x]) = l ++ [y].
Proof. rewrite insert_app_r_alt by lia. by rewrite Nat.sub_diag. Qed.

(** The end of a run that returns: the commit, unless skipped, then the
    push, unless skipped, each on the state the one before left. *)
Lemma commit_push_ok args (w : World) w' :
  bind (if negb (skip_commit args)
        then call Commit (extern (add_and_commit repo_root
                                    "Added and committed new reports"))
        else ret tt)
       (fun _ => if negb (skip_push args)
                 then call Push (extern (push_changes repo_root))
                 else ret tt) w = (Ok tt, w') ->
  exists x,
    (if skip_commit args then x = ext w
     else add_and_commit repo_root "Added and committed new reports" (ext w)
          = (Ok tt, x))
    /\ (if skip_push args then ext w' = x
        else push_changes repo_root x = (Ok tt, ext w')).
Proof.
  intros Hrun.
  apply bind_run in Hrun as [(e & _ & ?) | ([] & w1 & Hcommit & Hpush)]; [done|].
  exists (ext w1). split.
  - destruct (skip_commit args); simpl in Hcommit.
    + unfold ret in Hcommit. by simplify_eq.
    + by apply (call_extern_run _ _ _ _ _ []) in Hcommit as (_ & _ & _ & <-).
  - destruct (skip_push args); simpl in Hpush.
    + unfold ret in Hpush. by simplify_eq.
    + by apply (call_extern_run _ _ _ _ _ []) in Hpush as (_ & _ & _ & <-).
Qed.

(** [main] does what the orchestration is described to do. *)
Lemma main_orchestrated argv (w : World) : main argv w = orchestrated argv w.
Proof.
  unfold main, orchestrated, bind.
  destruct (call Pull _ w) as [[[]|e] w1]; [|done].
  destruct (call ParseArgs _ w1) as [[args|e] w2]; [|done].
  destruct (call LoadData _ w2) as [[data|e] w3]; [|done].
  destruct (is_empty data w3) as [[[]|] w4]; [done| |done].
  destruct (log _ _ w4) as [[[]|e] w5]; [|done].
  unfold plan. simpl. unfold bind, performed.
  destruct (call CountryReport _ w5) as [[[]|e] w6]; [|done].
  destruct (call LicenseTypeReport _ w6) as [[[]|e] w7]; [|done].
  destruct (call LanguageReport _ w7) as [[[]|e] w8]; [|done].
  destruct (skip_commit args), (skip_push args); simpl; unfold bind, ret;
    repeat match goal with
           | |- context [call ?s ?m ?w0] =>
               destruct (call s m w0) as [[[]|?] ?]
           end; done.
Qed.

(** A run that goes through to the end on a frame with rows, step by step:
    the series of the three reports, all from the frame as loaded; the three
    charts; the frame, stripped; and the collaborators, each called on the
    state the one before left: the pull, the three README entries, the
    commit and the push. *)
Lemma main_complete argv (w w' : World) df :
  main argv w = (Ok tt, w') ->
  loaded_frame w (quarter (parsed argv)) = Ok df ->
  empty df = false ->
  exists by_country by_license labels by_language x1 x2 x3 x4 x5,
    (span_data country df = Ok by_country
     /\ license_data df = Ok by_license
     /\ rmapM short_label (map fst by_license) = Ok labels
     /\ span_data language df = Ok by_language)
    /\ (barplot (map snd by_country) = Ok tt
        /\ barplot (map snd by_license) = Ok tt
        /\ barplot (map snd by_language) = Ok tt)
    /\ files w'
       = <[image_path (quarter (parsed argv)) "gcs_language_report.png"
           := PngFile (span_chart language (quarter (parsed argv)) by_language)]>
         (<[image_path (quarter (parsed argv)) "gcs_licensetype_report.png"
            := PngFile (license_chart (quarter (parsed argv)) by_license labels)]>
          (<[image_path (quarter (parsed argv)) "gcs_country_report.png"
             := PngFile (span_chart country (quarter (parsed argv)) by_country)]>
           (files w)))
    /\ heap w' = heap w ++ [str_strip_columns df]
    /\ (fetch_and_merge repo_root (ext w) = (Ok tt, x1)
        /\ registered country (parsed argv) x1 = (Ok tt, x2)
        /\ registered_license (parsed argv) x2 = (Ok tt, x3)
        /\ registered language (parsed argv) x3 = (Ok tt, x4)
        /\ (if skip_commit (parsed argv) then x5 = x4
            else add_and_commit repo_root "Added and committed new reports" x4
                 = (Ok tt, x5))
        /\ (if skip_push (parsed argv) then ext w' = x5
            else push_changes repo_root x5 = (Ok tt, ext w'))).
Proof.
  intros Hrun Hframe Hempty. unfold main in Hrun.
  apply bind_run in Hrun as [(e & _ & ?) | ([] & w1 & Hpull & Hrun)]; [done|].
  apply (call_extern_run _ _ _ _ _ []) in Hpull as (_ & Hh1 & Hf1 & Hx1).
  apply bind_run in Hrun as [(e & _ & ?) | (args & w2 & Hparse & Hrun)]; [done|].
  pose proof (call_parse_ext _ _ _ _ Hparse) as Hx2.
  apply (call_parse_run _ _ _ _ []) in Hparse as (Hargs & _ & Hh2 & Hf2).
  simplify_eq.
  apply bind_run in Hrun as [(e & _ & ?) | (data & w3 & Hload & Hrun)]; [done|].
  pose proof (call_load_ext _ _ _ _ Hload) as Hx3.
  apply (call_load_run _ _ _ _ []) in Hload as (_ & Hf3 & Hcase).
  rewrite (loaded_frame_files w w2) in Hcase by congruence.
  rewrite Hframe in Hcase. destruct Hcase as [Hdata Hh3]. simplify_eq.
  rewrite Hh2, Hh1 in Hh3, Hrun.
  assert (heap w3 !! length (heap w) = Some df) as Hdata
      by (rewrite Hh3; by apply list_lookup_middle).
  apply bind_run in Hrun as [(e & _ & ?) | (b & w4 & Hemp & Hrun)]; [done|].
  rewrite (is_empty_run _ _ _ Hdata) in Hemp. simplify_eq.
  rewrite Hempty in Hrun.
  apply bind_run in Hrun as [(e & _ & ?) | ([] & w5 & Hlog & Hrun)]; [done|].
  assert (ext w5 = ext w4 /\ heap w5 = heap w4 /\ files w5 = files w4)
    as (Hx5 & Hh5 & Hf5).
  { unfold log, emit in Hlog. by simplify_eq. }
  rewrite <- Hh5 in Hdata.
  apply bind_run in Hrun as [(e & _ & ?) | ([] & w6 & Hc & Hrun)]; [done|].
  apply (call_span_ok _ _ _ _ _ _ _ Hdata) in Hc
    as (cd & Hcd & Hcp & Hf6 & Hh6 & Hx6).
  assert (heap w6 !! length (heap w) = Some (str_strip_columns df)) as Hdata6
      by (rewrite Hh6; by eapply deref_assigned).
  apply bind_run in Hrun as [(e & _ & ?) | ([] & w7 & Hl & Hrun)]; [done|].
  apply (call_license_ok _ _ _ _ _ Hdata6) in Hl
    as (ld & labels & Hld & Hlp & Hlab & Hf7 & Hh7 & Hx7).
  rewrite PandasFacts.str_strip_columns_idemp in Hh7.
  assert (heap w7 !! length (heap w) = Some (str_strip_columns df)) as Hdata7
      by (rewrite Hh7; by eapply deref_assigned).
  apply bind_run in Hrun as [(e & _ & ?) | ([] & w8 & Hg & Hrun)]; [done|].
  apply (call_span_ok _ _ _ _ _ _ _ Hdata7) in Hg
    as (gd & Hgd & Hgp & Hf8 & Hh8 & Hx8).
  rewrite PandasFacts.str_strip_columns_idemp in Hh8.
  pose proof (commit_push_run _ _ _ _ [] Hrun) as (tail & _ & Hf9 & Hh9 & _).
  apply commit_push_ok in Hrun as (x5 & Hcommit & Hpush).
  unfold license_data in Hld.
  rewrite PandasFacts.str_strip_columns_idemp in Hld.
  rewrite PandasFacts.span_data_stripped in Hgd.
  rewrite Hx5, Hx3, Hx2 in Hx6.
  exists cd, ld, labels, gd, (ext w1), (ext w6), (ext w7), (ext w8), x5.
  split; [by split_and!|]. split; [by split_and!|]. split.
  { rewrite Hf9, Hf8, Hf7, Hf6, Hf5, Hf3, Hf2, Hf1. done. }
  split.
  { rewrite Hh9, Hh8, Hh7, Hh6, Hh5, Hh3.
    by rewrite !list_insert_insert_eq, insert_last. }
  by split_and!.
Qed.

End Runs.
End RunFacts.

(** * The reports *)

Section Aggregation.
Import Pandas Plot Reports Spec Samples PandasFacts PlotFacts.

(** What a span report saves is the chart of its series, when that consists
    of numbers. *)
Lemma visualize_by_span_saves `{Environment} r data args (w : World) df series :
  heap w !! data = Some df ->
  span_data r df = Ok series ->
  Forall (fun x => is_num x = true) (map snd series) ->
  files (snd (visualize_by_span r data args w))
    !! image_path (quarter args) (image_name r)
  = Some (PngFile (span_chart r (quarter args) series)).
Proof.
  intros Hdata Hseries Hnum.
  destruct (RunFacts.visualize_by_span_effect r data args w df Hdata)
    as (res & w' & -> & _ & Hcase). simpl.
  unfold span_data in Hseries.
  destruct (span_names r df) as [names|e]; [|done]. simpl in Hseries.
  destruct Hcase as [_ Hcase]. rewrite (drawn_numbers _ _ Hseries Hnum) in Hcase.
  destruct Hcase as [-> _]. apply lookup_insert_eq.
Qed.

Lemma combine_maps {A B C} (f : A -> B) (g : A -> C) (l : list A) :
  combine (map f l) (map g l) = map (fun x => (f x, g x)) l.
Proof. induction l as [|x l IH]; simpl; congruence. Qed.

(** The bars and ticks of the chart of a series with distinct labels: one
    bar and one tick per entry. *)
Lemma span_chart_bars r q (series : Series string) :
  NoDup (map fst series) ->
  bars (span_chart r q series)
  = map (fun p : string * cell => (Text (fst p), [snd p])) series
  /\ tick_labels (span_chart r q series)
     = map (fun p : string * cell => (Text (fst p), Text (fst p))) series.
Proof.
  intros Hnd.
  assert (NoDup (barplot_x (span_chart r q series))) as Hx.
  { simpl. rewrite <- (map_map fst Text).
    assert (Inj eq eq Text) as Hinj by (by intros ? ? [= ->]).
    by apply (NoDup_fmap_2 Text). }
  split.
  - rewrite bars_distinct; [|done|by (simpl; rewrite !length_map)].
    simpl. by rewrite combine_maps, map_map.
  - unfold tick_labels. simpl xticklabels. cbv iota.
    rewrite (categories_distinct _ Hx). simpl. by rewrite map_map.
Qed.

Lemma license_chart_bars q (series : Series cell) labels :
  NoDup (map fst series) ->
  bars (license_chart q series labels)
  = map (fun p : cell * cell => (fst p, [snd p])) series.
Proof.
  intros Hnd. rewrite bars_distinct; [|done|by (simpl; rewrite !length_map)].
  simpl. by rewrite combine_maps, map_map.
Qed.

Lemma span_names_columns r df :
  first_name r ∈ map PyStr.strip (columns df) ->
  last_name r ∈ map PyStr.strip (columns df) ->
  span_names r df
  = Ok (map (fun c : column => PyStr.strip (fst c)) (span_columns r df)).
Proof.
  intros Hfirst Hlast. unfold span_names, span_columns.
  destruct (list_index_elem _ _ Hfirst) as (i & -> & _).
  destruct (list_index_elem _ _ Hlast) as (j & -> & _). simpl.
  replace (j + 1)%nat with (S j) by lia. unfold columns.
  by rewrite !slice_map, map_map.
Qed.

(** C1, as amended.  When the stripped headers contain both sentinels of a
    span report (country: "United States" and "Japan"; language: "English"
    and "Indonesian"), no name of the span is the stripped header of two
    columns, and the cells of the span are counts (integers of 64 bits), the
    series the report draws has, left to right, one entry for each raw column
    from the first sentinel to the last, under its stripped header, whatever
    blanks surround the headers: the column-wise sum of that column reduced
    to 64 bits, which is the sum itself whenever the sum fits in 64 bits.
    The saved chart has one bar and one tick for each of these entries.  On
    the two-row fixture "United States" adds up to 40 and "Japan" to 25. *)
Theorem span_report_sums (r : SpanReport) (df : DataFrame) :
  first_name r ∈ map PyStr.strip (columns df) ->
  last_name r ∈ map PyStr.strip (columns df) ->
  span_unambiguous r df ->
  Forall (fun c : column => Forall (fun x => is_count x = true) (snd c))
         (span_columns r df) ->
  (exists i j,
      list_index (first_name r) (map PyStr.strip (columns df)) = Ok i
      /\ list_index (last_name r) (map PyStr.strip (columns df)) = Ok j
      /\ span_columns r df = slice df i (S j))
  /\ span_data r df
     = Ok (map (fun c : column =>
                  (PyStr.strip (fst c), Num (wrap64 (column_total c))))
               (span_columns r df))
  /\ (Forall (fun c : column => in_int64 (column_total c)) (span_columns r df) ->
      span_data r df
      = Ok (map (fun p : string * Z => (fst p, Num (snd p)))
                (column_sums (span_columns r df))))
  /\ (forall (env : Environment) data args (w : World),
        heap w !! data = Some df ->
        exists chart,
          files (snd (visualize_by_span r data args w))
            !! image_path (quarter args) (image_name r)
          = Some (PngFile chart)
          /\ bars chart
             = map (fun c : column =>
                      (Text (PyStr.strip (fst c)),
                       [Num (wrap64 (column_total c))]))
                   (span_columns r df)
          /\ tick_labels chart
             = map (fun c : column =>
                      (Text (PyStr.strip (fst c)), Text (PyStr.strip (fst c))))
                   (span_columns r df))
  /\ span_data country fixture
     = Ok [("United States", Num 40); ("Canada", Num 3); ("Japan", Num 25)].
Proof.
  intros Hfirst Hlast Hone Hcounts.
  pose proof (span_data_counts r df Hfirst Hlast Hone Hcounts) as Hsums.
  split_and!; [|done| | |done].
  - destruct (list_index_elem _ _ Hfirst) as (i & Hi & _).
    destruct (list_index_elem _ _ Hlast) as (j & Hj & _).
    exists i, j. split_and!; [done..|]. by apply span_columns_slice.
  - intros Hfit. rewrite Hsums. f_equal. unfold column_sums.
    rewrite map_map. apply map_ext_Forall.
    eapply Forall_impl; [exact Hfit|]. intros c Hc. simpl.
    by rewrite (wrap64_small _ Hc).
  - intros env data args w Hdata.
    set (series := map (fun c : column =>
                          (PyStr.strip (fst c), Num (wrap64 (column_total c))))
                       (span_columns r df)) in *.
    assert (NoDup (map fst series)) as Hnd.
    { apply (span_names_distinct r df); [done|].
      rewrite (span_names_columns r df Hfirst Hlast). unfold series.
      by rewrite map_map. }
    exists (span_chart r (quarter args) series).
    destruct (span_chart_bars r (quarter args) series Hnd) as [-> ->].
    split_and!.
    + apply (visualize_by_span_saves r data args w df); [done..|].
      unfold series. rewrite map_map. by apply Forall_map, Forall_true.
    + unfold series. by rewrite map_map.
    + unfold series. by rewrite map_map.
Qed.

Lemma lookup_rows_length (cs : list column) n :
  length (map Tuple (rows cs n)) = n.
Proof. unfold rows. by rewrite !length_map, length_seq. Qed.

(** The index the license-type report gets, and the frame it is left with. *)
Lemma set_index_license (df : DataFrame) :
  rectangular df ->
  match license_columns df with
  | [] => False
  | [_] => True
  | cs => forallb (fun c : column => is_int64 (snd c)) cs = false
  end ->
  set_index "LICENSE TYPE" (str_strip_columns df)
  = Ok (license_keys df, str_strip_columns (other_columns df))
  /\ length (license_keys df) = nrows df.
Proof.
  intros Hrect Hlic. unfold set_index, license_keys, other_columns.
  rewrite filter_stripped. fold (license_columns df).
  rewrite nrows_stripped.
  destruct (license_columns df) as [|c [|c' cs]] eqn:Hcols; [done| |].
  - split; [done|].
    assert (c ∈ labelled "LICENSE TYPE" (str_strip_columns df)) as Hin
      by (fold (license_columns df); rewrite Hcols; apply list_elem_of_here).
    apply list_elem_of_filter in Hin as [_ Hin].
    pose proof (rectangular_lengths df Hrect) as Hall.
    rewrite Forall_forall in Hall. by apply Hall.
  - rewrite Hlic. split; [done|]. apply lookup_rows_length.
Qed.

(** C2, as amended.  On a rectangular record set with a column whose stripped
    header is "LICENSE TYPE" (when there are several, not all of them columns
    of numbers) and counts (integers of 64 bits) in every other column, the
    license-type report draws one total per row, in row order, keyed by the
    row's license type (the tuple of the row's license types when there are
    several such columns); the total of a row is the sum of its cells outside
    the license-type columns reduced to 64 bits.  When every such row sum
    fits in 64 bits, each total is its row's sum and the totals add up to the
    sum of all cells outside the license-type columns. *)
Theorem license_type_totals (df : DataFrame) :
  rectangular df ->
  match license_columns df with
  | [] => False
  | [_] => True
  | cs => forallb (fun c : column => is_int64 (snd c)) cs = false
  end ->
  counts_outside "LICENSE TYPE" df ->
  exists series,
    license_data df = Ok series
    /\ map fst series = license_keys df
    /\ (forall keys,
          license_columns df = [("LICENSE TYPE", keys)] -> map fst series = keys)
    /\ length series = nrows df
    /\ map snd series
       = map (fun i => Num (wrap64 (row_total df i))) (seq 0 (nrows df))
    /\ ((forall i, (i < nrows df)%nat -> in_int64 (row_total df i)) ->
        map snd series = map (fun i => Num (row_total df i)) (seq 0 (nrows df))
        /\ zsum (map cell_value (map snd series))
           = numeric_total_outside "LICENSE TYPE" df).
Proof.
  intros Hrect Hlic Hcounts.
  destruct (set_index_license df Hrect Hlic) as [Hindex Hkeys].
  set (outside := other_columns df) in *.
  assert (Forall (fun c : column => Forall (fun x => is_num x = true) (snd c))
            (str_strip_columns outside)) as Hnums.
  { unfold str_strip_columns. rewrite Forall_map. simpl.
    apply Forall_forall. intros c Hc. apply list_elem_of_filter in Hc as [Hne Hc].
    unfold counts_outside in Hcounts. rewrite Forall_forall in Hcounts.
    by apply counts_numeric, Hcounts. }
  assert (Forall (fun c : column => length (snd c) = nrows df) outside) as Hlens'.
  { apply Forall_forall. intros c Hc. apply list_elem_of_filter in Hc as [_ Hc].
    unfold rectangular in Hrect. rewrite Forall_forall in Hrect. by apply Hrect. }
  assert (Forall (fun c : column => length (snd c) = length (license_keys df))
            (str_strip_columns outside)) as Hlens.
  { unfold str_strip_columns. rewrite Forall_map. simpl. by rewrite Hkeys. }
  set (totals := map (fun i => Num (wrap64 (row_total df i))) (seq 0 (nrows df))).
  assert (length (license_keys df) = length totals) as Hlen
      by (unfold totals; by rewrite length_map, length_seq).
  exists (combine (license_keys df) totals).
  assert (license_data df = Ok (combine (license_keys df) totals)) as Hdata.
  { unfold license_data, license_sums. rewrite Hindex. cbn [rbind].
    rewrite (sum_axis1_numeric _ _ Hnums Hlens). rewrite rows_stripped, Hkeys.
    unfold rows, totals, row_total. by rewrite map_map. }
  split_and!.
  - done.
  - by apply combine_fst.
  - intros keys Hone. rewrite combine_fst by done.
    unfold license_keys. by rewrite Hone.
  - by rewrite length_combine, <- Hlen, Nat.min_id.
  - by apply combine_snd.
  - intros Hfit. rewrite combine_snd by done.
    assert (totals = map (fun i => Num (row_total df i)) (seq 0 (nrows df)))
      as ->.
    { unfold totals. apply map_ext_Forall, Forall_forall. intros i Hi.
      apply elem_of_seq in Hi. rewrite wrap64_small; [done|]. apply Hfit. lia. }
    split; [done|]. rewrite map_map. simpl.
    unfold numeric_total_outside. fold (other_columns df). fold outside.
    rewrite <- (rows_columns outside (nrows df) Hlens').
    unfold rows, row_total. by rewrite map_map.
Qed.

(** C5, as amended.  When the license-type report returns, the chart it
    saved was drawn from the license-type series of the frame, and the labels
    it gave the ticks of the x axis are, entry by entry, "CC BY 2.5" where
    "by/2.5" occurs in the entry's license type and the license type itself
    otherwise.  When the license types are pairwise distinct there is one
    tick per entry, and every license type is shown under its tick in that
    form. *)
Theorem license_label_rewrite `{Environment} data args (w w' : World) df :
  heap w !! data = Some df ->
  visualize_by_license_type data args w = (Ok tt, w') ->
  exists series labels chart,
    license_data df = Ok series
    /\ files w' !! image_path (quarter args) "gcs_licensetype_report.png"
       = Some (PngFile chart)
    /\ barplot_x chart = map fst series
    /\ xticklabels chart = Some labels
    /\ length labels = length series
    /\ (forall label shown,
          (Text label, shown) ∈ combine (map fst series) labels ->
          exists s, shown = Text s /\ rewritten label s)
    /\ (NoDup (map fst series) ->
        tick_labels chart = combine (map fst series) labels
        /\ map fst (tick_labels chart) = map fst series
        /\ forall label shown,
             (Text label, shown) ∈ tick_labels chart ->
             exists s, shown = Text s /\ rewritten label s).
Proof.
  intros Hdata Hrun.
  destruct (RunFacts.visualize_by_license_type_effect data args w df Hdata)
    as (res & w0 & Hrun0 & _ & _ & Hcase).
  rewrite Hrun in Hrun0. simplify_eq.
  destruct (drawn (license_sums (str_strip_columns df))) as [series|e] eqn:Hdrawn;
    [|by destruct Hcase].
  apply drawn_ok in Hdrawn as [Hseries _].
  destruct (rmapM short_label (map fst series)) as [labels|e] eqn:Hlabels;
    [|by destruct Hcase].
  destruct Hcase as [Hfiles _].
  assert (length labels = length series) as Hlen
      by (rewrite (rmapM_length _ _ _ Hlabels); by rewrite length_map).
  assert (forall label shown,
            (Text label, shown) ∈ combine (map fst series) labels ->
            exists s, shown = Text s /\ rewritten label s) as Hshown.
  { intros label shown Hin. apply short_label_text.
    by apply (rmapM_combine _ _ _ _ _ Hlabels). }
  exists series, labels, (license_chart (quarter args) series labels).
  split_and!; try done.
  - rewrite Hfiles. apply lookup_insert_eq.
  - intros Hnd.
    assert (tick_labels (license_chart (quarter args) series labels)
            = combine (map fst series) labels) as ->.
    { unfold tick_labels. simpl. rewrite (categories_distinct _ Hnd).
      apply label_ticks_combine. by rewrite length_map. }
    split_and!; [done| |done].
    apply combine_fst. by rewrite length_map.
Qed.

End Aggregation.

Section Orchestration.
Import Pandas Plot Reports Spec Samples.
Context `{Environment}.

Lemma fetched_path_plain q :
  data_root <> "" -> PyStr.endswith_sep data_root = false ->
  is_quarter q = true ->
  fetched_path q = data_root +:+ "/" +:+ q +:+ "/1-fetch/gcs_fetched.csv".
Proof.
  intros Hroot Hsep Hq. destruct (PyStrFacts.quarter_shape q Hq) as (Hne & Hs & He).
  unfold fetched_path, PyStr.path_join. simpl.
  rewrite (PyStrFacts.join_step_plain data_root q) by done.
  rewrite (PyStrFacts.join_step_plain _ "1-fetch");
    [|by apply PyStrFacts.append_nonempty
     |by rewrite !PyStrFacts.endswith_sep_app
     |done].
  rewrite (PyStrFacts.join_step_plain _ "gcs_fetched.csv");
    [|by apply PyStrFacts.append_nonempty
     |by rewrite PyStrFacts.endswith_sep_app
     |done].
  by rewrite !PyStrFacts.append_assoc.
Qed.

Lemma image_path_plain q name :
  data_root <> "" -> PyStr.endswith_sep data_root = false ->
  is_quarter q = true -> PyStr.startswith "/" name = false ->
  image_path q name = data_root +:+ "/" +:+ q +:+ "/3-report/" +:+ name.
Proof.
  intros Hroot Hsep Hq Hname.
  destruct (PyStrFacts.quarter_shape q Hq) as (Hne & Hs & He).
  unfold image_path, output_directory, PyStr.path_join. simpl.
  rewrite (PyStrFacts.join_step_plain data_root q) by done.
  rewrite (PyStrFacts.join_step_plain _ "3-report");
    [|by apply PyStrFacts.append_nonempty
     |by rewrite !PyStrFacts.endswith_sep_app
     |done].
  rewrite (PyStrFacts.join_step_plain _ name);
    [|by apply PyStrFacts.append_nonempty
     |by rewrite PyStrFacts.endswith_sep_app
     |done].
  by rewrite !PyStrFacts.append_assoc.
Qed.

Lemma imap_headers (f : nat -> string -> column) (header : list string) :
  (forall j h, fst (f j h) = h) -> map fst (imap f header) = header.
Proof.
  revert f. induction header as [|h header IH]; intros f Hf; [done|].
  rewrite imap_cons. simpl. rewrite Hf. f_equal. apply IH. intros j h'. apply Hf.
Qed.

(** A file with a header line and no record gives a frame without rows. *)
Lemma read_csv_header_only header :
  header <> [] ->
  exists df,
    read_csv {| csv_header := header; csv_records := [] |} = Ok df
    /\ columns df = header /\ nrows df = 0%nat /\ empty df = true.
Proof.
  intros Hheader. unfold read_csv. simpl.
  destruct header as [|h header]; [done|].
  eexists. split; [done|]. split_and!.
  - by apply imap_headers.
  - done.
  - unfold empty. by rewrite orb_true_r.
Qed.

(** A run on input that loads as an empty frame writes no file and goes no
    further than the loader. *)
Lemma empty_input_ends_early argv (w : World) df res w' :
  loaded_frame w (quarter (parsed argv)) = Ok df -> empty df = true ->
  main argv w = (res, w') ->
  files w' = files w
  /\ exists new,
       trace w' = trace w ++ new
       /\ ((res = Ok tt /\ steps_of new = [Pull; ParseArgs; LoadData])
           \/ (exists e, res = Raise e
                         /\ fst (fetch_and_merge repo_root (ext w)) = Raise e
                         /\ steps_of new = [Pull])).
Proof.
  intros Hframe Hempty Hrun.
  destruct (RunFacts.main_run argv w res w' Hrun)
    as (steps & [(new & Ht & Hs) _] & _ & Hcase).
  destruct Hcase as [(-> & Hf & e & -> & Hpull)
                    |[(-> & Hf & Hload)
                     |(df' & Hframe' & Hempty' & _)]].
  - split; [done|]. exists new. split; [done|]. right. by exists e.
  - split; [done|]. exists new. split; [done|]. left.
    destruct Hload as [(e & _ & Hraise) | (? & -> & _)]; [congruence | done].
  - congruence.
Qed.

(** C3.  When the input file of the quarter does not exist, the loader logs
    an error and returns an empty record set instead of raising, and the run
    ends after the loader without writing any file: none of the three charts
    is produced.  (Only a failing pull ends the run earlier.)  For a quarter
    identifier the file is [<data_root>/<quarter>/1-fetch/gcs_fetched.csv]. *)
Theorem missing_input_ends_early argv (w : World) :
  files w !! fetched_path (quarter (parsed argv)) = None ->
  (exists data w1,
      load_data (parsed argv) w = (Ok data, w1)
      /\ heap w1 !! data = Some [] /\ empty [] = true
      /\ files w1 = files w
      /\ trace w1 = trace w ++
           [Log Error (Msg ("Data file not found: "
                            +:+ fetched_path (quarter (parsed argv))))])
  /\ (forall res w',
        main argv w = (res, w') ->
        files w' = files w
        /\ exists new,
             trace w' = trace w ++ new
             /\ ((res = Ok tt /\ steps_of new = [Pull; ParseArgs; LoadData])
                 \/ (exists e, res = Raise e
                               /\ fst (fetch_and_merge repo_root (ext w)) = Raise e
                               /\ steps_of new = [Pull])))
  /\ (data_root <> "" -> PyStr.endswith_sep data_root = false ->
      is_quarter (quarter (parsed argv)) = true ->
      fetched_path (quarter (parsed argv))
      = data_root +:+ "/" +:+ quarter (parsed argv) +:+ "/1-fetch/gcs_fetched.csv").
Proof.
  intros Hfile. split_and!.
  - rewrite RunFacts.load_data_run, Hfile. eexists _, _. split; [done|]. simpl.
    split_and!; try done. by apply list_lookup_middle.
  - intros res w'. apply (empty_input_ends_early argv w []); [|done].
    unfold loaded_frame. by rewrite Hfile.
  - apply fetched_path_plain.
Qed.

(** C10.  An input file with a header line and no records loads as an empty
    record set, and the run ends after the loader without writing any file,
    as for a missing file; the loader logs this load as information, not as
    an error. *)
Theorem header_only_input_ends_early argv (w : World) header :
  header <> [] ->
  files w !! fetched_path (quarter (parsed argv))
  = Some (CsvFile {| csv_header := header; csv_records := [] |}) ->
  (exists data w1 df,
      load_data (parsed argv) w = (Ok data, w1)
      /\ heap w1 !! data = Some df
      /\ columns df = header /\ nrows df = 0%nat /\ empty df = true
      /\ files w1 = files w
      /\ trace w1 = trace w ++
           [Log Info (Msg ("Data loaded from "
                           +:+ fetched_path (quarter (parsed argv))))])
  /\ (forall res w',
        main argv w = (res, w') ->
        files w' = files w
        /\ exists new,
             trace w' = trace w ++ new
             /\ ((res = Ok tt /\ steps_of new = [Pull; ParseArgs; LoadData])
                 \/ (exists e, res = Raise e
                               /\ fst (fetch_and_merge repo_root (ext w)) = Raise e
                               /\ steps_of new = [Pull]))).
Proof.
  intros Hheader Hfile.
  destruct (read_csv_header_only header Hheader)
    as (df & Hread & Hcols & Hrows & Hempty).
  split.
  - rewrite RunFacts.load_data_run, Hfile, Hread. eexists _, _, df.
    split; [done|]. simpl. split_and!; try done. by apply list_lookup_middle.
  - intros res w'. apply (empty_input_ends_early argv w df); [|done].
    unfold loaded_frame. by rewrite Hfile.
Qed.

Lemma span_names_missing r df :
  first_name r ∉ map PyStr.strip (columns df)
  \/ last_name r ∉ map PyStr.strip (columns df) ->
  exists name,
    span_names r df = Raise (ValueError name)
    /\ (name = first_name r \/ name = last_name r).
Proof.
  intros Hmiss. unfold span_names.
  destruct (decide (first_name r ∈ map PyStr.strip (columns df))) as [Hin|Hout].
  - destruct Hmiss as [?|Hlast]; [done|].
    destruct (PandasFacts.list_index_elem _ _ Hin) as (i & -> & _). simpl.
    rewrite (PandasFacts.list_index_missing _ _ Hlast). simpl. eauto.
  - rewrite (PandasFacts.list_index_missing _ _ Hout). simpl. eauto.
Qed.

(** C4.  When the stripped headers lack a sentinel of a span report ("United
    States" or "Japan" for [country], "English" or "Indonesian" for
    [language]), the report raises the [ValueError] of the failed lookup, and
    it has written no file by then (nor changed the frame or called the
    README helper). *)
Theorem missing_sentinel_fails r data args (w : World) df :
  heap w !! data = Some df ->
  first_name r ∉ map PyStr.strip (columns df)
  \/ last_name r ∉ map PyStr.strip (columns df) ->
  exists name w',
    visualize_by_span r data args w = (Raise (ValueError name), w')
    /\ (name = first_name r \/ name = last_name r)
    /\ files w' = files w /\ heap w' = heap w /\ ext w' = ext w.
Proof.
  intros Hdata Hmiss.
  destruct (span_names_missing r df Hmiss) as (name & Hnames & Hname).
  destruct (RunFacts.visualize_by_span_effect r data args w df Hdata)
    as (res & w' & Hrun & _ & Hcase).
  rewrite Hnames in Hcase. destruct Hcase as (-> & Hheap & Hfiles & Hext).
  by exists name, w'.
Qed.

(** C6.  At the top level: a [QuantifyingException] makes the process exit
    with the code it carries, after a log record at information level when the
    code is zero and at error level otherwise; a [SystemExit] exits with its
    own code; a [KeyboardInterrupt] exits with 130; any other exception is
    logged with its trace and exits with 1.  A run that returns ends without
    an exit call. *)
Theorem top_level_exit argv (w : World) res w1 :
  main argv w = (res, w1) ->
  (forall message exit_code,
      res = Raise (QuantifyingException message exit_code) ->
      exists l,
        script argv w = (Exited (CodeInt exit_code), snd (log l (Msg message) w1))
        /\ (exit_code = 0 -> l = Info) /\ (exit_code <> 0 -> l = Error))
  /\ (forall code,
        res = Raise (SystemExit code) ->
        script argv w
        = (Exited code,
           snd (log Error (MsgCode "System exit with code: " code) w1)))
  /\ (res = Raise KeyboardInterrupt ->
      script argv w
      = (Exited (CodeInt 130),
         snd (log Info (Msg "(130) Halted via KeyboardInterrupt.") w1)))
  /\ (forall e,
        res = Raise e -> is_error e ->
        script argv w
        = (Exited (CodeInt 1),
           snd (log Error (MsgTrace "(1) Unhandled exception: " e) w1)))
  /\ (res = Ok tt -> script argv w = (Finished, w1)).
Proof.
  intros Hrun. unfold script. rewrite Hrun. split_and!.
  - intros message exit_code ->.
    destruct (Z.eqb_spec exit_code 0) as [->|Hne].
    + by exists Info.
    + by exists Error.
  - by intros code ->.
  - by intros ->.
  - intros e -> Herr. by destruct e.
  - by intros ->.
Qed.

(** C7.  A run of [main] performs its steps in one order: the pull, the
    parsing of the arguments, the loader, the country report, the
    license-type report, the language report, the commit unless
    [--skip-commit], the push unless [--skip-push]; it stops at the first
    step that raises, and it returns after the loader when the record set is
    empty.  The parser's namespace has [skip_push] set whenever
    [--skip-commit] is given.  The steps are entered in the trace in this
    order, and they are carried out: [main] is the described orchestration;
    a pull that raises ends the run with nothing else done; and in a run that
    returns on a record set with rows, the collaborators were called one on
    the state the other left (the pull, the README entry of each report in
    turn, the commit, the push), the three charts are there and the frame is
    in the store. *)
Theorem orchestration_order argv (w : World) res w' :
  main argv w = (res, w') ->
  (forall w0, fst (parse_arguments argv w0) = Ok (parsed argv))
  /\ (opt_skip_commit argv = true -> skip_push (parsed argv) = true)
  /\ (exists new,
        trace w' = trace w ++ new
        /\ steps_of new `prefix_of` plan (parsed argv)
        /\ (res = Ok tt ->
            exists df,
              loaded_frame w (quarter (parsed argv)) = Ok df
              /\ steps_of new
                 = if empty df then [Pull; ParseArgs; LoadData]
                   else plan (parsed argv)))
  /\ orchestrated argv w = (res, w')
  /\ (forall e,
        fst (fetch_and_merge repo_root (ext w)) = Raise e ->
        res = Raise e
        /\ trace w' = trace w ++ [Enter Pull]
        /\ files w' = files w /\ heap w' = heap w
        /\ ext w' = snd (fetch_and_merge repo_root (ext w)))
  /\ (forall df,
        res = Ok tt ->
        loaded_frame w (quarter (parsed argv)) = Ok df ->
        empty df = false ->
        exists x1 x2 x3 x4 x5,
          fetch_and_merge repo_root (ext w) = (Ok tt, x1)
          /\ update_readme
               (image_path (quarter (parsed argv)) "gcs_country_report.png")
               "Google Custom Search"
               "Number of Google Webpages Licensed by Country"
               "Country Report" (parsed argv) x1
             = (Ok tt, x2)
          /\ update_readme
               (image_path (quarter (parsed argv)) "gcs_licensetype_report.png")
               "Google Custom Search"
               "Number of Webpages Licensed by License Type"
               "License Type Report" (parsed argv) x2
             = (Ok tt, x3)
          /\ update_readme
               (image_path (quarter (parsed argv)) "gcs_language_report.png")
               "Google Custom Search"
               "Number of Google Webpages Licensed by Language"
               "Language Report" (parsed argv) x3
             = (Ok tt, x4)
          /\ (if skip_commit (parsed argv) then x5 = x4
              else add_and_commit repo_root "Added and committed new reports" x4
                   = (Ok tt, x5))
          /\ (if skip_push (parsed argv) then ext w' = x5
              else push_changes repo_root x5 = (Ok tt, ext w'))
          /\ Forall (fun p => is_Some (files w' !! p))
                    (report_paths (quarter (parsed argv)))
          /\ heap w' = heap w ++ [str_strip_columns df]).
Proof.
  intros Hrun. split_and!.
  - intros w0. by rewrite RunFacts.parse_arguments_run.
  - unfold parsed. simpl. by intros ->.
  - destruct (RunFacts.main_run argv w res w' Hrun)
      as (steps & [(new & Ht & Hs) _] & Hprefix & Hcase).
    exists new. rewrite Hs. split_and!; [done..|]. intros ->.
    destruct Hcase as [(_ & _ & e & ? & _)
                      |[(-> & _ & Hload)
                       |(df & Hframe & Hempty & _ & Hok & _)]]; [done|..].
    + destruct Hload as [(e & ? & _) | (df & _ & Hframe & Hempty & _)]; [done|].
      exists df. by rewrite Hempty.
    + exists df. rewrite Hempty. split; [done|]. by apply Hok.
  - by rewrite <- RunFacts.main_orchestrated.
  - intros e Hpull. revert Hrun. unfold main, bind at 1, call, bind, emit, extern.
    simpl. destruct (fetch_and_merge repo_root (ext w)) as [r x].
    simpl in Hpull. subst r. by intros [= <- <-].
  - intros df -> Hframe Hempty.
    destruct (RunFacts.main_complete argv w w' df Hrun Hframe Hempty)
      as (cd & ld & labels & gd & x1 & x2 & x3 & x4 & x5
          & _ & _ & Hfiles & Hheap & Hchain).
    destruct Hchain as (H1 & H2 & H3 & H4 & H5 & H6).
    exists x1, x2, x3, x4, x5. split_and!; try done.
    destruct (RunFacts.main_run argv w _ w' Hrun) as (steps & _ & _ & Hcase).
    destruct Hcase as [(_ & _ & e & ? & _)
                      |[(_ & _ & Hload)
                       |(df' & _ & _ & _ & Hok & _)]]; [done|..].
    + destruct Hload as [(e & ? & _) | (df' & _ & Hframe' & Hempty' & _)];
        [done | congruence].
    + by apply Hok.
Qed.

(** C8.  The three reports write to [report_paths], which depends on the
    quarter alone; for a quarter identifier these are
    [<data_root>/<quarter>/3-report/gcs_country_report.png],
    [.../gcs_licensetype_report.png] and [.../gcs_language_report.png].  After
    a complete run the three files exist, and another run for the same quarter
    writes nowhere else: the set of files stays as it is. *)
Theorem rerun_overwrites argv argv2 (w w1 w2 : World) df res2 :
  main argv w = (Ok tt, w1) ->
  loaded_frame w (quarter (parsed argv)) = Ok df -> empty df = false ->
  quarter (parsed argv2) = quarter (parsed argv) ->
  main argv2 w1 = (res2, w2) ->
  Forall (fun p => is_Some (files w1 !! p)) (report_paths (quarter (parsed argv)))
  /\ dom (files w2) = dom (files w1)
  /\ (forall p, p ∉ report_paths (quarter (parsed argv)) ->
                files w2 !! p = files w1 !! p)
  /\ (data_root <> "" -> PyStr.endswith_sep data_root = false ->
      is_quarter (quarter (parsed argv)) = true ->
      report_paths (quarter (parsed argv))
      = map (fun name => data_root +:+ "/" +:+ quarter (parsed argv)
                         +:+ "/3-report/" +:+ name)
            ["gcs_country_report.png"; "gcs_licensetype_report.png";
             "gcs_language_report.png"]).
Proof.
  intros Hrun Hframe Hempty Hq Hrun2.
  assert (Forall (fun p => is_Some (files w1 !! p))
            (report_paths (quarter (parsed argv)))) as Hthere.
  { destruct (RunFacts.main_run argv w _ w1 Hrun) as (steps & _ & _ & Hcase).
    destruct Hcase as [(_ & _ & e & ? & _)
                      |[(_ & _ & Hload)
                       |(df' & _ & _ & _ & Hok & _)]]; [done|..].
    - destruct Hload as [(e & ? & _) | (df' & _ & Hframe' & Hempty' & _)];
        [done | congruence].
    - by apply Hok. }
  destruct (RunFacts.main_run argv2 w1 res2 w2 Hrun2)
    as (steps & (_ & Hsame & Hkeep) & _ & _).
  rewrite Hq in Hsame. split_and!; [done| |done|].
  - apply set_eq. intros p. rewrite !elem_of_dom. split; [|apply Hkeep].
    destruct (decide (p ∈ report_paths (quarter (parsed argv)))) as [Hin|Hout].
    + intros _. rewrite Forall_forall in Hthere. by apply Hthere.
    + by rewrite (Hsame p Hout).
  - intros Hroot Hsep Hquarter. unfold report_paths. simpl.
    by rewrite !image_path_plain.
Qed.



End Orchestration.

(** * Sample runs *)

Section SampleRuns.
Import Pandas Plot Reports Spec Samples.

Ltac all_columns tac :=
  repeat (apply Forall_cons_2; [tac|]); apply Forall_nil_2.

Ltac counts_outside_columns :=
  all_columns ltac:(first [ intros _; all_columns ltac:(reflexivity)
                          | intros Hne; by destruct Hne ]).

(** On the fixture no name of the country span is ambiguous, and the span
    holds counts. *)
Lemma span_report_sums_fixture :
  span_data country fixture
  = Ok (map (fun c : column =>
               (PyStr.strip (fst c), Num (wrap64 (column_total c))))
            (span_columns country fixture))
  /\ span_columns country fixture
     = [(" United States", [Num 10; Num 30]);
        ("Canada ", [Num 1; Num 2]);
        ("Japan", [Num 20; Num 5])].
Proof.
  split; [|reflexivity].
  refine (proj1 (proj2 (span_report_sums country fixture _ _ _ _))).
  - vm_compute. present_step.
  - vm_compute. present_step.
  - intros names Hnames. vm_compute in Hnames. injection Hnames as <-.
    all_columns ltac:(by vm_compute).
  - change (span_columns country fixture)
      with [(" United States", [Num 10; Num 30]);
            ("Canada ", [Num 1; Num 2]);
            ("Japan", [Num 20; Num 5])].
    all_columns ltac:(all_columns ltac:(reflexivity)).
Defined.

(** Headers padded with a no-break space or an em space are stripped like
    the others. *)
Lemma span_report_sums_padded :
  map PyStr.strip (columns padded) = ["United States"; "Japan"]
  /\ span_data country padded = Ok [("United States", Num 3); ("Japan", Num 7)].
Proof. split; by vm_compute. Qed.

(** With "Canada " and "Canada" both in the file, the country report draws
    four entries, one of them for a column left of "United States", where the
    span between the sentinels has three columns: C1 as stated, without the
    condition on ambiguous names, fails here. *)
Lemma span_report_sums_ambiguous :
  "United States" ∈ map PyStr.strip (columns twice_canada)
  /\ "Japan" ∈ map PyStr.strip (columns twice_canada)
  /\ Forall (fun c : column => Forall (fun x => is_count x = true) (snd c))
            twice_canada
  /\ span_data country twice_canada
     = Ok [("United States", Num 1); ("Canada", Num 7); ("Canada", Num 2);
           ("Japan", Num 3)]
  /\ column_sums (span_columns country twice_canada)
     = [("United States", 1); ("Canada", 2); ("Japan", 3)]
  /\ span_data country twice_canada
     <> Ok (map (fun p : string * Z => (fst p, Num (snd p)))
                (column_sums (span_columns country twice_canada))).
Proof.
  split_and!; [vm_compute; present_step | vm_compute; present_step
              | all_columns ltac:(all_columns ltac:(reflexivity))
              | by vm_compute | by vm_compute | by vm_compute].
Qed.

(** The fixture has one license-type column and counts elsewhere. *)
Lemma license_type_totals_fixture :
  exists series,
    license_data fixture = Ok series
    /\ map fst series = [Text "licenses/by/2.5/"; Text "licenses/by-sa/4.0/"]
    /\ map snd series = [Num 41; Num 49].
Proof.
  destruct (license_type_totals fixture)
    as (series & Hdata & Hfst & _ & _ & Hsnd & _).
  - all_columns ltac:(reflexivity).
  - exact I.
  - counts_outside_columns.
  - exists series. split; [exact Hdata|]. split; [exact Hfst | exact Hsnd].
Defined.

(** A row of counts whose sum does not fit in 64 bits: the total the report
    draws has wrapped around, and the totals do not add up to the sum of the
    cells.  C2 as stated fails here. *)
Lemma license_type_totals_overflow :
  rectangular large_counts
  /\ license_columns large_counts = [("LICENSE TYPE", [Text "by"])]
  /\ counts_outside "LICENSE TYPE" large_counts
  /\ license_data large_counts
     = Ok [(Text "by", Num (-9223372036854775808))]
  /\ numeric_total_outside "LICENSE TYPE" large_counts = 9223372036854775808
  /\ zsum (map cell_value (map snd [(Text "by", Num (-9223372036854775808))]))
     <> numeric_total_outside "LICENSE TYPE" large_counts.
Proof.
  split_and!.
  - all_columns ltac:(reflexivity).
  - reflexivity.
  - counts_outside_columns.
  - by vm_compute.
  - by vm_compute.
  - by vm_compute.
Qed.

(** Two license-type columns: of text, they give tuples as keys; of numbers,
    they are refused as an index. *)
Lemma license_type_two_columns :
  license_data twice_license = Ok [(Tuple [Text "by"; Text "by-sa"], Num 1)]
  /\ license_data twice_numbered
     = Raise (ValueError "Index data must be 1-dimensional").
Proof. split; by vm_compute. Qed.

(** The license-type chart of the fixture: two ticks, the first rewritten. *)
Lemma license_label_rewrite_fixture :
  exists chart,
    files (snd (@visualize_by_license_type quiet 0%nat args0
                  (world_holding fixture)))
      !! @image_path quiet "2024Q2" "gcs_licensetype_report.png"
    = Some (PngFile chart)
    /\ tick_labels chart
       = [(Text "licenses/by/2.5/", Text "CC BY 2.5");
          (Text "licenses/by-sa/4.0/", Text "licenses/by-sa/4.0/")].
Proof.
  destruct (@license_label_rewrite quiet 0%nat args0 (world_holding fixture)
              (snd (@visualize_by_license_type quiet 0%nat args0
                      (world_holding fixture)))
              fixture)
    as (series & labels & chart & Hseries & Hfile & _ & _ & _ & _ & Hticks).
  - reflexivity.
  - by vm_compute.
  - exists chart. split; [exact Hfile|].
    vm_compute in Hseries. injection Hseries as <-.
    vm_compute in Hfile. injection Hfile as <-. reflexivity.
Defined.

(** With the license type "x" on two rows the figure has two bars and the
    first two of the three labels: the bar of "licenses/by/2.5/" is shown
    under the label "x".  C5 as stated, for every label, fails here. *)
Lemma license_label_rewrite_repeated :
  exists chart,
    @visualize_by_license_type quiet 0%nat args0 (world_holding repeated_license)
    = (Ok tt, snd (@visualize_by_license_type quiet 0%nat args0
                     (world_holding repeated_license)))
    /\ files (snd (@visualize_by_license_type quiet 0%nat args0
                     (world_holding repeated_license)))
         !! @image_path quiet "2024Q2" "gcs_licensetype_report.png"
       = Some (PngFile chart)
    /\ xticklabels chart = Some [Text "x"; Text "x"; Text "CC BY 2.5"]
    /\ bars chart = [(Text "x", [Num 1; Num 2]);
                     (Text "licenses/by/2.5/", [Num 3])]
    /\ tick_labels chart = [(Text "x", Text "x");
                            (Text "licenses/by/2.5/", Text "x")]
    /\ is_substring "by/2.5" "licenses/by/2.5/"
    /\ (Text "licenses/by/2.5/", Text "CC BY 2.5") ∉ tick_labels chart.
Proof.
  eexists. split_and!.
  - by vm_compute.
  - by vm_compute.
  - reflexivity.
  - by vm_compute.
  - by vm_compute.
  - by exists "licenses/", "/".
  - vm_compute. absent_step.
Qed.

(** Without the input file the run writes nothing. *)
Lemma missing_input_run :
  files (snd (@main quiet argv0 world_no_input)) = files world_no_input
  /\ fst (@main quiet argv0 world_no_input) = Ok tt.
Proof.
  destruct (@missing_input_ends_early quiet argv0 world_no_input)
    as (_ & Hmain & _); [reflexivity|].
  destruct (Hmain _ _ (surjective_pairing _)) as [Hfiles _].
  split; [exact Hfiles | reflexivity].
Defined.

(** With the header line only the run writes nothing either. *)
Lemma header_only_run :
  files (snd (@main quiet argv0 world_header_only)) = files world_header_only
  /\ fst (@main quiet argv0 world_header_only) = Ok tt.
Proof.
  destruct (@header_only_input_ends_early quiet argv0 world_header_only
              (csv_header fixture_csv))
    as (_ & Hmain); [done | by vm_compute |].
  destruct (Hmain _ _ (surjective_pairing _)) as [Hfiles _].
  split; [exact Hfiles | by vm_compute].
Defined.

(** A frame without a "Japan" column stops the country report. *)
Lemma missing_sentinel_no_japan :
  exists name w',
    @visualize_by_span quiet country 0%nat args0 (world_holding no_japan)
    = (Raise (ValueError name), w')
    /\ (name = "United States" \/ name = "Japan")
    /\ files w' = files (world_holding no_japan)
    /\ heap w' = heap (world_holding no_japan)
    /\ ext w' = ext (world_holding no_japan).
Proof.
  apply (@missing_sentinel_fails quiet country 0%nat args0
           (world_holding no_japan) no_japan).
  - reflexivity.
  - right. vm_compute. absent_step.
Defined.

(** A pull that halts with code 3 ends the process with code 3 after an
    error record. *)
Lemma top_level_exit_halt :
  exists l,
    @script (failing_pull (QuantifyingException "halt" 3)) argv0
      (@world_of (failing_pull (QuantifyingException "halt" 3)) tt ∅ [])
    = (Exited (CodeInt 3),
       snd (log l (Msg "halt")
              (snd (@main (failing_pull (QuantifyingException "halt" 3)) argv0
                      (@world_of (failing_pull (QuantifyingException "halt" 3))
                         tt ∅ [])))))
    /\ l = Error.
Proof.
  destruct (@top_level_exit (failing_pull (QuantifyingException "halt" 3)) argv0
              (@world_of (failing_pull (QuantifyingException "halt" 3)) tt ∅ [])
              _ _ (surjective_pairing _)) as (Hhalt & _).
  destruct (Hhalt "halt" 3 eq_refl) as (l & Hscript & _ & Herror).
  exists l. split; [exact Hscript | by apply Herror].
Defined.

(** The complete run on the fixture goes through all eight steps. *)
Lemma orchestration_order_fixture :
  exists new,
    trace (snd (@main quiet argv0 world_fixture)) = trace world_fixture ++ new
    /\ steps_of new
       = [Pull; ParseArgs; LoadData; CountryReport; LicenseTypeReport;
          LanguageReport; Commit; Push].
Proof.
  destruct (@orchestration_order quiet argv0 world_fixture _ _
              (surjective_pairing _))
    as (_ & _ & (new & Htrace & _ & Hsteps) & _).
  exists new. split; [exact Htrace|].
  destruct Hsteps as (df & Hframe & ->); [by vm_compute|].
  vm_compute in Hframe. injection Hframe as <-. reflexivity.
Defined.

(** Running twice on the fixture leaves the same four files. *)
Lemma rerun_overwrites_fixture :
  dom (files (snd (@main quiet argv0 (snd (@main quiet argv0 world_fixture)))))
  = dom (files (snd (@main quiet argv0 world_fixture))).
Proof.
  refine (proj1 (proj2 (@rerun_overwrites quiet argv0 argv0 world_fixture
                          (snd (@main quiet argv0 world_fixture))
                          (snd (@main quiet argv0
                                  (snd (@main quiet argv0 world_fixture))))
                          fixture
                          (fst (@main quiet argv0
                                  (snd (@main quiet argv0 world_fixture))))
                          _ _ _ _ _))).
  - by vm_compute.
  - by vm_compute.
  - reflexivity.
  - reflexivity.
  - apply surjective_pairing.
Defined.


End SampleRuns.

(** * Further properties of the script *)

(** ** Headers and paths *)

Module StringProperties.
Import PyStr Spec PyStrFacts.

(** X1.  [strip] takes away whitespace at the two ends and nothing else: the
    string is whitespace characters, then the stripped string, then
    whitespace characters; and the stripped string neither starts nor ends
    with a whitespace character. *)
Theorem strip_takes_outer_blanks (s : string) :
  exists before after,
    list_ascii_of_string s
    = before ++ list_ascii_of_string (strip s) ++ after
    /\ blanks before
    /\ blanks after
    /\ starts_blank (list_ascii_of_string (strip s)) = false
    /\ ends_blank (list_ascii_of_string (strip s)) = false.
Proof.
  unfold strip. rewrite list_ascii_of_string_of_list_ascii.
  set (l := list_ascii_of_string s). unfold strip_chars.
  destruct (lstrip_chars_spec l) as (before & Hl & Hbefore & Hclean).
  destruct (rstrip_chars_spec (lstrip_chars l)) as (after & Hm & Hafter & Hend).
  exists before, after. split_and!; try done.
  - rewrite Hl at 1. by rewrite <- Hm.
  - by apply rstrip_chars_front.
Qed.

Lemma append_inj_r (p a b : string) : p +:+ a = p +:+ b -> a = b.
Proof.
  induction p as [|c p IH]; [done|]. rewrite !append_cons. intros Heq.
  apply IH. congruence.
Qed.

(** The prefix [posixpath.join] puts before a relative component. *)
Lemma join_step_relative path b :
  startswith "/" b = false ->
  join_step path b
  = (if String.eqb path "" || endswith_sep path then path else path +:+ "/")
    +:+ b.
Proof.
  intros Hb. unfold join_step. rewrite Hb.
  destruct (String.eqb path "" || endswith_sep path); [done|].
  by rewrite append_assoc.
Qed.

Lemma chars_append (a b : string) :
  list_ascii_of_string (a +:+ b)
  = list_ascii_of_string a ++ list_ascii_of_string b.
Proof.
  induction a as [|c a IH]; [done|]. rewrite append_cons. simpl. by rewrite IH.
Qed.

End StringProperties.

(** ** Frames and series *)

Module FrameProperties.
Import Pandas Plot Reports Spec PandasFacts.

Lemma map_fmap {A B} (f : A -> B) (l : list A) : map f l = f <$> l.
Proof. reflexivity. Qed.

(** X2.  What the reports compute does not depend on whether the headers of
    the frame were stripped before: on the stripped frame both kinds of series
    and the emptiness test come out as on the frame itself. *)
Theorem stripping_changes_no_result (r : SpanReport) (df : DataFrame) :
  span_data r (str_strip_columns df) = span_data r df
  /\ license_data (str_strip_columns df) = license_data df
  /\ empty (str_strip_columns df) = empty df.
Proof.
  split_and!.
  - apply span_data_stripped.
  - unfold license_data. by rewrite str_strip_columns_idemp.
  - apply RunFacts.empty_stripped.
Qed.

(** X3.  When the last sentinel stands left of the first one, the span is
    empty: the series of the report has no entry, and nothing is raised. *)
Theorem reversed_sentinels_give_nothing (r : SpanReport) (df : DataFrame) i j :
  list_index (first_name r) (map PyStr.strip (columns df)) = Ok i ->
  list_index (last_name r) (map PyStr.strip (columns df)) = Ok j ->
  (j < i)%nat ->
  span_names r df = Ok [] /\ span_data r df = Ok [].
Proof.
  intros Hi Hj Hlt.
  assert (span_names r df = Ok []) as Hnames.
  { unfold span_names. rewrite Hi, Hj. simpl. unfold slice.
    by replace (j + 1 - i)%nat with 0%nat by lia. }
  split; [done|]. unfold span_data. by rewrite Hnames.
Qed.

Lemma list_index_lookup x l i :
  list_index x l = Ok i -> l !! i = Some x.
Proof.
  revert i. induction l as [|y l IH]; intros i; [done|]. simpl.
  destruct (String.eqb_spec y x) as [->|Hne].
  - by intros [= <-].
  - destruct (list_index x l) as [k|e]; [|done]. simpl. intros [= <-].
    by apply IH.
Qed.

Lemma raw_totals_labels (cols : DataFrame) series :
  rmapM raw_total cols = Ok series ->
  map fst series = map PyStr.strip (columns cols).
Proof.
  revert series. induction cols as [|c cols IH]; intros series.
  - by intros [= <-].
  - simpl. unfold raw_total at 1.
    destruct (sum_cells (is_int64 (snd c)) (snd c)) as [s|e]; [|done]. simpl.
    destruct (rmapM raw_total cols) as [rest|e]; [|done]. simpl.
    intros [= <-]. simpl. by rewrite (IH rest).
Qed.

(** X4.  With the first sentinel at or left of the last and no ambiguous
    name, the labels of the series are the stripped headers from the one
    sentinel to the other: as many as the span has columns, the first sentinel
    first and the last sentinel last. *)
Theorem span_bars_run_between_sentinels (r : SpanReport) (df : DataFrame)
    i j series :
  list_index (first_name r) (map PyStr.strip (columns df)) = Ok i ->
  list_index (last_name r) (map PyStr.strip (columns df)) = Ok j ->
  (i <= j)%nat ->
  span_unambiguous r df ->
  span_data r df = Ok series ->
  map fst series = slice (map PyStr.strip (columns df)) i (S j)
  /\ length series = (j - i + 1)%nat
  /\ head (map fst series) = Some (first_name r)
  /\ last (map fst series) = Some (last_name r).
Proof.
  intros Hi Hj Hle Hone Hseries.
  rewrite (span_data_unambiguous r df Hone) in Hseries.
  unfold column_sums_between in Hseries. rewrite Hi, Hj in Hseries.
  simpl in Hseries. apply raw_totals_labels in Hseries.
  unfold columns in Hseries. rewrite <- !slice_map in Hseries.
  fold (columns df) in Hseries.
  apply list_index_lookup in Hi, Hj.
  set (hs := map PyStr.strip (columns df)) in *.
  assert (j < length hs)%nat as Hlen by by eapply lookup_lt_Some.
  assert (length (slice hs i (S j)) = (j - i + 1)%nat) as Hsize.
  { unfold slice. rewrite length_take, length_drop. lia. }
  split_and!; [done| | |].
  - by rewrite <- (length_map fst), Hseries.
  - rewrite Hseries. unfold slice. rewrite head_lookup, lookup_take_lt by lia.
    by rewrite lookup_drop, Nat.add_0_r.
  - rewrite Hseries, last_lookup, Hsize. unfold slice.
    rewrite lookup_take_lt by lia. rewrite lookup_drop.
    by replace (i + pred (j - i + 1))%nat with j by lia.
Qed.

Lemma omap_lookup_column (records : list (list cell)) j i :
  Forall (fun r => (j < length r)%nat) records ->
  omap (fun r : list cell => r !! j) records !! i
  = records !! i ≫= (fun r => r !! j).
Proof.
  intros Hall. revert i. induction Hall as [|r records Hr _ IH]; intros i.
  - done.
  - simpl. destruct (lookup_lt_is_Some_2 r j Hr) as [x Hx]. rewrite Hx.
    destruct i as [|i]; [done | apply IH].
Qed.

Lemma omap_cons_eq {A B} (f : A -> option B) x (l : list A) :
  omap f (x :: l)
  = match f x with Some y => y :: omap f l | None => omap f l end.
Proof. reflexivity. Qed.

Lemma omap_map {A B C} (f : B -> option C) (g : A -> B) (l : list A) :
  omap f (map g l) = omap (fun x => f (g x)) l.
Proof.
  induction l as [|x l IH]; [done|].
  change (map g (x :: l)) with (g x :: map g l).
  by rewrite !omap_cons_eq, IH.
Qed.

Lemma omap_lookup_all {A} (r : list A) :
  omap (fun j => r !! j) (seq 0 (length r)) = r.
Proof.
  induction r as [|x r IH]; [done|].
  change (seq 0 (length (x :: r))) with (0%nat :: seq 1 (length r)).
  rewrite omap_cons_eq. simpl (_ !! 0%nat).
  rewrite <- seq_shift, omap_map. f_equal. exact IH.
Qed.

Lemma omap_imap_seq {A B C} (g : nat -> A -> B) (f : B -> option C)
    (F : nat -> option C) (l : list A) :
  (forall j a, l !! j = Some a -> f (g j a) = F j) ->
  omap f (imap g l) = omap F (seq 0 (length l)).
Proof.
  revert g F. induction l as [|a l IH]; intros g F Hg; [done|].
  rewrite imap_cons.
  change (seq 0 (length (a :: l))) with (0%nat :: seq 1 (length l)).
  rewrite !omap_cons_eq, (Hg 0%nat a) by done.
  rewrite (IH (g ∘ S) (fun j => F (S j)))
    by (intros j b Hb; by apply (Hg (S j))).
  by rewrite <- seq_shift, omap_map.
Qed.

(** The frame [read_csv] makes of a file whose records all have one field
    per column: the labels of the file, and the records as its rows. *)
Lemma read_csv_frame (c : csv) :
  csv_header c <> [] ->
  Forall (fun r => length r = length (csv_header c)) (csv_records c) ->
  exists df,
    read_csv c = Ok df
    /\ columns df = csv_header c
    /\ nrows df = length (csv_records c)
    /\ rectangular df
    /\ rows df (length (csv_records c)) = csv_records c.
Proof.
  intros Hheader Hrecords. unfold read_csv.
  destruct (csv_header c) as [|h0 header0] eqn:Hh; [done|]. rewrite <- Hh in *.
  assert (forallb (fun r => (length r =? length (csv_header c))%nat)
            (csv_records c) = true) as ->.
  { apply forallb_forall. rewrite Forall_forall in Hrecords.
    intros r Hr%list_elem_of_In. apply Nat.eqb_eq. by apply Hrecords. }
  assert (forall j, (j < length (csv_header c))%nat ->
            length (omap (fun r : list cell => r !! j) (csv_records c))
            = length (csv_records c)) as Hcol.
  { intros j Hj. clear Hheader Hh. induction Hrecords as [|r rs Hr _ IH]; [done|].
    rewrite omap_cons_eq. destruct (lookup_lt_is_Some_2 r j) as [x ->]; [lia|].
    simpl. by rewrite IH. }
  eexists. split; [done|]. split_and!.
  - by apply imap_headers.
  - rewrite Hh at 1. rewrite imap_cons. simpl. apply Hcol.
    rewrite Hh. simpl. lia.
  - unfold rectangular.
    assert (nrows (imap (fun j h => (h, omap (fun r : list cell => r !! j)
                                          (csv_records c))) (csv_header c))
            = length (csv_records c)) as ->.
    { rewrite Hh at 1. rewrite imap_cons. simpl. apply Hcol.
      rewrite Hh. simpl. lia. }
    apply Forall_forall. intros col Hcolumn.
    apply list_elem_of_lookup in Hcolumn as [j Hj].
    rewrite list_lookup_imap in Hj.
    destruct (csv_header c !! j) as [h|] eqn:Hhj; [|done].
    simpl in Hj. injection Hj as <-. simpl. apply Hcol.
    by eapply lookup_lt_Some.
  - unfold rows.
    apply list_eq. intros i. rewrite map_fmap, list_lookup_fmap.
    destruct (csv_records c !! i) as [r|] eqn:Hr.
    + rewrite lookup_seq_lt by by eapply lookup_lt_Some. simpl. f_equal.
      unfold row.
      rewrite (omap_imap_seq _ _ (fun j => r !! j)).
      * rewrite Forall_forall in Hrecords.
        rewrite <- (Hrecords r) by by eapply list_elem_of_lookup_2.
        apply omap_lookup_all.
      * intros j h Hj%lookup_lt_Some. simpl.
        rewrite omap_lookup_column, Hr; [done|].
        eapply Forall_impl; [exact Hrecords|]. simpl. intros; lia.
    + rewrite lookup_seq_ge by by apply lookup_ge_None. done.
Qed.

End FrameProperties.

(** ** Arguments and paths *)

Section PathProperties.
Import Pandas Plot Reports Spec PyStrFacts StringProperties.
Context `{Environment}.

Lemma image_path_relative q name :
  PyStr.startswith "/" name = false ->
  image_path q name
  = (if String.eqb (output_directory q) ""
        || PyStr.endswith_sep (output_directory q)
     then output_directory q else output_directory q +:+ "/") +:+ name.
Proof. intros Hname. unfold image_path. simpl. by apply join_step_relative. Qed.

Lemma last_char_append (a b : string) c :
  last (list_ascii_of_string b) = Some c ->
  last (list_ascii_of_string (a +:+ b)) = Some c.
Proof. intros Hb. by rewrite chars_append, last_app, Hb. Qed.

Lemma input_is_no_report_path (q : string) : fetched_path q ∉ report_paths q.
Proof.
  unfold report_paths. rewrite !image_path_relative by done.
  assert (last (list_ascii_of_string (fetched_path q)) = Some "v"%char)
    as Hlast.
  { unfold fetched_path, PyStr.path_join. simpl.
    rewrite (join_step_relative _ "gcs_fetched.csv") by done.
    by apply last_char_append. }
  intros Hin.
  repeat (apply elem_of_cons in Hin as [Heq|Hin];
          [rewrite Heq in Hlast;
           by rewrite (last_char_append _ _ "g"%char) in Hlast|]).
  by apply elem_of_nil in Hin.
Qed.

Lemma report_paths_distinct (q : string) : NoDup (report_paths q).
Proof.
  unfold report_paths. rewrite !image_path_relative by done.
  repeat apply NoDup_cons_2; try apply NoDup_nil_2;
    intros Hin; repeat (apply elem_of_cons in Hin as [Heq|Hin];
                        [by apply append_inj_r in Heq|]);
    by apply elem_of_nil in Hin.
Qed.

(** X5.  The three charts of a quarter go to three different files, and none
    of them is the input file, whatever the quarter string and the data
    root. *)
Theorem report_files_are_distinct (q : string) :
  NoDup (report_paths q) /\ fetched_path q ∉ report_paths q.
Proof.
  split; [apply report_paths_distinct | apply input_is_no_report_path].
Qed.

(** X6.  The quarter is not checked: one that starts with a slash takes the
    place of the data root, so that the input is looked for, and the charts
    are written, under the quarter string itself. *)
Theorem absolute_quarter_replaces_data_root (q : string) :
  PyStr.startswith "/" q = true ->
  fetched_path q = PyStr.path_join q ["1-fetch"; "gcs_fetched.csv"]
  /\ forall name, image_path q name = PyStr.path_join q ["3-report"; name].
Proof.
  intros Hq.
  assert (PyStr.join_step data_root q = q) as Hjoin
      by (unfold PyStr.join_step; by rewrite Hq).
  split.
  - unfold fetched_path, PyStr.path_join. simpl. by rewrite Hjoin.
  - intros name. unfold image_path, output_directory, PyStr.path_join. simpl.
    by rewrite Hjoin.
Qed.

Lemma pretty_char_is_digit (x : N) : is_digit (pretty_N_char x) = true.
Proof. unfold pretty_N_char. by repeat case_match. Qed.

Lemma pretty_four_digits (n : N) :
  (1000 <= n <= 9999)%N ->
  exists d1 d2 d3 d4,
    pretty n = String d1 (String d2 (String d3 (String d4 "")))
    /\ is_digit d1 = true /\ is_digit d2 = true
    /\ is_digit d3 = true /\ is_digit d4 = true.
Proof.
  intros Hn. unfold pretty, pretty_N.
  destruct (decide (n = 0%N)) as [->|_]; [lia|].
  assert (0 < n /\ 0 < n / 10 /\ 0 < n / 10 / 10 /\ 0 < n / 10 / 10 / 10
          /\ n / 10 / 10 / 10 / 10 = 0)%N
    as (H0 & H1 & H2 & H3 & H4).
  { rewrite !N.Div0.div_div. simpl.
    split_and!; try (apply N.div_str_pos; lia); [lia|].
    apply N.div_small. lia. }
  rewrite (pretty_N_go_step n) by done.
  rewrite (pretty_N_go_step (n / 10)) by done.
  rewrite (pretty_N_go_step (n / 10 / 10)) by done.
  rewrite (pretty_N_go_step (n / 10 / 10 / 10)) by done.
  rewrite H4, pretty_N_go_0.
  eexists _, _, _, _. split; [done|].
  split_and!; apply pretty_char_is_digit.
Qed.

(** X7.  Without [--quarter], the parser's quarter is today's: for a
    four-digit year and a month from 1 to 12 it is a quarter identifier, the
    year followed by Q and the number of the month's quarter. *)
Theorem default_quarter_is_well_formed argv (w : World) :
  (1000 <= N.of_nat today_year <= 9999)%N ->
  (1 <= today_month <= 12)%nat ->
  opt_quarter argv = None ->
  exists args w',
    parse_arguments argv w = (Ok args, w')
    /\ quarter args
       = pretty today_year +:+ "Q" +:+ pretty ((today_month - 1) / 3 + 1)%nat
    /\ is_quarter (quarter args) = true
    /\ ((today_month - 1) / 3 + 1 <= 4)%nat.
Proof.
  intros Hyear Hmonth Hnone. rewrite RunFacts.parse_arguments_run.
  eexists _, _. split; [done|]. unfold parsed. simpl. rewrite Hnone. simpl.
  unfold current_quarter. split; [done|]. split.
  - destruct (pretty_four_digits (N.of_nat today_year))
      as (d1 & d2 & d3 & d4 & Hpretty & H1 & H2 & H3 & H4); [done|].
    unfold pretty at 1, pretty_nat. rewrite Hpretty, !append_cons, append_empty.
    assert (today_month ∈ seq 1 12) as Hin by (apply elem_of_seq; lia).
    cbv [seq] in Hin.
    unfold is_quarter.
    repeat (apply elem_of_cons in Hin as [Heq|Hin];
            [rewrite Heq;
             match goal with
             | |- context [pretty ?k] =>
                 let v := eval vm_compute in (pretty k) in
                 change (pretty k) with v
             end;
             rewrite append_empty; cbv iota; rewrite H1, H2, H3, H4;
             by vm_compute|]).
    by apply elem_of_nil in Hin.

  - assert (today_month ∈ seq 1 12) as Hin by (apply elem_of_seq; lia).
    cbv [seq] in Hin.
    repeat (apply elem_of_cons in Hin as [Heq|Hin];
            [rewrite Heq; vm_compute; lia|]).
    by apply elem_of_nil in Hin.
Qed.

End PathProperties.

(** ** Single reports *)

Section ReportProperties.
Import Pandas Plot Reports Spec PandasFacts.
Context `{Environment}.

Ltac run_report :=
  unfold visualize_by_span, visualize_by_license_type, bind, log, emit, deref,
    lift, assign, savefig, makedirs, extern, ret; simpl.

Lemma stripped_values df : map snd (str_strip_columns df) = map snd df.
Proof. unfold str_strip_columns. rewrite map_map. by apply map_ext. Qed.

(** X8.  A report changes nothing of the frames but headers: the other frames
    of the store stay as they are, and the frame it is run on keeps its
    values, column by column, under headers that are the old ones or the old
    ones stripped.  This holds for the span reports and for the license-type
    report, whether they return or raise. *)
Theorem reports_change_headers_only data args (w : World) df :
  heap w !! data = Some df ->
  forall res w',
    (exists r, visualize_by_span r data args w = (res, w'))
    \/ visualize_by_license_type data args w = (res, w') ->
    length (heap w') = length (heap w)
    /\ (forall other, other <> data -> heap w' !! other = heap w !! other)
    /\ exists df',
         heap w' !! data = Some df'
         /\ map snd df' = map snd df
         /\ (columns df' = columns df
             \/ columns df' = map PyStr.strip (columns df)).
Proof.
  intros Hdata res w' Hrun.
  assert (heap w' = heap w
          \/ heap w' = <[data := str_strip_columns df]> (heap w)) as Hheap.
  { destruct Hrun as [[r Hrun] | Hrun].
    - destruct (RunFacts.visualize_by_span_effect r data args w df Hdata)
        as (res0 & w0 & Hrun0 & _ & Hcase).
      rewrite Hrun in Hrun0. simplify_eq.
      destruct (span_names r df);
        [right; by destruct Hcase as [? _]
        |left; by destruct Hcase as (_ & ? & _)].
    - destruct (RunFacts.visualize_by_license_type_effect data args w df Hdata)
        as (res0 & w0 & Hrun0 & _ & Hheap & _).
      rewrite Hrun in Hrun0. simplify_eq. by right. }
  destruct Hheap as [-> | ->].
  - split_and!; [done..|]. exists df. by split_and!; [| |left].
  - split_and!.
    + apply length_insert.
    + intros other Hother. by apply list_lookup_insert_ne.
    + exists (str_strip_columns df). split_and!.
      * by eapply RunFacts.deref_assigned.
      * apply stripped_values.
      * right. apply columns_stripped.
Qed.

(** X9.  A span report shows its plot only when [--show-plots] is given, and
    then right after the chart has been saved, and once; and a report that
    returns under [--show-plots] has shown it. *)
Theorem plots_shown_on_request r data args (w : World) res w' new :
  visualize_by_span r data args w = (res, w') ->
  trace w' = trace w ++ new ->
  (Show ∈ new ->
   show_plots args = true
   /\ (exists before after,
         new = before
               ++ (Save (image_path (quarter args) (image_name r))
                   :: Show :: after)
         /\ (Show ∉ before) /\ (Show ∉ after))
   /\ is_Some (files w' !! image_path (quarter args) (image_name r)))
  /\ (res = Ok tt -> show_plots args = true -> Show ∈ new).
Proof.
  run_report. intros Hrun Htrace.
  destruct (heap w !! data) as [df|] eqn:Hdata; simpl in Hrun;
    [|simplify_eq; simpl in Htrace; apply app_inv_head in Htrace as <-;
      split; [absent_step | done]].
  destruct (span_names r df) as [names|e]; simpl in Hrun;
    [|simplify_eq; simpl in Htrace; apply app_inv_head in Htrace as <-;
      split; [absent_step | done]].
  rewrite (RunFacts.deref_assigned w data df _ Hdata) in Hrun. simpl in Hrun.
  destruct (span_sums (str_strip_columns df) names) as [sd|e]; simpl in Hrun;
    [|simplify_eq; simpl in Htrace; rewrite <- !app_assoc in Htrace;
      apply app_inv_head in Htrace as <-; split; [absent_step | done]].
  destruct (barplot (map snd sd)) as [[]|e]; simpl in Hrun;
    [|simplify_eq; simpl in Htrace; rewrite <- !app_assoc in Htrace;
      apply app_inv_head in Htrace as <-; split; [absent_step | done]].
  destruct (show_plots args) eqn:Hshow; simpl in Hrun;
    destruct (update_readme _ _ _ _ _ _) as [[[]|e] x]; simpl in Hrun;
    simplify_eq; simpl in Htrace; rewrite <- !app_assoc in Htrace;
    apply app_inv_head in Htrace as <-; simpl;
    (split; [|intros; try done; present_step]);
    try absent_step;
    (intros _; split; [done|]; split;
     [eexists [_; _; _], _; split; [reflexivity|]; split; absent_step
     |rewrite lookup_insert_eq; by eexists]).
Qed.

Lemma labelled_missing key (df : DataFrame) :
  key ∉ columns df -> labelled key df = [].
Proof.
  unfold labelled, columns. induction df as [|c df IH]; [done|].
  simpl. intros [Hne Hrest]%not_elem_of_cons.
  rewrite filter_cons_False by (intros Heq; by apply Hne). by apply IH.
Qed.

(** X10.  On a frame without a "LICENSE TYPE" column (after stripping) the
    license-type report raises [KeyError] and writes no file; but by then it
    has stripped the headers of the frame. *)
Theorem license_column_missing data args (w : World) df :
  heap w !! data = Some df ->
  "LICENSE TYPE" ∉ map PyStr.strip (columns df) ->
  exists w',
    visualize_by_license_type data args w = (Raise (KeyError "LICENSE TYPE"), w')
    /\ files w' = files w /\ ext w' = ext w
    /\ heap w' = <[data := str_strip_columns df]> (heap w).
Proof.
  intros Hdata Hmissing.
  destruct (RunFacts.visualize_by_license_type_effect data args w df Hdata)
    as (res & w' & Hrun & _ & Hheap & Hcase).
  rewrite <- columns_stripped in Hmissing.
  unfold license_sums, set_index in Hcase.
  rewrite (labelled_missing _ _ Hmissing) in Hcase. simpl in Hcase.
  destruct Hcase as (-> & Hfiles & Hext). by exists w'.
Qed.

Lemma short_labels_number (labels : list cell) z :
  Num z ∈ labels -> rmapM short_label labels = Raise TypeError.
Proof.
  induction labels as [|c labels IH]; intros Hin; [by apply elem_of_nil in Hin|].
  destruct c as [n|s|cs]; [done|..];
    (apply elem_of_cons in Hin as [?|Hin]; [done|]); simpl; by rewrite IH.
Qed.

(** X11.  A license type that is a number, not text, makes the license-type
    report raise [TypeError] at the relabelling of the axis, before the chart
    is saved: no file is written. *)
Theorem numeric_license_type_fails data args (w : World) df series z :
  heap w !! data = Some df ->
  license_data df = Ok series ->
  Num z ∈ map fst series ->
  exists w',
    visualize_by_license_type data args w = (Raise TypeError, w')
    /\ files w' = files w /\ ext w' = ext w.
Proof.
  intros Hdata Hseries Hnum.
  destruct (RunFacts.visualize_by_license_type_effect data args w df Hdata)
    as (res & w' & Hrun & _ & _ & Hcase).
  unfold license_data in Hseries.
  destruct (drawn (license_sums (str_strip_columns df))) as [ld|e] eqn:Hdrawn.
  - apply PlotFacts.drawn_ok in Hdrawn as [Hld _].
    rewrite Hseries in Hld. injection Hld as <-.
    rewrite (short_labels_number _ _ Hnum) in Hcase.
    destruct Hcase as (-> & Hfiles & Hext). by exists w'.
  - apply (PlotFacts.drawn_raises _ _ _ Hseries) in Hdrawn as ->.
    destruct Hcase as (-> & Hfiles & Hext). by exists w'.
Qed.

(** X13.  From a file whose records all have one field per column, the
    loader hands over a new frame, behind a reference no frame had before:
    its labels are the file's, blanks included, its rows are the records, and
    the frames and files that were there are as before. *)
Theorem loader_hands_over_the_file args (w : World) c :
  files w !! fetched_path (quarter args) = Some (CsvFile c) ->
  csv_header c <> [] ->
  Forall (fun r => length r = length (csv_header c)) (csv_records c) ->
  exists w' df,
    load_data args w = (Ok (length (heap w)), w')
    /\ heap w' = heap w ++ [df]
    /\ files w' = files w
    /\ columns df = csv_header c
    /\ nrows df = length (csv_records c)
    /\ rows df (nrows df) = csv_records c
    /\ rectangular df.
Proof.
  intros Hfile Hheader Hrecords.
  destruct (FrameProperties.read_csv_frame c Hheader Hrecords)
    as (df & Hread & Hcols & Hrows & Hrect & Hrecs).
  rewrite RunFacts.load_data_run, Hfile, Hread.
  eexists _, df. split; [done|]. simpl. rewrite Hrows. by split_and!.
Qed.

End ReportProperties.

(** ** Whole runs *)

Section MainProperties.
Import Pandas Plot Reports Spec PandasFacts.
Context `{Environment}.

(** X14.  A run that goes through to the end on a frame with rows leaves the
    three charts of the quarter, each made from the frame as loaded: the
    country series, the license-type series with the labels for its ticks,
    the language series, all of numbers.  Where the labels of a series are
    pairwise distinct, the chart has one bar for each entry.  The loaded
    frame is in the store with its headers stripped. *)
Theorem complete_run_saves_the_charts argv (w w' : World) df :
  main argv w = (Ok tt, w') ->
  loaded_frame w (quarter (parsed argv)) = Ok df ->
  empty df = false ->
  exists by_country by_license labels by_language country_chart license_chart
         language_chart,
    (span_data country df = Ok by_country
     /\ license_data df = Ok by_license
     /\ rmapM short_label (map fst by_license) = Ok labels
     /\ span_data language df = Ok by_language)
    /\ Forall (fun x => is_num x = true)
              (map snd by_country ++ map snd by_license ++ map snd by_language)
    /\ (files w' !! image_path (quarter (parsed argv)) "gcs_country_report.png"
        = Some (PngFile country_chart)
        /\ files w'
             !! image_path (quarter (parsed argv)) "gcs_licensetype_report.png"
           = Some (PngFile license_chart)
        /\ files w' !! image_path (quarter (parsed argv)) "gcs_language_report.png"
           = Some (PngFile language_chart))
    /\ (barplot_x country_chart = map (fun p => Text (fst p)) by_country
        /\ barplot_y country_chart = map snd by_country
        /\ xticklabels country_chart = None)
    /\ (barplot_x license_chart = map fst by_license
        /\ barplot_y license_chart = map snd by_license
        /\ xticklabels license_chart = Some labels)
    /\ (barplot_x language_chart = map (fun p => Text (fst p)) by_language
        /\ barplot_y language_chart = map snd by_language
        /\ xticklabels language_chart = None)
    /\ (NoDup (map fst by_country) ->
        bars country_chart
        = map (fun p : string * cell => (Text (fst p), [snd p])) by_country)
    /\ (NoDup (map fst by_license) ->
        bars license_chart
        = map (fun p : cell * cell => (fst p, [snd p])) by_license)
    /\ (NoDup (map fst by_language) ->
        bars language_chart
        = map (fun p : string * cell => (Text (fst p), [snd p])) by_language)
    /\ heap w' = heap w ++ [str_strip_columns df].
Proof.
  intros Hrun Hframe Hempty.
  destruct (RunFacts.main_complete argv w w' df Hrun Hframe Hempty)
    as (cd & ld & labels & gd & x1 & x2 & x3 & x4 & x5
        & Hseries & (Hcp & Hlp & Hgp) & Hfiles & Hheap & _).
  pose proof (report_paths_distinct (quarter (parsed argv))) as Hpaths.
  unfold report_paths in Hpaths.
  apply NoDup_cons in Hpaths as [Hc Hpaths].
  apply NoDup_cons in Hpaths as [Hl _].
  apply not_elem_of_cons in Hc as [Hcl Hc].
  apply not_elem_of_cons in Hc as [Hcg _].
  apply not_elem_of_cons in Hl as [Hlg _].
  exists cd, ld, labels, gd,
    (span_chart country (quarter (parsed argv)) cd),
    (Reports.license_chart (quarter (parsed argv)) ld labels),
    (span_chart language (quarter (parsed argv)) gd).
  split; [done|]. split.
  { rewrite !Forall_app. split_and!; by apply PlotFacts.barplot_ok. }
  split.
  { rewrite Hfiles. split_and!.
    - rewrite !lookup_insert_ne by done. apply lookup_insert_eq.
    - rewrite lookup_insert_ne by done. apply lookup_insert_eq.
    - apply lookup_insert_eq. }
  split; [done|]. split; [done|]. split; [done|].
  split; [intros Hnd; by apply span_chart_bars|].
  split; [intros Hnd; by apply license_chart_bars|].
  split; [intros Hnd; by apply span_chart_bars | done].
Qed.

(** X16.  For the process a missing input file is no failure: when the pull
    went through, the script ends without an exit call, its last log record
    is the loader's error, and no file was written. *)
Theorem missing_input_is_no_failure argv (w : World) :
  fst (fetch_and_merge repo_root (ext w)) = Ok tt ->
  files w !! fetched_path (quarter (parsed argv)) = None ->
  exists w',
    script argv w = (Finished, w')
    /\ files w' = files w
    /\ last (trace w')
       = Some (Log Error (Msg ("Data file not found: "
                               +:+ fetched_path (quarter (parsed argv))))).
Proof.
  intros Hpull Hfile. unfold script.
  destruct (main argv w) as [res w'] eqn:Hrun. unfold main in Hrun.
  apply RunFacts.bind_run in Hrun as [(e & Hp & ?) | ([] & w1 & Hp & Hrun)];
    apply (RunFacts.call_extern_run _ _ _ _ _ []) in Hp as (_ & Hh1 & Hf1 & Hx);
    rewrite <- Hx in Hpull; [done|].
  apply RunFacts.bind_run in Hrun as [(e & Hparse & ?) | (args & w2 & Hparse & Hrun)];
    apply (RunFacts.call_parse_run _ _ _ _ []) in Hparse as (Hargs & _ & Hh2 & Hf2);
    [done|]. simplify_eq.
  assert (files w2 !! fetched_path (quarter (parsed argv)) = None) as Hfile2
      by by rewrite Hf2, Hf1.
  unfold call at 1, bind at 1 2, emit in Hrun. simpl in Hrun.
  rewrite RunFacts.load_data_run in Hrun. simpl in Hrun.
  simpl in Hfile2. rewrite Hfile2 in Hrun.
  unfold bind at 1, is_empty, bind, deref, ret in Hrun.
  simpl in Hrun. rewrite list_lookup_middle in Hrun by done. simpl in Hrun.
  simplify_eq. eexists. split; [done|]. simpl. split; [congruence|].
  by rewrite last_snoc.
Qed.

(** X17.  A loaded file with rows but without a sentinel column of the
    country report is fatal: when the pull went through, [main] raises the
    [ValueError] of the lookup at its fourth step, the script logs it with
    its trace and exits with code 1, and no file was written (nothing was
    committed or pushed either). *)
Theorem missing_sentinel_is_fatal argv (w : World) df :
  fst (fetch_and_merge repo_root (ext w)) = Ok tt ->
  loaded_frame w (quarter (parsed argv)) = Ok df ->
  empty df = false ->
  "United States" ∉ map PyStr.strip (columns df)
  \/ "Japan" ∉ map PyStr.strip (columns df) ->
  exists name w' new,
    main argv w = (Raise (ValueError name), w')
    /\ (name = "United States" \/ name = "Japan")
    /\ script argv w
       = (Exited (CodeInt 1),
          snd (log Error (MsgTrace "(1) Unhandled exception: " (ValueError name))
                 w'))
    /\ files w' = files w
    /\ trace w' = trace w ++ new
    /\ steps_of new = [Pull; ParseArgs; LoadData; CountryReport].
Proof.
  intros Hpull Hframe Hempty Hmiss.
  destruct (span_names_missing country df Hmiss) as (name & Hnames & Hname).
  assert (exists w' new,
            main argv w = (Raise (ValueError name), w')
            /\ files w' = files w /\ trace w' = trace w ++ new
            /\ steps_of new = [Pull; ParseArgs; LoadData; CountryReport])
    as (w' & new & Hmain & Hfiles & Htrace & Hsteps).
  { destruct (main argv w) as [res w'] eqn:Hrun. unfold main in Hrun.
    apply RunFacts.bind_run in Hrun as [(e & Hp & ?) | ([] & w1 & Hp & Hrun)];
      apply (RunFacts.call_extern_run _ _ _ _ _ []) in Hp as (Ha1 & Hh1 & Hf1 & Hx);
      rewrite <- Hx in Hpull; [done|].
    apply RunFacts.bind_run in Hrun
        as [(e & Hparse & ?) | (args & w2 & Hparse & Hrun)];
      apply (RunFacts.call_parse_run _ _ _ _ []) in Hparse
        as (Hargs & Ha2 & Hh2 & Hf2); [done|]. simplify_eq.
    apply RunFacts.bind_run in Hrun
        as [(e & Hload & ?) | (data & w3 & Hload & Hrun)];
      apply (RunFacts.call_load_run _ _ _ _ []) in Hload as (Ha3 & Hf3 & Hcase);
      rewrite (RunFacts.loaded_frame_files w w2) in Hcase by congruence;
      rewrite Hframe in Hcase; destruct Hcase as [Hdata Hh3]; [done|].
    simplify_eq. rewrite Hh2, Hh1 in Hh3, Hrun.
    assert (heap w3 !! length (heap w) = Some df) as Hdata
        by (rewrite Hh3; by apply list_lookup_middle).
    apply RunFacts.bind_run in Hrun as [(e & Hemp & ?) | (b & w4 & Hemp & Hrun)];
      rewrite (RunFacts.is_empty_run _ _ _ Hdata) in Hemp; [done|].
    simplify_eq. rewrite Hempty in Hrun.
    destruct (RunFacts.log_run Info (Msg ("Current working directory: " +:+ cwd))
                w4 []) as (w5' & Hlog' & Ha5 & Hh5 & Hf5).
    apply RunFacts.bind_run in Hrun as [(e & Hlog & ?) | ([] & w5 & Hlog & Hrun)];
      rewrite Hlog' in Hlog; [done|]. simplify_eq.
    rewrite <- Hh5 in Hdata.
    pose proof (RunFacts.advances_trans _ _ _ _ _ _ Ha1 Ha2) as Ha12.
    pose proof (RunFacts.advances_trans _ _ _ _ _ _ Ha12 Ha3) as Ha123.
    pose proof (RunFacts.advances_trans _ _ _ _ _ _ Ha123 Ha5) as Ha.
    simpl in Ha.
    assert (forall r w6,
              call CountryReport (visualize_by_country (length (heap w))
                                    (parsed argv)) w5 = (r, w6) ->
              r = Raise (ValueError name) /\ files w6 = files w5
              /\ exists new6, trace w6 = trace w5 ++ new6
                               /\ steps_of new6 = [CountryReport]) as Hcountry.
    { intros r w6. unfold call, bind at 1, emit, visualize_by_country. simpl.
      match goal with
      | |- visualize_by_span _ _ _ ?w0 = _ -> _ => set (w0' := w0)
      end.
      destruct (RunFacts.visualize_by_span_effect country (length (heap w))
                  (parsed argv) w0' df Hdata)
        as (res0 & w0 & Hrun0 & (new0 & Ht0 & Hs0) & Hcase).
      rewrite Hrun0. intros ?. simplify_eq. rewrite Hnames in Hcase.
      destruct Hcase as (-> & _ & Hfiles0 & _). split_and!; [done..|].
      exists (Enter CountryReport :: new0). simpl in Ht0.
      rewrite Ht0, <- app_assoc. split; [done|]. simpl. by rewrite Hs0. }
    apply RunFacts.bind_run in Hrun as [(e & Hc & ?) | ([] & w6 & Hc & Hrun)];
      apply Hcountry in Hc as (Hres & Hf6 & new6 & Ht6 & Hs6); [|done].
    simplify_eq.
    destruct Ha as ((new5 & Ht5 & Hs5) & _).
    exists w', (new5 ++ new6). split_and!.
    - done.
    - congruence.
    - by rewrite Ht6, Ht5, app_assoc.
    - by rewrite RunFacts.steps_of_app, Hs5, Hs6. }
  exists name, w', new. split_and!; try done.
  unfold script. by rewrite Hmain.
Qed.

(** X18.  The script never pushes in a run in which it has not committed:
    wherever the trace of a run shows the push, it shows the commit before
    it. *)
Theorem no_push_without_commit argv (w : World) res w' new :
  main argv w = (res, w') ->
  trace w' = trace w ++ new ->
  Push ∈ steps_of new ->
  exists before, steps_of new = before ++ [Commit; Push]
                 /\ opt_skip_commit argv = false.
Proof.
  intros Hrun Htrace Hpush.
  destruct (RunFacts.main_run argv w res w' Hrun)
    as (steps & [(new' & Ht & Hs) _] & [rest Hprefix] & _).
  rewrite Htrace in Ht. apply app_inv_head in Ht. subst new'.
  rewrite Hs in Hpush |- *. clear Hs Htrace Hrun.
  unfold plan, parsed in Hprefix. simpl in Hprefix.
  destruct (opt_skip_commit argv), (opt_skip_push argv); simpl in Hprefix;
    repeat (destruct steps as [|? steps];
            [by (revert Hpush; absent_step)|];
            injection Hprefix as <- Hprefix);
    try (destruct steps; [|done]);
    try (by (revert Hpush; absent_step)).
  by exists [Pull; ParseArgs; LoadData; CountryReport; LicenseTypeReport;
             LanguageReport].
Qed.

End MainProperties.

(** ** Sample runs, continued *)

Section MoreSampleRuns.
Import Pandas Plot Reports Spec Samples MoreSamples.

(** With "Japan" first the country series is empty. *)
Lemma reversed_sentinels_japan_first :
  span_names country japan_first = Ok [] /\ span_data country japan_first = Ok [].
Proof.
  apply (FrameProperties.reversed_sentinels_give_nothing country japan_first 2 0);
    [reflexivity | reflexivity | lia].
Defined.

(** The country series of the fixture runs from "United States" to "Japan". *)
Lemma span_bars_fixture :
  map fst [("United States", Num 40); ("Canada", Num 3); ("Japan", Num 25)]
  = slice (map PyStr.strip (columns fixture)) 1 4
  /\ length [("United States", Num 40); ("Canada", Num 3); ("Japan", Num 25)] = (3 - 1 + 1)%nat
  /\ head (map fst [("United States", Num 40); ("Canada", Num 3); ("Japan", Num 25)])
     = Some "United States"
  /\ last (map fst [("United States", Num 40); ("Canada", Num 3); ("Japan", Num 25)])
     = Some "Japan".
Proof.
  apply (FrameProperties.span_bars_run_between_sentinels country fixture 1 3).
  - reflexivity.
  - reflexivity.
  - lia.
  - intros names Hnames. vm_compute in Hnames. injection Hnames as <-.
    repeat (apply Forall_cons_2; [by vm_compute|]). apply Forall_nil_2.
  - by vm_compute.
Defined.

(** The quarter "/tmp/x" sends the script to "/tmp/x/...". *)
Lemma absolute_quarter_tmp :
  @fetched_path quiet "/tmp/x" = "/tmp/x/1-fetch/gcs_fetched.csv"
  /\ @image_path quiet "/tmp/x" "gcs_country_report.png"
     = "/tmp/x/3-report/gcs_country_report.png".
Proof.
  destruct (@absolute_quarter_replaces_data_root quiet "/tmp/x" eq_refl)
    as [Hinput Himage].
  split; [exact Hinput | exact (Himage "gcs_country_report.png")].
Defined.

(** In May 2024 the default quarter is 2024Q2. *)
Lemma default_quarter_may_2024 :
  exists args w',
    @parse_arguments quiet argv_default world_no_input = (Ok args, w')
    /\ quarter args = "2024Q2"
    /\ is_quarter (quarter args) = true.
Proof.
  destruct (@default_quarter_is_well_formed quiet argv_default world_no_input)
    as (args & w' & Hparse & Hquarter & Hwell & _).
  - by vm_compute.
  - simpl. lia.
  - reflexivity.
  - exists args, w'. split_and!; [exact Hparse | | exact Hwell].
    rewrite Hquarter. by vm_compute.
Defined.

(** The country report on the fixture keeps the values of the frame. *)
Lemma reports_change_headers_only_fixture :
  exists df',
    heap (snd (@visualize_by_span quiet country 0%nat args0
                 (world_holding fixture))) !! 0%nat = Some df'
    /\ map snd df' = map snd fixture.
Proof.
  destruct (@reports_change_headers_only quiet 0%nat args0
              (world_holding fixture) fixture eq_refl
              (fst (@visualize_by_span quiet country 0%nat args0
                      (world_holding fixture)))
              (snd (@visualize_by_span quiet country 0%nat args0
                      (world_holding fixture))))
    as (_ & _ & df' & Hdf' & Hvalues & _).
  - left. exists country. apply surjective_pairing.
  - by exists df'.
Defined.

(** Under [--show-plots] the country report on the fixture shows its plot. *)
Lemma plots_shown_fixture :
  Show ∈ trace (snd (@visualize_by_span quiet country 0%nat args_show
                       (world_holding fixture))).
Proof.
  destruct (@plots_shown_on_request quiet country 0%nat args_show
              (world_holding fixture)
              (fst (@visualize_by_span quiet country 0%nat args_show
                      (world_holding fixture)))
              (snd (@visualize_by_span quiet country 0%nat args_show
                      (world_holding fixture)))
              (trace (snd (@visualize_by_span quiet country 0%nat args_show
                             (world_holding fixture)))))
    as [_ Hshown].
  - apply surjective_pairing.
  - reflexivity.
  - apply Hshown; reflexivity.
Defined.

(** A frame of countries only stops the license-type report. *)
Lemma license_column_missing_countries :
  exists w',
    @visualize_by_license_type quiet 0%nat args0 (world_holding twice_canada)
    = (Raise (KeyError "LICENSE TYPE"), w')
    /\ files w' = files (world_holding twice_canada)
    /\ ext w' = ext (world_holding twice_canada)
    /\ heap w' = <[0%nat := str_strip_columns twice_canada]>
                   (heap (world_holding twice_canada)).
Proof.
  apply (@license_column_missing quiet 0%nat args0 (world_holding twice_canada)
           twice_canada).
  - reflexivity.
  - vm_compute. absent_step.
Defined.

(** Numbered license types stop the license-type report. *)
Lemma numeric_license_type_numbers :
  exists w',
    @visualize_by_license_type quiet 0%nat args0
      (world_holding numbered_licenses)
    = (Raise TypeError, w')
    /\ files w' = files (world_holding numbered_licenses)
    /\ ext w' = ext (world_holding numbered_licenses).
Proof.
  apply (@numeric_license_type_fails quiet 0%nat args0
           (world_holding numbered_licenses) numbered_licenses
           [(Num 1, Num 3); (Num 2, Num 4)] 1).
  - reflexivity.
  - by vm_compute.
  - simpl. present_step.
Defined.

(** Loading the fixture file gives the fixture frame's rows. *)
Lemma loader_fixture :
  exists w' df,
    @load_data quiet args0 world_fixture = (Ok 0%nat, w')
    /\ heap w' = [df]
    /\ columns df = csv_header fixture_csv
    /\ rows df (nrows df) = csv_records fixture_csv.
Proof.
  destruct (@loader_hands_over_the_file quiet args0 world_fixture fixture_csv)
    as (w' & df & Hload & Hheap & _ & Hcols & _ & Hrows & _).
  - by vm_compute.
  - done.
  - repeat (apply Forall_cons_2; [reflexivity|]). apply Forall_nil_2.
  - by exists w', df.
Defined.

(** The complete run on the fixture draws the fixture's series and leaves
    the frame stripped. *)
Lemma complete_run_fixture :
  exists by_country by_language,
    span_data country fixture = Ok by_country
    /\ span_data language fixture = Ok by_language
    /\ heap (snd (@main quiet argv0 world_fixture))
       = [str_strip_columns fixture].
Proof.
  destruct (@complete_run_saves_the_charts quiet argv0 world_fixture
              (snd (@main quiet argv0 world_fixture)) fixture)
    as (cd & ld & labels & gd & c1 & c2 & c3 & (Hcd & _ & _ & Hgd)
        & _ & _ & _ & _ & _ & _ & _ & _ & Hheap).
  - by vm_compute.
  - by vm_compute.
  - reflexivity.
  - exists cd, gd. split_and!; [exact Hcd | exact Hgd | exact Hheap].
Defined.

(** Without input the script ends without an exit call. *)
Lemma missing_input_finishes :
  exists w', @script quiet argv0 world_no_input = (Finished, w')
             /\ files w' = files world_no_input.
Proof.
  destruct (@missing_input_is_no_failure quiet argv0 world_no_input)
    as (w' & Hscript & Hfiles & _); [reflexivity | reflexivity |].
  by exists w'.
Defined.

(** A file without "Japan" ends the script with code 1. *)
Lemma missing_sentinel_exit :
  exists w', @script quiet argv0 world_no_japan = (Exited (CodeInt 1), w')
             /\ files w' = files world_no_japan.
Proof.
  destruct (@missing_sentinel_is_fatal quiet argv0 world_no_japan no_japan)
    as (name & w' & new & _ & _ & Hscript & Hfiles & _).
  - reflexivity.
  - by vm_compute.
  - reflexivity.
  - right. vm_compute. absent_step.
  - eexists. split; [exact Hscript | exact Hfiles].
Defined.

(** The run on the fixture commits, then pushes. *)
Lemma push_after_commit_fixture :
  exists before,
    steps_of (trace (snd (@main quiet argv0 world_fixture)))
    = before ++ [Commit; Push].
Proof.
  destruct (@no_push_without_commit quiet argv0 world_fixture
              (fst (@main quiet argv0 world_fixture))
              (snd (@main quiet argv0 world_fixture))
              (trace (snd (@main quiet argv0 world_fixture))))
    as (before & Hsteps & _).
  - apply surjective_pairing.
  - reflexivity.
  - vm_compute. present_step.
  - by exists before.
Defined.

End MoreSampleRuns.
